(** * The library client: API service layer, auth provider and page handlers

    A shallow embedding of the TypeScript sources

    - [services/api.ts]      (the fetch wrappers and their response handling),
    - [contexts/AuthContext] (login / logout / signup / confirmSignup),
    - [pages/BookDetail]     (handleSelectList, the add-to-list flow),
    - [pages/ReadingListDetail] (handleRemoveBook, loadBooks, and further
      down loadReadingList and handleDeleteList),
    - [pages/BookDetail], again (loading the book, the lists and the
      reviews; writing a review),
    - [components/books/ReadingListBookCard] (the fallback of the cover),
    - [pages/Signup]         (validate, handleSubmit),

    followed by the properties of the specification that concern them.

    Conventions.  A JavaScript value that came out of [JSON.parse] is a
    [json]; [undefined] is [None] of [option json].  An [async] function is
    a computation in the monad [M]: it threads the component state, appends
    the effects it performs to a trace, and ends in [Ok v] (the promise
    resolves with [v]) or in [Throw e] (it rejects with [e]).  A text is
    held as the bytes of its UTF-8 form. *)

From Stdlib Require Import String Ascii List ZArith Bool Lia DecimalString.
Import ListNotations.
Local Open Scope list_scope.
Local Open Scope string_scope.

Set Implicit Arguments.
#[local] Set Warnings "-register-all".

(* ================================================================== *)
(** ** JavaScript values decoded from JSON *)

(** JSON numbers are modelled by the integers: the client never computes
    with a number, it only tests truthiness and prints it. *)
Inductive json : Type :=
| JNull
| JBool (b : bool)
| JNum (n : Z)
| JStr (s : string)
| JArr (items : list json)
| JObj (fields : list (string * json)).

(** Exceptions: [Error msg] is [new Error(msg)] of the client's own code;
    the two others are raised by the platform ([JSON.parse] or
    [response.json()] on a malformed text, property access on [null]). *)
Inductive exn : Type :=
| Error (message : string)
| SyntaxError
| TypeError.

Inductive result (A : Type) : Type :=
| Ok (a : A)
| Throw (e : exn).
Arguments Ok {A} a.
Arguments Throw {A} e.

Module Js.

(** Own property of an object, first binding wins. *)
Fixpoint lookup (k : string) (fields : list (string * json)) : option json :=
  match fields with
  | [] => None
  | (k', v) :: rest => if String.eqb k k' then Some v else lookup k rest
  end.

(** [o.k = v] on an object: an existing key keeps its place. *)
Fixpoint assign (k : string) (v : json) (fields : list (string * json))
  : list (string * json) :=
  match fields with
  | [] => [(k, v)]
  | (k', v') :: rest =>
      if String.eqb k k' then (k', v) :: rest else (k', v') :: assign k v rest
  end.

(** [delete o.k]. *)
Definition delete (k : string) (fields : list (string * json))
  : list (string * json) :=
  filter (fun kv => negb (String.eqb k (fst kv))) fields.

(** [v.k] for a key [k] found on no prototype (body, books, bookIds,
    message, error, recommendations): [undefined] on arrays and
    primitives, a [TypeError] on [null]. *)
Definition get (v : json) (k : string) : result (option json) :=
  match v with
  | JNull => Throw TypeError
  | JObj fields => Ok (lookup k fields)
  | _ => Ok None
  end.

(** ToBoolean. *)
Definition truthy (v : json) : bool :=
  match v with
  | JNull => false
  | JBool b => b
  | JNum n => negb (Z.eqb n 0)
  | JStr s => negb (String.eqb s "")
  | JArr _ | JObj _ => true
  end.

Definition truthy_opt (v : option json) : bool :=
  match v with
  | None => false
  | Some v => truthy v
  end.

(** [Array.isArray]. *)
Definition isArray (v : json) : bool :=
  match v with
  | JArr _ => true
  | _ => false
  end.

(** Decimal rendering of an integer, as a template literal prints it. *)
Definition Number_toString (n : Z) : string :=
  NilZero.string_of_int (Z.to_int n).

Definition join (sep : string) (parts : list string) : string :=
  match parts with
  | [] => ""
  | p :: ps => fold_left (fun acc q => acc ++ sep ++ q) ps p
  end.

Fixpoint sequence (l : list (option string)) : option (list string) :=
  match l with
  | [] => Some []
  | None :: _ => None
  | Some x :: rest =>
      match sequence rest with
      | Some xs => Some (x :: xs)
      | None => None
      end
  end.

(** ToString of a value, [None] when it raises a [TypeError]: an object
    prints through [Object.prototype.toString] unless an own (and then
    not callable) [toString] property shadows it; an array joins its
    elements with commas, [null] elements printing as nothing. *)
Fixpoint ToString (v : json) : option string :=
  match v with
  | JNull => Some "null"
  | JBool true => Some "true"
  | JBool false => Some "false"
  | JNum n => Some (Number_toString n)
  | JStr s => Some s
  | JArr items =>
      match sequence (map (fun e => match e with
                                    | JNull => Some ""
                                    | _ => ToString e
                                    end) items) with
      | Some parts => Some (join "," parts)
      | None => None
      end
  | JObj fields =>
      match lookup "toString" fields with
      | Some _ => None
      | None => Some "[object Object]"
      end
  end.

(** [typeof v === 'string' && v] : a non-empty string. *)
Definition nonempty_string (v : option json) : option string :=
  match v with
  | Some (JStr s) => if String.eqb s "" then None else Some s
  | _ => None
  end.

(** The double quote, spelled by its code, and a text between two. *)
Definition quote : ascii := ascii_of_nat 34.

Definition quoted (s : string) : string :=
  String quote (s ++ String quote EmptyString).

(** [Array.prototype.includes] on strings. *)
Definition includes (l : list string) (x : string) : bool :=
  existsb (String.eqb x) l.

(** [String.prototype.includes]. *)
Fixpoint contains (needle hay : string) : bool :=
  if String.prefix needle hay then true
  else match hay with
       | EmptyString => false
       | String _ rest => contains needle rest
       end.

Definition lower (c : ascii) : ascii :=
  let n := nat_of_ascii c in
  if andb (Nat.leb 65 n) (Nat.leb n 90) then ascii_of_nat (n + 32) else c.

(** The bytes E2 84 AA: U+212A KELVIN SIGN in UTF-8. *)
Definition kelvin (a b c : ascii) : bool :=
  andb (Nat.eqb (nat_of_ascii a) 226)
       (andb (Nat.eqb (nat_of_ascii b) 132) (Nat.eqb (nat_of_ascii c) 170)).

(** [String.prototype.toLowerCase], on texts held in UTF-8.  It is exact
    on the characters whose lower case is an ASCII character: the
    letters A to Z, and the Kelvin sign, whose lower case is [k].  The
    other characters outside ASCII are left as they are; their lower
    case is outside ASCII as well, so the comparison of a lower-cased
    text with an ASCII text comes out as in the language. *)
Fixpoint toLowerCase (s : string) : string :=
  match s with
  | EmptyString => EmptyString
  | String a rest1 =>
      match rest1 with
      | String b (String c rest3) =>
          if kelvin a b c then String "k" (toLowerCase rest3)
          else String (lower a) (toLowerCase rest1)
      | _ => String (lower a) (toLowerCase rest1)
      end
  end.

End Js.

(* ================================================================== *)
(** ** A reader of JSON texts

    [JSON.parse] belongs to the platform.  The client functions below take
    it as a parameter; this reader instantiates the parameter wherever a
    property is evaluated on a concrete response.  It follows the JSON
    grammar (white space, the three literals, strings with their escapes,
    arrays, objects with the last binding of a repeated key winning), for
    texts whose numbers are integer literals and whose [\u] escapes stay
    within ASCII: a fraction, an exponent or a wider escape denotes a value
    that [json] has no constructor for and is not read. *)

Module JsonText.

Definition is_ws (c : ascii) : bool :=
  let n := nat_of_ascii c in
  orb (Nat.eqb n 32) (orb (Nat.eqb n 9) (orb (Nat.eqb n 10) (Nat.eqb n 13))).

Fixpoint skip_ws (s : string) : string :=
  match s with
  | String c rest => if is_ws c then skip_ws rest else s
  | EmptyString => s
  end.

Definition digit (c : ascii) : option Z :=
  let n := nat_of_ascii c in
  if andb (Nat.leb 48 n) (Nat.leb n 57) then Some (Z.of_nat (n - 48)) else None.

Definition hex (c : ascii) : option nat :=
  let n := nat_of_ascii c in
  if andb (Nat.leb 48 n) (Nat.leb n 57) then Some (n - 48)
  else if andb (Nat.leb 65 n) (Nat.leb n 70) then Some (n - 55)
  else if andb (Nat.leb 97 n) (Nat.leb n 102) then Some (n - 87)
  else None.

(** The digits at the head of [s], accumulated in base ten. *)
Fixpoint read_digits (acc : Z) (s : string) : Z * string :=
  match s with
  | String c rest =>
      match digit c with
      | Some d => read_digits (10 * acc + d) rest
      | None => (acc, s)
      end
  | EmptyString => (acc, s)
  end.

(** What may not follow an integer literal that is read as a [JNum]. *)
Definition continues_number (s : string) : bool :=
  match s with
  | String c _ =>
      match digit c with
      | Some _ => true
      | None => orb (Ascii.eqb c ".") (orb (Ascii.eqb c "e") (Ascii.eqb c "E"))
      end
  | EmptyString => false
  end.

(** [0] or a digit sequence without leading zero. *)
Definition read_nat (s : string) : option (Z * string) :=
  match s with
  | String c rest =>
      match digit c with
      | Some 0%Z => if continues_number rest then None else Some (0%Z, rest)
      | Some d =>
          let '(n, rest') := read_digits d rest in
          if continues_number rest' then None else Some (n, rest')
      | None => None
      end
  | EmptyString => None
  end.

Definition read_number (s : string) : option (json * string) :=
  match s with
  | String "-" rest =>
      match read_nat rest with
      | Some (n, rest') => Some (JNum (- n), rest')
      | None => None
      end
  | _ =>
      match read_nat s with
      | Some (n, rest') => Some (JNum n, rest')
      | None => None
      end
  end.

(** The code unit of [\u00hl], when it is an ASCII character. *)
Definition unicode (a b c d : ascii) : option ascii :=
  match hex a, hex b, hex c, hex d with
  | Some 0, Some 0, Some h, Some l =>
      if Nat.ltb h 8 then Some (ascii_of_nat (16 * h + l)) else None
  | _, _, _, _ => None
  end.

(** The characters of a string literal after its opening quote, up to and
    including the closing one. *)
Fixpoint read_chars (s : string) : option (string * string) :=
  let put c rest := match read_chars rest with
                    | Some (str, rest') => Some (String c str, rest')
                    | None => None
                    end in
  match s with
  | EmptyString => None
  | String c rest =>
      if Ascii.eqb c Js.quote then Some (EmptyString, rest)
      else if Ascii.eqb c "\" then
        match rest with
        | String "u" (String h3 (String h2 (String h1 (String h0 rest')))) =>
            match unicode h3 h2 h1 h0 with
            | Some u => put u rest'
            | None => None
            end
        | String e rest' =>
            if Ascii.eqb e Js.quote then put e rest'
            else if Ascii.eqb e "\" then put e rest'
            else if Ascii.eqb e "/" then put e rest'
            else if Ascii.eqb e "b" then put (ascii_of_nat 8) rest'
            else if Ascii.eqb e "f" then put (ascii_of_nat 12) rest'
            else if Ascii.eqb e "n" then put (ascii_of_nat 10) rest'
            else if Ascii.eqb e "r" then put (ascii_of_nat 13) rest'
            else if Ascii.eqb e "t" then put (ascii_of_nat 9) rest'
            else None
        | EmptyString => None
        end
      else if Nat.ltb (nat_of_ascii c) 32 then None
      else put c rest
  end.

(** The rest of [s] when it starts with [word]. *)
Fixpoint expect (word s : string) : option string :=
  match word, s with
  | EmptyString, _ => Some s
  | String w word', String c rest =>
      if Ascii.eqb w c then expect word' rest else None
  | String _ _, EmptyString => None
  end.

(** An object from its members in source order: a repeated key keeps its
    first place and takes the last value. *)
Definition object_of (members : list (string * json)) : json :=
  JObj (fold_left (fun acc kv => Js.assign (fst kv) (snd kv) acc) members []).

(** Recursive descent; every call spends one unit of [fuel]. *)
Fixpoint read_value (fuel : nat) (s : string) : option (json * string) :=
  match fuel with
  | O => None
  | S fuel' =>
      match skip_ws s with
      | EmptyString => None
      | String "n" rest =>
          option_map (fun r => (JNull, r)) (expect "ull" rest)
      | String "t" rest =>
          option_map (fun r => (JBool true, r)) (expect "rue" rest)
      | String "f" rest =>
          option_map (fun r => (JBool false, r)) (expect "alse" rest)
      | String "[" rest =>
          match skip_ws rest with
          | String "]" rest' => Some (JArr [], rest')
          | _ =>
              option_map (fun vr => (JArr (fst vr), snd vr))
                         (read_items fuel' rest)
          end
      | String "{" rest =>
          match skip_ws rest with
          | String "}" rest' => Some (JObj [], rest')
          | _ =>
              option_map (fun mr => (object_of (fst mr), snd mr))
                         (read_members fuel' rest)
          end
      | String c rest as other =>
          if Ascii.eqb c Js.quote
          then option_map (fun sr => (JStr (fst sr), snd sr)) (read_chars rest)
          else read_number other
      end
  end

with read_items (fuel : nat) (s : string) : option (list json * string) :=
  match fuel with
  | O => None
  | S fuel' =>
      match read_value fuel' s with
      | None => None
      | Some (v, rest) =>
          match skip_ws rest with
          | String "]" rest' => Some ([v], rest')
          | String "," rest' =>
              option_map (fun vr => (v :: fst vr, snd vr))
                         (read_items fuel' rest')
          | _ => None
          end
      end
  end

with read_members (fuel : nat) (s : string)
  : option (list (string * json) * string) :=
  match fuel with
  | O => None
  | S fuel' =>
      match skip_ws s with
      | String c rest =>
          if negb (Ascii.eqb c Js.quote) then None
          else
            match read_chars rest with
            | None => None
            | Some (key, rest1) =>
                match skip_ws rest1 with
                | String ":" rest2 =>
                    match read_value fuel' rest2 with
                    | None => None
                    | Some (v, rest3) =>
                        match skip_ws rest3 with
                        | String "}" rest' => Some ([(key, v)], rest')
                        | String "," rest' =>
                            option_map
                              (fun mr => ((key, v) :: fst mr, snd mr))
                              (read_members fuel' rest')
                        | _ => None
                        end
                    end
                | _ => None
                end
            end
      | EmptyString => None
      end
  end.

(** The value of a whole text; [None] stands for the [SyntaxError]. *)
Definition parse (text : string) : option json :=
  match read_value (2 * String.length text + 2) text with
  | Some (v, rest) =>
      match skip_ws rest with
      | EmptyString => Some v
      | String _ _ => None
      end
  | None => None
  end.

(** [s] with each apostrophe turned into a double quote: the way JSON
    texts are written down in this file. *)
Fixpoint q (s : string) : string :=
  match s with
  | EmptyString => EmptyString
  | String c rest => String (if Ascii.eqb c "'" then Js.quote else c) (q rest)
  end.

End JsonText.

(* ================================================================== *)
(** ** The data model *)

(** Modelled from the spec: the declarations of [@/types] ([Book],
    [ReadingList], [User]) are not among the sources; the fields are those
    of the specification's data model, numbers being integers as in
    [json]. *)
Record Book : Type := {
  book_id : string;
  title : string;
  author : string;
  book_description : string;
  genre : string;
  publishedYear : Z;
  isbn : string;
  coverImage : string;
  rating : Z
}.

Record ReadingList : Type := {
  list_id : string;
  list_name : string;
  list_description : option string;
  bookIds : list string;
  list_createdAt : string;
  list_updatedAt : string
}.

Inductive role : Type := role_admin | role_user.

Record User : Type := {
  user_id : string;
  email : string;
  user_name : string;
  user_role : role;
  user_createdAt : string
}.

(* ================================================================== *)
(** ** HTTP exchanges and the effects of the client *)

Inductive method : Type := GET | POST | PUT | DELETE.

(** The arguments of a [fetch] call; [req_body] is the value handed to
    [JSON.stringify]. *)
Record request : Type := {
  req_method : method;
  req_url : string;
  req_headers : list (string * string);
  req_body : option json
}.

Record response : Type := {
  status : Z;
  statusText : string;
  text : string
}.

(** [response.ok]. *)
Definition ok (r : response) : bool :=
  andb (Z.leb 200 (status r)) (Z.leb (status r) 299).

(** Calls into the identity provider ([aws-amplify/auth]). *)
Inductive provider_call : Type :=
| FetchAuthSession
| SignIn (username password : string)
| SignOut
| SignUp (username password email_attr name_attr : string)
| ConfirmSignUp (username confirmationCode : string)
| GetCurrentUser
| FetchUserAttributes.

(** Calls of a React state setter. *)
Inductive setter : Type :=
| SetUser (u : option User)
| SetIsLoading (b : bool)
| SetIsAddingToList (b : bool)
| SetIsModalOpen (b : bool)
| SetReadingList (l : option ReadingList)
| SetBooks (bs : list Book).

(** What a computation does to the outside, in the order it does it. *)
Inductive event : Type :=
| EvFetch (req : request)
| EvProvider (call : provider_call)
| EvTimeout (ms : Z)
| EvConsoleError (label : string)
| EvShowSuccess (message : string)
| EvHandleApiError (error : exn)
| EvSet (call : setter).

(* ================================================================== *)
(** ** Asynchronous computations *)

(** State in, then state out, the effects performed and the outcome. *)
Definition M (S A : Type) : Type := S -> S * list event * result A.

Section Monad.
Context {S : Type}.

Definition ret {A} (a : A) : M S A := fun s => (s, [], Ok a).

Definition throw {A} (e : exn) : M S A := fun s => (s, [], Throw e).

Definition bind {A B} (m : M S A) (k : A -> M S B) : M S B :=
  fun s =>
    match m s with
    | (s1, t1, Ok a) => let '(s2, t2, r) := k a s1 in (s2, (t1 ++ t2)%list, r)
    | (s1, t1, Throw e) => (s1, t1, Throw e)
    end.

(** [try { m } catch (e) { handler e }]. *)
Definition try_catch {A} (m : M S A) (handler : exn -> M S A) : M S A :=
  fun s =>
    match m s with
    | (s1, t1, Throw e) =>
        let '(s2, t2, r) := handler e s1 in (s2, (t1 ++ t2)%list, r)
    | done => done
    end.

(** [try { m } finally { cleanup }]: the outcome of [m] stands unless
    [cleanup] itself throws. *)
Definition try_finally {A} (m : M S A) (cleanup : M S unit) : M S A :=
  fun s =>
    let '(s1, t1, r) := m s in
    match cleanup s1 with
    | (s2, t2, Ok _) => (s2, (t1 ++ t2)%list, r)
    | (s2, t2, Throw e) => (s2, (t1 ++ t2)%list, Throw e)
    end.

Definition emit (ev : event) : M S unit := fun s => (s, [ev], Ok tt).

Definition read : M S S := fun s => (s, [], Ok s).

(** A state setter: the call is recorded and the state replaced. *)
Definition set (call : setter) (update : S -> S) : M S unit :=
  fun s => (update s, [EvSet call], Ok tt).

Definition of_option {A} (e : exn) (o : option A) : M S A :=
  match o with
  | Some a => ret a
  | None => throw e
  end.

Definition of_result {A} (r : result A) : M S A :=
  match r with
  | Ok a => ret a
  | Throw e => throw e
  end.

(** [v.k] *)
Definition prop (v : json) (k : string) : M S (option json) :=
  of_result (Js.get v k).

(** The conversion a template literal applies to [v]. *)
Definition to_string (v : json) : M S string :=
  of_option TypeError (Js.ToString v).

(** [throw new Error(v)] *)
Definition throw_new_Error {A} (v : json) : M S A :=
  bind (to_string v) (fun message => throw (Error message)).

Definition console_error (label : string) : M S unit :=
  emit (EvConsoleError label).

End Monad.

Declare Scope js_scope.
Delimit Scope js_scope with js.
Notation "x <- m ;; k" := (bind m (fun x => k))
  (at level 100, m at next level, right associativity) : js_scope.
Notation "m ;; k" := (bind m (fun _ => k))
  (at level 100, right associativity) : js_scope.
Local Open Scope js_scope.

Definition final_state {S A} (run : S * list event * result A) : S :=
  fst (fst run).
Definition trace {S A} (run : S * list event * result A) : list event :=
  snd (fst run).
Definition outcome {S A} (run : S * list event * result A) : result A :=
  snd run.

(* ================================================================== *)
(** ** services/api.ts *)

(** What the module takes from its surroundings: the configured base URL,
    the platform's [JSON.parse] and [fetch], the provider's session call
    (the id token it holds, if any) and the table of [./mockData]. *)
Record env : Type := {
  API_BASE_URL : string;
  JSON_parse : string -> option json;
  fetch : request -> result response;
  fetchAuthSession : result (option string);
  mockBooks : list Book
}.

Module Api.
Section Api.
Variable E : env.
Context {S : Type}.

Definition do_fetch (req : request) : M S response :=
  emit (EvFetch req) ;; of_result (fetch E req).

(** [await response.json()] *)
Definition response_json (r : response) : M S json :=
  of_option SyntaxError (JSON_parse E (text r)).

(** [JSON.parse(s)] *)
Definition parse (s : string) : M S json :=
  of_option SyntaxError (JSON_parse E s).

(** The text [`${response.status} ${response.statusText}`]. *)
Definition status_line (r : response) : string :=
  Js.Number_toString (status r) ++ " " ++ statusText r.

Definition content_type : string * string :=
  ("Content-Type", "application/json").

Definition getAuthHeaders : M S (list (string * string)) :=
  try_catch
    (emit (EvProvider FetchAuthSession) ;;
     token <- of_result (fetchAuthSession E) ;;
     let shown := match token with
                  | Some t => t
                  | None => "undefined"
                  end in
     ret [("Authorization", "Bearer " ++ shown); content_type])
    (fun _ => ret [content_type]).

(** *** Books *)

(** [getBooks] once [fetch] has resolved with [response]. *)
Definition getBooks_response (response : response) : M S json :=
  if negb (ok response) then
    throw (Error ("Failed to fetch books: " ++ status_line response))
  else
    data <- response_json response ;;
    body <- prop data "body" ;;
    let direct :=
      if Js.isArray data then ret data else ret (JArr []) in
    match Js.nonempty_string body with
    | Some body_text =>
        parsedBody <- parse body_text ;;
        if Js.isArray parsedBody then ret parsedBody else direct
    | None => direct
    end.

Definition getBooks : M S json :=
  response <- do_fetch {| req_method := GET;
                          req_url := API_BASE_URL E ++ "/books";
                          req_headers := [];
                          req_body := None |} ;;
  getBooks_response response.

(** The promise resolves from a timer; [null] is [None]. *)
Definition getBook (id : string) : M S (option Book) :=
  emit (EvTimeout 300) ;;
  ret (find (fun b => String.eqb (book_id b) id) (mockBooks E)).

(** The tail shared, text for text, by [createBook], [updateBook] and
    [createReview]: the parsed [body] of an envelope, else the data. *)
Definition unwrap_response (failure : string) (response : response)
  : M S json :=
  if negb (ok response) then
    throw (Error (failure ++ status_line response))
  else
    data <- response_json response ;;
    body <- prop data "body" ;;
    match Js.nonempty_string body with
    | Some body_text => parse body_text
    | None => ret data
    end.

Definition createBook_response : response -> M S json :=
  unwrap_response "Failed to create book: ".

Definition createBook (book : json) : M S json :=
  headers <- getAuthHeaders ;;
  response <- do_fetch {| req_method := POST;
                          req_url := API_BASE_URL E ++ "/books";
                          req_headers := headers;
                          req_body := Some book |} ;;
  createBook_response response.

Definition updateBook_response : response -> M S json :=
  unwrap_response "Failed to update book: ".

Definition updateBook (id : string) (book : json) : M S json :=
  headers <- getAuthHeaders ;;
  response <- do_fetch {| req_method := PUT;
                          req_url := API_BASE_URL E ++ "/books/" ++ id;
                          req_headers := headers;
                          req_body := Some book |} ;;
  updateBook_response response.

Definition deleteBook_response (response : response) : M S unit :=
  if negb (ok response) then
    throw (Error ("Failed to delete book: " ++ status_line response))
  else ret tt.

(** [!id] holds of [undefined] and of the empty string. *)
Definition deleteBook (id : option string) : M S unit :=
  match id with
  | None | Some EmptyString =>
      throw (Error "Book ID is required for deletion")
  | Some id =>
      headers <- getAuthHeaders ;;
      response <- do_fetch {| req_method := DELETE;
                              req_url := API_BASE_URL E ++ "/books/" ++ id;
                              req_headers := headers;
                              req_body := None |} ;;
      deleteBook_response response
  end.

(** *** Recommendations *)

Definition rate_limit_default : string :=
  "AI service rate limit exceeded. Please try again in 24 hours.".

(** [v && Array.isArray(v)] *)
Definition truthy_array (v : option json) : option json :=
  match v with
  | Some a => if andb (Js.truthy a) (Js.isArray a) then Some a else None
  | None => None
  end.

Definition getRecommendations_response (response : response) : M S json :=
  if negb (ok response) then
    if Z.eqb (status response) 429 then
      errorData <- response_json response ;;
      error <- prop errorData "error" ;;
      throw_new_Error (match error with
                       | Some message =>
                           if Js.truthy message then message
                           else JStr rate_limit_default
                       | None => JStr rate_limit_default
                       end)
    else throw (Error "Failed to get recommendations")
  else
    data <- response_json response ;;
    body <- prop data "body" ;;
    let direct :=
      recommendations <- prop data "recommendations" ;;
      match truthy_array recommendations with
      | Some list => ret list
      | None =>
          if Js.isArray data then ret data
          else throw (Error "Unexpected API response format")
      end in
    match Js.nonempty_string body with
    | Some body_text =>
        parsedBody <- parse body_text ;;
        recommendations <- prop parsedBody "recommendations" ;;
        match truthy_array recommendations with
        | Some list => ret list
        | None => if Js.isArray parsedBody then ret parsedBody else direct
        end
    | None => direct
    end.

Definition getRecommendations (query : string) : M S json :=
  headers <- getAuthHeaders ;;
  response <- do_fetch {| req_method := POST;
                          req_url := API_BASE_URL E ++ "/recommendations";
                          req_headers := headers;
                          req_body := Some (JObj [("query", JStr query)]) |} ;;
  getRecommendations_response response.

(** *** Reading lists *)

(** [parsedBody.message], for which [updateReadingList] lets
    [parsedBody.error] stand in: [parsedBody.message || parsedBody.error]. *)
Definition message_or_error (with_error : bool) (parsedBody : json)
  : M S (option json) :=
  message <- prop parsedBody "message" ;;
  if Js.truthy_opt message then ret message
  else if with_error then prop parsedBody "error"
  else ret message.

(** [errorMessage += ` - ${v}`] *)
Definition append_detail (errorMessage : string) (v : option json)
  : M S string :=
  match v with
  | Some detail =>
      shown <- to_string detail ;; ret (errorMessage ++ " - " ++ shown)
  | None => ret errorMessage
  end.

(** The [try] block that completes [errorMessage] from the body of a
    failed response, in [getReadingLists] ([with_error] off) and in
    [updateReadingList] ([with_error] on).  Whatever throws in it throws
    before [errorMessage] is assigned, so the empty [catch] leaves the
    message it started with. *)
Definition describe_failure (with_error : bool) (label : string)
    (errorMessage : string) (response : response) : M S string :=
  try_catch
    (errorData <- response_json response ;;
     message <- prop errorData "message" ;;
     errorMessage' <-
       (if Js.truthy_opt message then append_detail errorMessage message
        else
          body <- prop errorData "body" ;;
          match body with
          | Some b =>
              if Js.truthy b then
                parsedBody <- (match b with
                               | JStr body_text => parse body_text
                               | _ => ret b
                               end) ;;
                found <- message_or_error with_error parsedBody ;;
                if Js.truthy_opt found
                then append_detail errorMessage found
                else ret errorMessage
              else ret errorMessage
          | None => ret errorMessage
          end) ;;
     console_error label ;;
     ret errorMessage')
    (fun _ => ret errorMessage).

Definition getReadingLists_response (response : response) : M S json :=
  if negb (ok response) then
    errorMessage <-
      describe_failure false "API Error Response:"
        ("Failed to fetch reading lists: " ++ status_line response)
        response ;;
    throw (Error errorMessage)
  else
    data <- response_json response ;;
    body <- prop data "body" ;;
    match Js.nonempty_string body with
    | Some body_text =>
        parsedBody <- parse body_text ;;
        if Js.isArray parsedBody then ret parsedBody
        else throw (Error "API response body is not an array")
    | None =>
        if Js.isArray data then ret data
        else throw (Error "Unexpected API response format")
    end.

Definition getReadingLists : M S json :=
  headers <- getAuthHeaders ;;
  response <- do_fetch {| req_method := GET;
                          req_url := API_BASE_URL E ++ "/reading-lists";
                          req_headers := headers;
                          req_body := None |} ;;
  getReadingLists_response response.

(** [x.bookIds = v; delete x.books;] *)
Definition rename_books (x : json) (v : option json) : json :=
  match x, v with
  | JObj fields, Some b =>
      JObj (Js.delete "books" (Js.assign "bookIds" b fields))
  | _, _ => x
  end.

(** The block [if (x.books && !x.bookIds) { x.bookIds = x.books;
    delete x.books; }], which the source writes out four times. *)
Definition books_to_bookIds (x : json) : M S json :=
  books <- prop x "books" ;;
  if Js.truthy_opt books then
    bookIds <- prop x "bookIds" ;;
    if negb (Js.truthy_opt bookIds) then ret (rename_books x books)
    else ret x
  else ret x.

Definition createReadingList_response (response : response) : M S json :=
  if negb (ok response) then
    throw (Error ("Failed to create reading list: " ++ status_line response))
  else
    data <- response_json response ;;
    body <- prop data "body" ;;
    match Js.nonempty_string body with
    | Some body_text =>
        parsedBody <- parse body_text ;;
        books_to_bookIds parsedBody
    | None =>
        bookIds <- prop data "bookIds" ;;
        books <- prop data "books" ;;
        if orb (Js.truthy_opt bookIds) (Js.truthy_opt books)
        then books_to_bookIds data
        else throw (Error "Unexpected API response format")
    end.

Definition createReadingList (list : json) : M S json :=
  headers <- getAuthHeaders ;;
  response <- do_fetch {| req_method := POST;
                          req_url := API_BASE_URL E ++ "/reading-lists";
                          req_headers := headers;
                          req_body := Some list |} ;;
  createReadingList_response response.

Definition updateReadingList_response (response : response) : M S json :=
  if negb (ok response) then
    errorMessage <-
      describe_failure true "Update Reading List API Error Response:"
        ("Failed to update reading list: " ++ status_line response)
        response ;;
    throw (Error errorMessage)
  else
    data <- response_json response ;;
    body <- prop data "body" ;;
    match Js.nonempty_string body with
    | Some body_text =>
        parsedBody <- parse body_text ;;
        books_to_bookIds parsedBody
    | None =>
        bookIds <- prop data "bookIds" ;;
        books <- prop data "books" ;;
        if orb (Js.truthy_opt bookIds) (Js.truthy_opt books)
        then books_to_bookIds data
        else throw (Error "Unexpected API response format")
    end.

Definition updateReadingList (id : string) (list : json) : M S json :=
  headers <- getAuthHeaders ;;
  response <- do_fetch {| req_method := PUT;
                          req_url := API_BASE_URL E ++ "/reading-lists/" ++ id;
                          req_headers := headers;
                          req_body := Some list |} ;;
  updateReadingList_response response.

Definition deleteReadingList_response (response : response) : M S unit :=
  if negb (ok response) then
    throw (Error ("Failed to delete reading list: " ++ status_line response))
  else ret tt.

Definition deleteReadingList (id : string) : M S unit :=
  headers <- getAuthHeaders ;;
  response <- do_fetch {| req_method := DELETE;
                          req_url := API_BASE_URL E ++ "/reading-lists/" ++ id;
                          req_headers := headers;
                          req_body := None |} ;;
  deleteReadingList_response response.

(** *** Reviews *)

Definition getReviews_response (response : response) : M S json :=
  if negb (ok response) then
    throw (Error ("Failed to fetch reviews: " ++ status_line response))
  else
    data <- response_json response ;;
    body <- prop data "body" ;;
    let direct :=
      if Js.isArray data then ret data else ret (JArr []) in
    match Js.nonempty_string body with
    | Some body_text =>
        parsedBody <- parse body_text ;;
        if Js.isArray parsedBody then ret parsedBody else direct
    | None => direct
    end.

Definition getReviews (bookId : string) : M S json :=
  response <- do_fetch {| req_method := GET;
                          req_url := API_BASE_URL E ++ "/books/" ++ bookId
                                     ++ "/reviews";
                          req_headers := [];
                          req_body := None |} ;;
  getReviews_response response.

Definition createReview_response : response -> M S json :=
  unwrap_response "Failed to create review: ".

(** [review] is the object sent; [bookId] its [bookId] field. *)
Definition createReview (bookId : string) (review : json) : M S json :=
  headers <- getAuthHeaders ;;
  response <- do_fetch {| req_method := POST;
                          req_url := API_BASE_URL E ++ "/books/" ++ bookId
                                     ++ "/reviews";
                          req_headers := headers;
                          req_body := Some review |} ;;
  createReview_response response.

End Api.
End Api.

(* ================================================================== *)
(** ** utils/errorHandling *)

(** Modelled from the spec: [showSuccess] and [handleApiError] are not
    among the sources; a call is recorded as the notification (success
    notice, respectively error notification) that it surfaces to the
    user. *)
Definition showSuccess {S} (message : string) : M S unit :=
  emit (EvShowSuccess message).

Definition handleApiError {S} (error : exn) : M S unit :=
  emit (EvHandleApiError error).

(** The object literal [{ name, description, bookIds }] as
    [JSON.stringify] sends it: an [undefined] description is left out. *)
Definition list_payload (name : string) (description : option string)
    (ids : list string) : json :=
  JObj ([("name", JStr name)]
        ++ match description with
           | Some d => [("description", JStr d)]
           | None => []
           end
        ++ [("bookIds", JArr (map JStr ids))])%list.

(* ================================================================== *)
(** ** pages/BookDetail.tsx *)

Module BookDetail.

(** The [useState] cells that [handleSelectList] reads or sets. *)
Record state : Type := {
  book : option Book;
  isModalOpen : bool;
  readingLists : list ReadingList;
  isAddingToList : bool
}.

Definition setIsModalOpen (b : bool) : M state unit :=
  set (SetIsModalOpen b)
      (fun s => {| book := book s; isModalOpen := b;
                   readingLists := readingLists s;
                   isAddingToList := isAddingToList s |}).

Definition setIsAddingToList (b : bool) : M state unit :=
  set (SetIsAddingToList b)
      (fun s => {| book := book s; isModalOpen := isModalOpen s;
                   readingLists := readingLists s;
                   isAddingToList := b |}).

Section Handlers.
Variable E : env.

Definition handleSelectList (listId : string) : M state unit :=
  render <- read ;;
  match book render with
  | None => ret tt
  | Some book =>
      setIsAddingToList true ;;
      try_finally
        (try_catch
           (match find (fun l => String.eqb (list_id l) listId)
                       (readingLists render) with
            | None => throw (Error "Reading list not found")
            | Some list =>
                if Js.includes (bookIds list) (book_id book) then
                  showSuccess "Book is already in this reading list!" ;;
                  setIsModalOpen false
                else
                  let updatedBookIds := (bookIds list ++ [book_id book])%list in
                  _ <- Api.updateReadingList E listId
                         (list_payload (list_name list)
                                       (list_description list)
                                       updatedBookIds) ;;
                  showSuccess ("Added " ++ Js.quoted (title book) ++ " to "
                               ++ Js.quoted (list_name list) ++ "!") ;;
                  setIsModalOpen false
            end)
           (fun error => handleApiError error))
        (setIsAddingToList false)
  end.

End Handlers.
End BookDetail.

(* ================================================================== *)
(** ** pages/ReadingListDetail.tsx *)

Module ReadingListDetail.

Record state : Type := {
  readingList : option ReadingList;
  books : list Book;
  isLoading : bool
}.

Definition setReadingList (l : option ReadingList) : M state unit :=
  set (SetReadingList l)
      (fun s => {| readingList := l; books := books s;
                   isLoading := isLoading s |}).

Definition setBooks (bs : list Book) : M state unit :=
  set (SetBooks bs)
      (fun s => {| readingList := readingList s; books := bs;
                   isLoading := isLoading s |}).

(** [{ ...readingList, bookIds: updatedBookIds }] *)
Definition with_bookIds (l : ReadingList) (ids : list string) : ReadingList :=
  {| list_id := list_id l; list_name := list_name l;
     list_description := list_description l; bookIds := ids;
     list_createdAt := list_createdAt l; list_updatedAt := list_updatedAt l |}.

Section Handlers.
Variable E : env.
(** The reading of a decoded array at the type [Book[]] that the
    signature of [getBooks] asserts. *)
Variable books_of : json -> list Book.

Definition loadBooks (ids : list string) : M state unit :=
  try_catch
    (allBooks <- Api.getBooks E ;;
     let listBooks :=
       filter (fun book => Js.includes ids (book_id book))
              (books_of allBooks) in
     setBooks listBooks)
    (fun error => handleApiError error).

Definition handleRemoveBook (bookId : string) : M state unit :=
  render <- read ;;
  match readingList render with
  | None => ret tt
  | Some readingList =>
      try_catch
        (let updatedBookIds :=
           filter (fun id => negb (String.eqb id bookId))
                  (bookIds readingList) in
         _ <- Api.updateReadingList E (list_id readingList)
                (list_payload (list_name readingList)
                              (list_description readingList)
                              updatedBookIds) ;;
         setReadingList (Some (with_bookIds readingList updatedBookIds)) ;;
         setBooks (filter (fun book => negb (String.eqb (book_id book) bookId))
                          (books render)) ;;
         showSuccess "Book removed from list!")
        (fun error => handleApiError error)
  end.

End Handlers.
End ReadingListDetail.

(* ================================================================== *)
(** ** contexts/AuthContext.tsx *)

Module AuthContext.

(** What [getCurrentUser] and [fetchUserAttributes] resolve with. *)
Record AuthUser : Type := {
  userId : string;
  username : string;
  loginId : option string
}.

Record Attributes : Type := {
  attr_email : option string;
  attr_name : option string
}.

(** The identity provider: how each of its calls settles, and the clock
    read by [new Date().toISOString()]. *)
Record provider : Type := {
  signIn : string -> string -> result bool;
  signOut : result unit;
  signUp : string -> string -> string -> string -> result unit;
  confirmSignUp : string -> string -> result unit;
  getCurrentUser : result AuthUser;
  fetchUserAttributes : result Attributes;
  now : string
}.

Record state : Type := {
  user : option User;
  isLoading : bool
}.

Definition setUser (u : option User) : M state unit :=
  set (SetUser u) (fun s => {| user := u; isLoading := isLoading s |}).

Definition setIsLoading (b : bool) : M state unit :=
  set (SetIsLoading b) (fun s => {| user := user s; isLoading := b |}).

Definition ADMIN_EMAILS : list string := ["furkantahasaranda@gmail.com"].

Definition getUserRole (email : string) : role :=
  if Js.includes ADMIN_EMAILS (Js.toLowerCase email)
  then role_admin else role_user.

(** [a || b] on a string that may be [undefined]. *)
Definition or_else (a : option string) (b : string) : string :=
  match a with
  | Some EmptyString | None => b
  | Some s => s
  end.

Section Provider.
Variable P : provider.

(** [await call]: the call is recorded, then settles as [P] says. *)
Definition await {A} (call : provider_call) (settles : result A)
  : M state A :=
  emit (EvProvider call) ;; of_result settles.

Definition checkAuth : M state unit :=
  try_finally
    (try_catch
       (user <- await GetCurrentUser (getCurrentUser P) ;;
        attributes <- await FetchUserAttributes (fetchUserAttributes P) ;;
        let userEmail :=
          or_else (attr_email attributes) (or_else (loginId user) "") in
        setUser (Some {| user_id := userId user;
                         email := userEmail;
                         user_name := or_else (attr_name attributes)
                                              (username user);
                         user_role := getUserRole userEmail;
                         user_createdAt := now P |}))
       (fun _ => setUser None))
    (setIsLoading false).

Definition login (email password : string) : M state unit :=
  setIsLoading true ;;
  try_finally
    (try_catch
       (isSignedIn <- await (SignIn email password)
                            (signIn P email password) ;;
        if isSignedIn : bool then
          user <- await GetCurrentUser (getCurrentUser P) ;;
          attributes <- await FetchUserAttributes (fetchUserAttributes P) ;;
          let userEmail := or_else (attr_email attributes) email in
          setUser (Some {| user_id := userId user;
                           email := userEmail;
                           user_name := or_else (attr_name attributes)
                                                (username user);
                           user_role := getUserRole userEmail;
                           user_createdAt := now P |})
        else ret tt)
       (fun error => console_error "Login error:" ;; throw error))
    (setIsLoading false).

Definition logout : M state unit :=
  setIsLoading true ;;
  try_finally
    (try_catch
       (await SignOut (signOut P) ;;
        setUser None)
       (fun error => console_error "Logout error:" ;; throw error))
    (setIsLoading false).

Definition signup (email password name : string) : M state unit :=
  setIsLoading true ;;
  try_finally
    (try_catch
       (await (SignUp email password email name)
              (signUp P email password email name))
       (fun error => console_error "Signup error:" ;; throw error))
    (setIsLoading false).

Definition confirmSignup (email code : string) : M state unit :=
  setIsLoading true ;;
  try_finally
    (try_catch
       (await (ConfirmSignUp email code) (confirmSignUp P email code))
       (fun error => console_error "Confirm signup error:" ;; throw error))
    (setIsLoading false).

End Provider.
End AuthContext.

(* ================================================================== *)
(** ** Pages: the router and the dialogs *)

(** [String.prototype.trim], on texts held in UTF-8.  It strips, at both
    ends, the white space and the line terminators of the language: TAB,
    LF, VT, FF, CR and the space (one byte each); U+00A0 (two bytes);
    U+1680, U+2000 to U+200A, U+2028, U+2029, U+202F, U+205F, U+3000 and
    U+FEFF (three bytes each). *)
Module JsString.

Definition white1 (a : ascii) : bool :=
  let x := nat_of_ascii a in
  orb (andb (Nat.leb 9 x) (Nat.leb x 13)) (Nat.eqb x 32).

Definition white2 (a b : ascii) : bool :=
  andb (Nat.eqb (nat_of_ascii a) 194) (Nat.eqb (nat_of_ascii b) 160).

Definition white3 (a b c : ascii) : bool :=
  let x := nat_of_ascii a in
  let y := nat_of_ascii b in
  let z := nat_of_ascii c in
  orb (andb (Nat.eqb x 225) (andb (Nat.eqb y 154) (Nat.eqb z 128)))
 (orb (andb (Nat.eqb x 226)
         (andb (Nat.eqb y 128)
            (orb (andb (Nat.leb 128 z) (Nat.leb z 138))
            (orb (Nat.eqb z 168) (orb (Nat.eqb z 169) (Nat.eqb z 175))))))
 (orb (andb (Nat.eqb x 226) (andb (Nat.eqb y 129) (Nat.eqb z 159)))
 (orb (andb (Nat.eqb x 227) (andb (Nat.eqb y 128) (Nat.eqb z 128)))
      (andb (Nat.eqb x 239) (andb (Nat.eqb y 187) (Nat.eqb z 191)))))).

Fixpoint trimStart (s : string) : string :=
  match s with
  | EmptyString => EmptyString
  | String a rest1 =>
      if white1 a then trimStart rest1
      else
        match rest1 with
        | EmptyString => s
        | String b rest2 =>
            if white2 a b then trimStart rest2
            else
              match rest2 with
              | EmptyString => s
              | String c rest3 =>
                  if white3 a b c then trimStart rest3 else s
              end
        end
  end.

(** The text up to the point from which on all is white space. *)
Fixpoint trimEnd (s : string) : string :=
  match s with
  | EmptyString => EmptyString
  | String a rest =>
      match trimStart s with
      | EmptyString => EmptyString
      | String _ _ => String a (trimEnd rest)
      end
  end.

Definition trim (s : string) : string := trimEnd (trimStart s).

End JsString.

(** A component on its page: its [useState] cells, and what it has asked
    of the browser so far, latest first: the paths handed to [navigate]
    and the texts handed to [alert]. *)
Record page (C : Type) : Type := {
  cells : C;
  navigated : list string;
  alerted : list string
}.

Section Page.
Context {C : Type}.

(** A computation on the cells, run on the page. *)
Definition within {A} (m : M C A) : M (page C) A :=
  fun p =>
    ({| cells := final_state (m (cells p));
        navigated := navigated p;
        alerted := alerted p |},
     trace (m (cells p)),
     outcome (m (cells p))).

(** The setter of a cell whose calls are not among the recorded ones:
    the cell is replaced in place. *)
Definition assign (update : C -> C) : M (page C) unit :=
  fun p =>
    ({| cells := update (cells p);
        navigated := navigated p;
        alerted := alerted p |}, [], Ok tt).

Definition navigate (path : string) : M (page C) unit :=
  fun p =>
    ({| cells := cells p;
        navigated := path :: navigated p;
        alerted := alerted p |}, [], Ok tt).

Definition alert (message : string) : M (page C) unit :=
  fun p =>
    ({| cells := cells p;
        navigated := navigated p;
        alerted := message :: alerted p |}, [], Ok tt).

End Page.

(* ================================================================== *)
(** ** components/books/ReadingListBookCard.tsx *)

Module ReadingListBookCard.

Definition PLACEHOLDER_IMAGE : string :=
  "data:image/svg+xml;base64,PHN2ZyB3aWR0aD0iMzAwIiBoZWlnaHQ9IjQwMCIgeG1sbnM9Imh0dHA6Ly93d3cudzMub3JnLzIwMDAvc3ZnIj48cmVjdCB3aWR0aD0iMzAwIiBoZWlnaHQ9IjQwMCIgZmlsbD0iI2YxZjVmOSIvPjx0ZXh0IHg9IjUwJSIgeT0iNTAlIiBmb250LWZhbWlseT0iQXJpYWwsIHNhbnMtc2VyaWYiIGZvbnQtc2l6ZT0iMTgiIGZpbGw9IiM5Y2EzYWYiIHRleHQtYW5jaG9yPSJtaWRkbGUiIGR5PSIuM2VtIj5ObyBDb3ZlciBJbWFnZTwvdGV4dD48L3N2Zz4=".

(** The two cells of a card: [useState(book.coverImage)] and
    [useState(false)]. *)
Record state : Type := {
  imageSrc : string;
  hasError : bool
}.

Definition mounted (book : Book) : state :=
  {| imageSrc := coverImage book; hasError := false |}.

Definition setHasError (b : bool) (s : state) : state :=
  {| imageSrc := imageSrc s; hasError := b |}.

Definition setImageSrc (src : string) (s : state) : state :=
  {| imageSrc := src; hasError := hasError s |}.

(** The [onError] handler of the cover image; the test reads the cells
    of the render that installed the handler. *)
Definition handleImageError (s : state) : state :=
  if andb (negb (hasError s))
          (negb (Js.contains "data:image/svg+xml" (imageSrc s)))
  then setImageSrc PLACEHOLDER_IMAGE (setHasError true s)
  else s.

End ReadingListBookCard.

(* ================================================================== *)
(** ** pages/ReadingListDetail.tsx: loading and deleting *)

Module ReadingListDetailPage.

Definition state : Type := page ReadingListDetail.state.

Definition setIsLoading (b : bool) : M state unit :=
  within (set (SetIsLoading b)
              (fun s => {| ReadingListDetail.readingList :=
                             ReadingListDetail.readingList s;
                           ReadingListDetail.books := ReadingListDetail.books s;
                           ReadingListDetail.isLoading := b |})).

(** An element of the array that [getReadingLists] resolved with, as the
    page reads it: [null] is [None]; anything else is read at the type
    [ReadingList], together with whether it has a [bookIds] field at
    all.  [getReadingLists] hands the server's lists over as they are,
    without the books-to-bookIds repair, so that a list the server names
    [books] comes without [bookIds]. *)
Record received : Type := {
  the_list : ReadingList;
  has_bookIds : bool
}.

(** [lists.find((l) => l.id === listId)]: reading [l.id] of a [null]
    element on the way throws a [TypeError]. *)
Fixpoint find_list (listId : string) (lists : list (option received))
  : result (option received) :=
  match lists with
  | [] => Ok None
  | None :: _ => Throw TypeError
  | Some l :: rest =>
      if String.eqb (list_id (the_list l)) listId then Ok (Some l)
      else find_list listId rest
  end.

Section Handlers.
Variable E : env.
(** The reading of a decoded array at the type [Book[]] that the
    signature of [getBooks] asserts, and the reading of the array of
    lists element by element. *)
Variable books_of : json -> list Book.
Variable lists_of : json -> list (option received).
(** [window.confirm]: the answer given to each question. *)
Variable confirm : string -> bool.

Definition loadReadingList (listId : string) : M state unit :=
  setIsLoading true ;;
  try_finally
    (try_catch
       (lists <- Api.getReadingLists E ;;
        list <- of_result (find_list listId (lists_of lists)) ;;
        match list with
        | None => navigate "/404"
        | Some list =>
            within (ReadingListDetail.setReadingList (Some (the_list list))) ;;
            (* list.bookIds.length *)
            if has_bookIds list then
              match bookIds (the_list list) with
              | [] => ret tt
              | _ :: _ =>
                  within (ReadingListDetail.loadBooks E books_of
                            (bookIds (the_list list)))
              end
            else throw TypeError
        end)
       (fun error => handleApiError error))
    (setIsLoading false).

Definition handleDeleteList : M state unit :=
  render <- read ;;
  match ReadingListDetail.readingList (cells render) with
  | None => ret tt
  | Some readingList =>
      if negb (confirm ("Are you sure you want to delete "
                        ++ Js.quoted (list_name readingList) ++ "?"))
      then ret tt
      else
        try_catch
          (Api.deleteReadingList E (list_id readingList) ;;
           showSuccess "Reading list deleted successfully!" ;;
           navigate "/reading-lists")
          (fun error => handleApiError error)
  end.

End Handlers.
End ReadingListDetailPage.

(* ================================================================== *)
(** ** pages/BookDetail.tsx: loading, reviews *)

Module BookDetailPage.

(** All the cells of the page: those [handleSelectList] works on, and
    the rest.  [reviews] holds what [getReviews] resolved with, as it
    is. *)
Record all_cells : Type := {
  selecting : BookDetail.state;
  isLoading : bool;
  isLoadingLists : bool;
  isReviewModalOpen : bool;
  reviews : json;
  isLoadingReviews : bool;
  reviewRating : Z;
  reviewComment : string;
  isSubmittingReview : bool
}.

Definition state : Type := page all_cells.

(** The cells at the first render. *)
Definition mounted : all_cells :=
  {| selecting := {| BookDetail.book := None;
                     BookDetail.isModalOpen := false;
                     BookDetail.readingLists := [];
                     BookDetail.isAddingToList := false |};
     isLoading := true;
     isLoadingLists := false;
     isReviewModalOpen := false;
     reviews := JArr [];
     isLoadingReviews := false;
     reviewRating := 5;
     reviewComment := EmptyString;
     isSubmittingReview := false |}.

Definition with_selecting (f : BookDetail.state -> BookDetail.state)
    (s : all_cells) : all_cells :=
  {| selecting := f (selecting s);
     isLoading := isLoading s;
     isLoadingLists := isLoadingLists s;
     isReviewModalOpen := isReviewModalOpen s;
     reviews := reviews s;
     isLoadingReviews := isLoadingReviews s;
     reviewRating := reviewRating s;
     reviewComment := reviewComment s;
     isSubmittingReview := isSubmittingReview s |}.

(** A computation on the cells of [handleSelectList], run on the page. *)
Definition on_selecting {A} (m : M BookDetail.state A) : M state A :=
  within (fun s =>
            (with_selecting (fun _ => final_state (m (selecting s))) s,
             trace (m (selecting s)),
             outcome (m (selecting s)))).

Definition setBook (b : option Book) : M state unit :=
  assign (with_selecting
            (fun s => {| BookDetail.book := b;
                         BookDetail.isModalOpen := BookDetail.isModalOpen s;
                         BookDetail.readingLists := BookDetail.readingLists s;
                         BookDetail.isAddingToList :=
                           BookDetail.isAddingToList s |})).

Definition setReadingLists (ls : list ReadingList) : M state unit :=
  assign (with_selecting
            (fun s => {| BookDetail.book := BookDetail.book s;
                         BookDetail.isModalOpen := BookDetail.isModalOpen s;
                         BookDetail.readingLists := ls;
                         BookDetail.isAddingToList :=
                           BookDetail.isAddingToList s |})).

Definition setIsModalOpen (b : bool) : M state unit :=
  on_selecting (BookDetail.setIsModalOpen b).

Definition setIsLoading (b : bool) : M state unit :=
  within (set (SetIsLoading b)
              (fun s =>
                 {| selecting := selecting s;
                    isLoading := b;
                    isLoadingLists := isLoadingLists s;
                    isReviewModalOpen := isReviewModalOpen s;
                    reviews := reviews s;
                    isLoadingReviews := isLoadingReviews s;
                    reviewRating := reviewRating s;
                    reviewComment := reviewComment s;
                    isSubmittingReview := isSubmittingReview s |})).

Definition setIsLoadingLists (b : bool) : M state unit :=
  assign (fun s =>
            {| selecting := selecting s;
               isLoading := isLoading s;
               isLoadingLists := b;
               isReviewModalOpen := isReviewModalOpen s;
               reviews := reviews s;
               isLoadingReviews := isLoadingReviews s;
               reviewRating := reviewRating s;
               reviewComment := reviewComment s;
               isSubmittingReview := isSubmittingReview s |}).

Definition setIsReviewModalOpen (b : bool) : M state unit :=
  assign (fun s =>
            {| selecting := selecting s;
               isLoading := isLoading s;
               isLoadingLists := isLoadingLists s;
               isReviewModalOpen := b;
               reviews := reviews s;
               isLoadingReviews := isLoadingReviews s;
               reviewRating := reviewRating s;
               reviewComment := reviewComment s;
               isSubmittingReview := isSubmittingReview s |}).

Definition setReviews (v : json) : M state unit :=
  assign (fun s =>
            {| selecting := selecting s;
               isLoading := isLoading s;
               isLoadingLists := isLoadingLists s;
               isReviewModalOpen := isReviewModalOpen s;
               reviews := v;
               isLoadingReviews := isLoadingReviews s;
               reviewRating := reviewRating s;
               reviewComment := reviewComment s;
               isSubmittingReview := isSubmittingReview s |}).

Definition setIsLoadingReviews (b : bool) : M state unit :=
  assign (fun s =>
            {| selecting := selecting s;
               isLoading := isLoading s;
               isLoadingLists := isLoadingLists s;
               isReviewModalOpen := isReviewModalOpen s;
               reviews := reviews s;
               isLoadingReviews := b;
               reviewRating := reviewRating s;
               reviewComment := reviewComment s;
               isSubmittingReview := isSubmittingReview s |}).

Definition setReviewRating (n : Z) : M state unit :=
  assign (fun s =>
            {| selecting := selecting s;
               isLoading := isLoading s;
               isLoadingLists := isLoadingLists s;
               isReviewModalOpen := isReviewModalOpen s;
               reviews := reviews s;
               isLoadingReviews := isLoadingReviews s;
               reviewRating := n;
               reviewComment := reviewComment s;
               isSubmittingReview := isSubmittingReview s |}).

Definition setReviewComment (text : string) : M state unit :=
  assign (fun s =>
            {| selecting := selecting s;
               isLoading := isLoading s;
               isLoadingLists := isLoadingLists s;
               isReviewModalOpen := isReviewModalOpen s;
               reviews := reviews s;
               isLoadingReviews := isLoadingReviews s;
               reviewRating := reviewRating s;
               reviewComment := text;
               isSubmittingReview := isSubmittingReview s |}).

Definition setIsSubmittingReview (b : bool) : M state unit :=
  assign (fun s =>
            {| selecting := selecting s;
               isLoading := isLoading s;
               isLoadingLists := isLoadingLists s;
               isReviewModalOpen := isReviewModalOpen s;
               reviews := reviews s;
               isLoadingReviews := isLoadingReviews s;
               reviewRating := reviewRating s;
               reviewComment := reviewComment s;
               isSubmittingReview := b |}).

(** The array literal [[first, ...rest]]: the spread iterates an array
    or a string (character by character) and throws a [TypeError] on
    anything else. *)
Definition spread_after {S} (first rest : json) : M S json :=
  match rest with
  | JArr items => ret (JArr (first :: items))
  | JStr s =>
      ret (JArr (first :: map (fun c => JStr (String c EmptyString))
                              (list_ascii_of_string s)))
  | _ => throw TypeError
  end.

(** The object literal handed to [createReview]. *)
Definition review_payload (book : Book) (user : User) (rating : Z)
    (comment : string) : json :=
  JObj [("bookId", JStr (book_id book));
        ("userId", JStr (user_id user));
        ("userName", JStr (user_name user));
        ("rating", JNum rating);
        ("comment", JStr comment)].

Section Handlers.
Variable E : env.
Variable lists_of : json -> list ReadingList.
(** [const { user } = useAuth()] at the render of the handlers. *)
Variable user : option User.

Definition loadBook (bookId : string) : M state unit :=
  setIsLoading true ;;
  try_finally
    (try_catch
       (data <- Api.getBook E bookId ;;
        match data with
        | None => navigate "/404"
        | Some data => setBook (Some data)
        end)
       (fun error => handleApiError error))
    (setIsLoading false).

Definition loadReadingLists : M state unit :=
  setIsLoadingLists true ;;
  try_finally
    (try_catch
       (lists <- Api.getReadingLists E ;;
        setReadingLists (lists_of lists))
       (fun error => handleApiError error))
    (setIsLoadingLists false).

(** [loadReadingLists()] is called and not awaited: what it does follows
    the opening of the modal. *)
Definition handleAddToList : M state unit :=
  setIsModalOpen true ;;
  loadReadingLists.

Definition loadReviews (bookId : string) : M state unit :=
  setIsLoadingReviews true ;;
  try_finally
    (try_catch
       (data <- Api.getReviews E bookId ;;
        setReviews data)
       (fun error => handleApiError error))
    (setIsLoadingReviews false).

Definition handleWriteReview : M state unit :=
  match user with
  | None => navigate "/login"
  | Some _ => setIsReviewModalOpen true
  end.

Definition handleSubmitReview : M state unit :=
  render <- read ;;
  let comment := JsString.trim (reviewComment (cells render)) in
  match BookDetail.book (selecting (cells render)), user, comment with
  | Some book, Some user, String _ _ =>
      setIsSubmittingReview true ;;
      try_finally
        (try_catch
           (newReview <- Api.createReview E (book_id book)
                           (review_payload book user
                              (reviewRating (cells render)) comment) ;;
            updated <- spread_after newReview (reviews (cells render)) ;;
            setReviews updated ;;
            setIsReviewModalOpen false ;;
            setReviewRating 5 ;;
            setReviewComment EmptyString ;;
            showSuccess "Review submitted successfully!")
           (fun error => handleApiError error))
        (setIsSubmittingReview false)
  | _, _, _ => alert "Please enter a review comment"
  end.

End Handlers.
End BookDetailPage.

(* ================================================================== *)
(** ** pages/Signup.tsx *)

Module Signup.

(** The [errors] object: one optional message per field. *)
Record field_errors : Type := {
  name_error : option string;
  email_error : option string;
  password_error : option string;
  confirmPassword_error : option string;
  verificationCode_error : option string
}.

(** [Object.keys(errors).length === 0] *)
Definition no_keys (e : field_errors) : bool :=
  match name_error e, email_error e, password_error e,
        confirmPassword_error e, verificationCode_error e with
  | None, None, None, None, None => true
  | _, _, _, _, _ => false
  end.

Record form : Type := {
  name : string;
  email : string;
  password : string;
  confirmPassword : string;
  verificationCode : string;
  needsVerification : bool;
  errors : field_errors;
  isLoading : bool
}.

(** The form, and the cells of the auth provider that [useAuth] reaches. *)
Record all_cells : Type := {
  fields : form;
  auth : AuthContext.state
}.

Definition state : Type := page all_cells.

Definition on_form (f : form -> form) : M state unit :=
  assign (fun s => {| fields := f (fields s); auth := auth s |}).

(** A function of the auth context, run on its own cells. *)
Definition on_auth {A} (m : M AuthContext.state A) : M state A :=
  within (fun s =>
            ({| fields := fields s; auth := final_state (m (auth s)) |},
             trace (m (auth s)),
             outcome (m (auth s)))).

Definition setErrors (e : field_errors) : M state unit :=
  on_form (fun f => {| name := name f; email := email f;
                       password := password f;
                       confirmPassword := confirmPassword f;
                       verificationCode := verificationCode f;
                       needsVerification := needsVerification f;
                       errors := e;
                       isLoading := isLoading f |}).

Definition setNeedsVerification (b : bool) : M state unit :=
  on_form (fun f => {| name := name f; email := email f;
                       password := password f;
                       confirmPassword := confirmPassword f;
                       verificationCode := verificationCode f;
                       needsVerification := b;
                       errors := errors f;
                       isLoading := isLoading f |}).

Definition setIsLoading (b : bool) : M state unit :=
  within (set (SetIsLoading b)
              (fun s =>
                 {| fields := {| name := name (fields s);
                                 email := email (fields s);
                                 password := password (fields s);
                                 confirmPassword := confirmPassword (fields s);
                                 verificationCode :=
                                   verificationCode (fields s);
                                 needsVerification :=
                                   needsVerification (fields s);
                                 errors := errors (fields s);
                                 isLoading := b |};
                    auth := auth s |})).

Section Handlers.
Variable P : AuthContext.provider.
(** The three tests of [@/utils/validation], which is not among the
    sources. *)
Variable validateRequired : string -> bool.
Variable validateEmail : string -> bool.
Variable validatePassword : string -> bool.

(** The object [newErrors] that [validate] builds for the form [f]. *)
Definition newErrors (f : form) : field_errors :=
  {| name_error :=
       if negb (validateRequired (name f)) then Some "Name is required"
       else None;
     email_error :=
       if negb (validateRequired (email f)) then Some "Email is required"
       else if negb (validateEmail (email f))
            then Some "Invalid email format"
            else None;
     password_error :=
       if negb (validateRequired (password f))
       then Some "Password is required"
       else if negb (validatePassword (password f))
            then Some "Password must be at least 8 characters with uppercase, lowercase, and number"
            else None;
     confirmPassword_error :=
       if negb (String.eqb (password f) (confirmPassword f))
       then Some "Passwords do not match"
       else None;
     verificationCode_error := None |}.

Definition validate : M state bool :=
  render <- read ;;
  let newErrors := newErrors (fields (cells render)) in
  setErrors newErrors ;;
  ret (no_keys newErrors).

(** [e.preventDefault()] touches the event only and is left out. *)
Definition handleSubmit : M state unit :=
  render <- read ;;
  let f := fields (cells render) in
  if negb (needsVerification f) then
    valid <- validate ;;
    if negb valid then ret tt
    else
      setIsLoading true ;;
      try_finally
        (try_catch
           (on_auth (AuthContext.signup P (email f) (password f) (name f)) ;;
            setNeedsVerification true)
           (fun error => handleApiError error))
        (setIsLoading false)
  else
    match verificationCode f with
    | EmptyString =>
        setErrors {| name_error := None; email_error := None;
                     password_error := None;
                     confirmPassword_error := None;
                     verificationCode_error :=
                       Some "Verification code is required" |}
    | String _ _ =>
        setIsLoading true ;;
        try_finally
          (try_catch
             (on_auth (AuthContext.confirmSignup P (email f)
                         (verificationCode f)) ;;
              navigate "/login")
             (fun error => handleApiError error))
          (setIsLoading false)
    end.

End Handlers.
End Signup.

(* ================================================================== *)
(** ** Vocabulary of the properties *)

(** An environment for evaluating the client on concrete exchanges: the
    JSON reader above, a server that answers every request with
    [answer], no session, an empty mock table. *)
Definition env_answering (answer : result response) : env :=
  {| API_BASE_URL := "https://api.example.test";
     JSON_parse := JsonText.parse;
     fetch := fun _ => answer;
     fetchAuthSession := Throw (Error "No current user");
     mockBooks := [] |}.

(** No network: [fetch] rejects, as a browser's does, with a [TypeError]. *)
Definition offline : env := env_answering (Throw TypeError).

Definition reply (code : Z) (reason body : string) : response :=
  {| status := code; statusText := reason; text := JsonText.q body |}.

(** The text of the string-typed, non-empty [body] field that makes [d]
    an envelope (a Lambda proxy response) in the eyes of the client. *)
Definition envelope_text (d : json) : option string :=
  match Js.get d "body" with
  | Ok b => Js.nonempty_string b
  | Throw _ => None
  end.

(** The record the client takes from decoded data [d]: the parsed [body]
    of an envelope, else [d] itself (the normalisation rule). *)
Definition payload (E : env) (d : json) : option json :=
  match envelope_text d with
  | Some t => JSON_parse E t
  | None => Some d
  end.

(** [v.k] is truthy. *)
Definition has_truthy (v : json) (k : string) : bool :=
  match Js.get v k with
  | Ok field => Js.truthy_opt field
  | Throw _ => false
  end.

(** [p] is a value that the client handles as it stands: it is not
    [null] and is not itself an envelope. *)
Definition plain (p : json) : bool :=
  match p, envelope_text p with
  | JNull, _ => false
  | _, Some _ => false
  | _, None => true
  end.

(** The server's answer had it sent the text [t] directly. *)
Definition direct (r : response) (t : string) : response :=
  {| status := status r; statusText := statusText r; text := t |}.

(** The operations that read a JSON payload off the response. *)
Inductive endpoint : Type :=
| GetBooks | GetReviews | GetReadingLists | GetRecommendations
| CreateReadingList | UpdateReadingList
| CreateBook | UpdateBook | CreateReview.

Definition handle {S} (E : env) (e : endpoint) : response -> M S json :=
  match e with
  | GetBooks => Api.getBooks_response E
  | GetReviews => Api.getReviews_response E
  | GetReadingLists => Api.getReadingLists_response E
  | GetRecommendations => Api.getRecommendations_response E
  | CreateReadingList => Api.createReadingList_response E
  | UpdateReadingList => Api.updateReadingList_response E
  | CreateBook => Api.createBook_response E
  | UpdateBook => Api.updateBook_response E
  | CreateReview => Api.createReview_response E
  end.

(** [v.recommendations] is an array. *)
Definition holds_recommendations (v : json) : bool :=
  match Js.get v "recommendations" with
  | Ok (Some (JArr _)) => true
  | _ => false
  end.

(** The payloads [p] that an endpoint accepts in both forms. *)
Definition accepted (e : endpoint) (p : json) : bool :=
  match e with
  | GetBooks | GetReviews | CreateBook | UpdateBook | CreateReview => true
  | GetReadingLists => Js.isArray p
  | GetRecommendations => orb (Js.isArray p) (holds_recommendations p)
  | CreateReadingList | UpdateReadingList =>
      orb (has_truthy p "bookIds") (has_truthy p "books")
  end.

(** Every operation that reads a response: those of [endpoint] and the
    two deletions. *)
Inductive operation : Type :=
| Reading (e : endpoint)
| DeleteBook
| DeleteReadingList.

(** The exception a run ends with, if any. *)
Definition raised {S A} (run : S * list event * result A) : option exn :=
  match outcome run with
  | Throw e => Some e
  | Ok _ => None
  end.

(** The exception an operation raises on the response [r]. *)
Definition failure {S} (E : env) (o : operation) (r : response) (s : S)
  : option exn :=
  match o with
  | Reading e => raised (handle E e r s)
  | DeleteBook => raised (Api.deleteBook_response r s)
  | DeleteReadingList => raised (Api.deleteReadingList_response r s)
  end.

(** How the message of each operation's failure starts. *)
Definition failure_prefix (o : operation) : string :=
  match o with
  | Reading GetBooks => "Failed to fetch books: "
  | Reading GetReviews => "Failed to fetch reviews: "
  | Reading GetReadingLists => "Failed to fetch reading lists: "
  | Reading GetRecommendations => "Failed to get recommendations"
  | Reading CreateReadingList => "Failed to create reading list: "
  | Reading UpdateReadingList => "Failed to update reading list: "
  | Reading CreateBook => "Failed to create book: "
  | Reading UpdateBook => "Failed to update book: "
  | Reading CreateReview => "Failed to create review: "
  | DeleteBook => "Failed to delete book: "
  | DeleteReadingList => "Failed to delete reading list: "
  end.

(** The two operations whose failure quotes the server. *)
Definition quotes_server (o : operation) : bool :=
  match o with
  | Reading GetReadingLists | Reading UpdateReadingList => true
  | _ => false
  end.

(** No call of a state setter among the events [t]. *)
Definition setter_free (t : list event) : bool :=
  forallb (fun ev => match ev with
                     | EvSet _ => false
                     | _ => true
                     end) t.

(** Only calls into the platform among the events [t]: no setter call
    and no notification. *)
Definition platform_only (t : list event) : bool :=
  forallb (fun ev => match ev with
                     | EvSet _ | EvShowSuccess _ | EvHandleApiError _ => false
                     | _ => true
                     end) t.

(** A computation that touches no component: it hands back the state it
    was given, and calls nothing but the platform. *)
Definition detached {S A} (m : M S A) : Prop :=
  forall s, final_state (m s) = s /\ platform_only (trace (m s)) = true.

(** The request of [updateReadingList] under the headers [headers]. *)
Definition update_request (E : env) (headers : list (string * string))
    (id : string) (payload : json) : request :=
  {| req_method := PUT;
     req_url := API_BASE_URL E ++ "/reading-lists/" ++ id;
     req_headers := headers;
     req_body := Some payload |}.

(** Sample records. *)
Definition a_book (id name : string) : Book :=
  {| book_id := id; title := name; author := "Anonymous";
     book_description := ""; genre := "Fiction"; publishedYear := 2001;
     isbn := "000-0"; coverImage := "/covers/none.svg"; rating := 40 |}.

Definition a_list (id name : string) (ids : list string) : ReadingList :=
  {| list_id := id; list_name := name; list_description := None;
     bookIds := ids; list_createdAt := "2025-01-01T00:00:00.000Z";
     list_updatedAt := "2025-01-01T00:00:00.000Z" |}.

(** A run that sets the loading flag before anything else, clears it as
    its last step, and ends with the flag down. *)
Definition brackets_loading
    (run : AuthContext.state * list event * result unit) : Prop :=
  hd_error (trace run) = Some (EvSet (SetIsLoading true))
  /\ last (trace run) (EvTimeout 0) = EvSet (SetIsLoading false)
  /\ AuthContext.isLoading (final_state run) = false.

(* ================================================================== *)
(** ** Vocabulary of the further properties *)

(** A call of one of the exported functions of [services/api.ts]. *)
Inductive api_call : Type :=
| CallGetBooks
| CallGetBook (id : string)
| CallCreateBook (book : json)
| CallUpdateBook (id : string) (book : json)
| CallDeleteBook (id : option string)
| CallGetRecommendations (query : string)
| CallGetReadingLists
| CallCreateReadingList (list : json)
| CallUpdateReadingList (id : string) (list : json)
| CallDeleteReadingList (id : string)
| CallGetReviews (bookId : string)
| CallCreateReview (bookId : string) (review : json).

(** A run with the value it resolved with forgotten. *)
Definition settled {S A} (run : S * list event * result A)
  : S * list event * result unit :=
  (final_state run, trace run,
   match outcome run with
   | Ok _ => Ok tt
   | Throw e => Throw e
   end).

Definition perform {S} (E : env) (c : api_call) (s : S)
  : S * list event * result unit :=
  match c with
  | CallGetBooks => settled (Api.getBooks E s)
  | CallGetBook id => settled (Api.getBook E id s)
  | CallCreateBook book => settled (Api.createBook E book s)
  | CallUpdateBook id book => settled (Api.updateBook E id book s)
  | CallDeleteBook id => settled (Api.deleteBook E id s)
  | CallGetRecommendations query => settled (Api.getRecommendations E query s)
  | CallGetReadingLists => settled (Api.getReadingLists E s)
  | CallCreateReadingList list => settled (Api.createReadingList E list s)
  | CallUpdateReadingList id list => settled (Api.updateReadingList E id list s)
  | CallDeleteReadingList id => settled (Api.deleteReadingList E id s)
  | CallGetReviews bookId => settled (Api.getReviews E bookId s)
  | CallCreateReview bookId review => settled (Api.createReview E bookId review s)
  end.

(** The HTTP exchange a call stands for: method, path under the base URL,
    whether the auth headers are attached, and the body sent. *)
Record route : Type := {
  route_method : method;
  route_path : string;
  route_auth : bool;
  route_body : option json
}.

Definition route_of (c : api_call) : option route :=
  let to m path auth body :=
    Some {| route_method := m; route_path := path;
            route_auth := auth; route_body := body |} in
  match c with
  | CallGetBooks => to GET "/books" false None
  | CallGetBook _ => None
  | CallCreateBook book => to POST "/books" true (Some book)
  | CallUpdateBook id book => to PUT ("/books/" ++ id) true (Some book)
  | CallDeleteBook None | CallDeleteBook (Some EmptyString) => None
  | CallDeleteBook (Some id) => to DELETE ("/books/" ++ id) true None
  | CallGetRecommendations query =>
      to POST "/recommendations" true (Some (JObj [("query", JStr query)]))
  | CallGetReadingLists => to GET "/reading-lists" true None
  | CallCreateReadingList list => to POST "/reading-lists" true (Some list)
  | CallUpdateReadingList id list =>
      to PUT ("/reading-lists/" ++ id) true (Some list)
  | CallDeleteReadingList id => to DELETE ("/reading-lists/" ++ id) true None
  | CallGetReviews bookId => to GET ("/books/" ++ bookId ++ "/reviews") false None
  | CallCreateReview bookId review =>
      to POST ("/books/" ++ bookId ++ "/reviews") true (Some review)
  end.

(** The request of a route under the headers [headers]. *)
Definition request_of (E : env) (rt : route) (headers : list (string * string))
  : request :=
  {| req_method := route_method rt;
     req_url := API_BASE_URL E ++ route_path rt;
     req_headers := headers;
     req_body := route_body rt |}.

(** The headers [getAuthHeaders] resolves with, as the session call
    settles. *)
Definition headers_for (session : result (option string))
  : list (string * string) :=
  match session with
  | Ok (Some token) => [("Authorization", "Bearer " ++ token); Api.content_type]
  | Ok None => [("Authorization", "Bearer undefined"); Api.content_type]
  | Throw _ => [Api.content_type]
  end.

(** Only writes to the console among the events [t]. *)
Definition console_only (t : list event) : bool :=
  forallb (fun ev => match ev with
                     | EvConsoleError _ => true
                     | _ => false
                     end) t.

(** A computation that hands back the state it was given and whose
    events all satisfy [p]. *)
Definition confined {S A} (p : list event -> bool) (m : M S A) : Prop :=
  forall s, final_state (m s) = s /\ p (trace (m s)) = true.

(** The endpoints typed as returning a list. *)
Definition is_listing (e : endpoint) : bool :=
  match e with
  | GetBooks | GetReviews | GetReadingLists | GetRecommendations => true
  | _ => false
  end.

(** The requests sent among the events [t], in order. *)
Fixpoint fetches (t : list event) : list request :=
  match t with
  | [] => []
  | EvFetch req :: rest => req :: fetches rest
  | _ :: rest => fetches rest
  end.

(** A computation whose events and result do not depend on the state it
    runs in, and which hands that state back. *)
Definition oblivious {S A} (m : M S A) : Prop :=
  exists t r, forall s, m s = (s, t, r).

(** The request of [getBooks]: a plain GET, no header attached. *)
Definition books_request (E : env) : request :=
  {| req_method := GET;
     req_url := API_BASE_URL E ++ "/books";
     req_headers := [];
     req_body := None |}.

(** The books [loadBooks] keeps of the catalogue [all] for the ids [ids]. *)
Definition members_of (ids : list string) (all : list Book) : list Book :=
  filter (fun book => Js.includes ids (book_id book)) all.

(** An environment whose server answers by the request's method: reads
    with [on_get], everything else with [on_write]. *)
Definition env_serving (on_get on_write : result response) : env :=
  {| API_BASE_URL := "https://api.example.test";
     JSON_parse := JsonText.parse;
     fetch := fun req => match req_method req with
                         | GET => on_get
                         | _ => on_write
                         end;
     fetchAuthSession := Throw (Error "No current user");
     mockBooks := [] |}.

(** The notifications among the events [t], in order: the success
    notices and the errors handed to handleApiError. *)
Fixpoint notices (t : list event) : list event :=
  match t with
  | [] => []
  | EvShowSuccess message :: rest => EvShowSuccess message :: notices rest
  | EvHandleApiError error :: rest => EvHandleApiError error :: notices rest
  | _ :: rest => notices rest
  end.

(** The requests of the calls the pages make, under the headers of
    [getAuthHeaders]. *)
Definition lists_request (E : env) : request :=
  {| req_method := GET;
     req_url := API_BASE_URL E ++ "/reading-lists";
     req_headers := headers_for (fetchAuthSession E);
     req_body := None |}.

Definition delete_list_request (E : env) (id : string) : request :=
  {| req_method := DELETE;
     req_url := API_BASE_URL E ++ "/reading-lists/" ++ id;
     req_headers := headers_for (fetchAuthSession E);
     req_body := None |}.

Definition reviews_request (E : env) (bookId : string) : request :=
  {| req_method := GET;
     req_url := API_BASE_URL E ++ "/books/" ++ bookId ++ "/reviews";
     req_headers := [];
     req_body := None |}.

Definition review_request (E : env) (bookId : string) (review : json)
  : request :=
  {| req_method := POST;
     req_url := API_BASE_URL E ++ "/books/" ++ bookId ++ "/reviews";
     req_headers := headers_for (fetchAuthSession E);
     req_body := Some review |}.

(** A call of the API layer as a page sees it: the state is handed back,
    events and result are the same in every state, the one request sent
    is [req], and nothing is notified. *)
Definition api_call_sending {S A} (m : M S A) (req : request) : Prop :=
  oblivious m
  /\ forall s, fetches (trace (m s)) = [req] /\ notices (trace (m s)) = [].

(** The question [handleDeleteList] puts to the user. *)
Definition delete_question (l : ReadingList) : string :=
  "Are you sure you want to delete " ++ Js.quoted (list_name l) ++ "?".

(** The text of the UTF-8 bytes [codes]. *)
Definition utf8 (codes : list nat) : string :=
  string_of_list_ascii (map ascii_of_nat codes).

(** The characters that [trim] strips: the white space and the line
    terminators of the language, in UTF-8. *)
Definition WhiteSpace : list string :=
  map utf8
    [ [9]; [10]; [11]; [12]; [13]; [32];
      [194; 160];
      [225; 154; 128];
      [226; 128; 128]; [226; 128; 129]; [226; 128; 130]; [226; 128; 131];
      [226; 128; 132]; [226; 128; 133]; [226; 128; 134]; [226; 128; 135];
      [226; 128; 136]; [226; 128; 137]; [226; 128; 138];
      [226; 128; 168]; [226; 128; 169]; [226; 128; 175];
      [226; 129; 159];
      [227; 128; 128];
      [239; 187; 191] ].

(** A text of white space only (the empty one included). *)
Inductive blank : string -> Prop :=
| blank_empty : blank EmptyString
| blank_white (w s : string) : In w WhiteSpace -> blank s -> blank (w ++ s).

(** The Kelvin sign, U+212A. *)
Definition KELVIN : string := utf8 [226; 132; 170].

(** A small letter, and the capital of one. *)
Definition small (c : ascii) : bool :=
  andb (Nat.leb 97 (nat_of_ascii c)) (Nat.leb (nat_of_ascii c) 122).

Definition capital (c : ascii) : ascii := ascii_of_nat (nat_of_ascii c - 32).

(** [spells typed address]: [typed] is [address] with some of its small
    letters written as capitals and some of its [k] as Kelvin signs. *)
Inductive spells : string -> string -> Prop :=
| spells_end : spells EmptyString EmptyString
| spells_same (c : ascii) (s t : string) :
    spells s t -> spells (String c s) (String c t)
| spells_capital (c : ascii) (s t : string) :
    small c = true -> spells s t -> spells (String (capital c) s) (String c t)
| spells_kelvin (s t : string) :
    spells s t -> spells (KELVIN ++ s) (String "k" t).

(** A provider that accepts every sign-in and settles [signUp] and
    [confirmSignUp] as given; a form as the user left it; and the
    simplest test of a field, that it is not empty. *)
Definition provider_settling (created confirmed : result unit)
  : AuthContext.provider :=
  {| AuthContext.signIn := fun _ _ => Ok true;
     AuthContext.signOut := Ok tt;
     AuthContext.signUp := fun _ _ _ _ => created;
     AuthContext.confirmSignUp := fun _ _ => confirmed;
     AuthContext.getCurrentUser := Throw (Error "No current user");
     AuthContext.fetchUserAttributes := Throw (Error "No current user");
     AuthContext.now := "2025-01-01T00:00:00.000Z" |}.

Definition signup_page (name email password confirmPassword code : string)
    (needsVerification : bool) : Signup.state :=
  {| cells :=
       {| Signup.fields :=
            {| Signup.name := name;
               Signup.email := email;
               Signup.password := password;
               Signup.confirmPassword := confirmPassword;
               Signup.verificationCode := code;
               Signup.needsVerification := needsVerification;
               Signup.errors :=
                 {| Signup.name_error := None;
                    Signup.email_error := None;
                    Signup.password_error := None;
                    Signup.confirmPassword_error := None;
                    Signup.verificationCode_error := None |};
               Signup.isLoading := false |};
          Signup.auth := {| AuthContext.user := None;
                            AuthContext.isLoading := false |} |};
     navigated := [];
     alerted := [] |}.

Definition filled (s : string) : bool := negb (String.eqb s EmptyString).

(** A text of ASCII characters none of which is a capital letter. *)
Definition plain_small (t : string) : bool :=
  forallb (fun c =>
             andb (Nat.ltb (nat_of_ascii c) 128)
                  (negb (andb (Nat.leb 65 (nat_of_ascii c))
                              (Nat.leb (nat_of_ascii c) 90))))
          (list_ascii_of_string t).

(* ================================================================== *)
(** * Properties *)

(** ** The JSON reader on sample texts *)

Example parse_envelope :
  JsonText.parse (JsonText.q "{'body': '[{\'id\':\'a\'}, 7, null]', 'n':-12}")
  = Some (JObj [("body", JStr (JsonText.q "[{'id':'a'}, 7, null]"));
                ("n", JNum (-12))]).
Proof. vm_compute. reflexivity. Qed.

Example parse_rejects :
  map JsonText.parse
      ["Too Many Requests"; ""; "01"; "[1,]"; "[1] x"; "nul"; "{'a':1}"]
  = [None; None; None; None; None; None; None].
Proof. vm_compute. reflexivity. Qed.

Example parse_accepts :
  map (fun t => JsonText.parse (JsonText.q t))
      ["null"; " [ ] "; "-0"; "{'a':[], 'a':true, 'b':{}}"; "'x\ny'"]
  = [Some JNull; Some (JArr []); Some (JNum 0);
     Some (JObj [("a", JBool true); ("b", JObj [])]);
     Some (JStr (String "x" (String (ascii_of_nat 10) "y")))].
Proof. vm_compute. reflexivity. Qed.

(** ** Running a computation *)

Lemma let_triple {S A} (x : S * list event * result A) :
  (let '(s2, t2, r) := x in (s2, t2, r)) = x.
Proof. destruct x as [[s t] r]. reflexivity. Qed.

(** ** Reading the payload of a response *)

Lemma envelope_text_body d t :
  envelope_text d = Some t ->
  exists b, Js.get d "body" = Ok b /\ Js.nonempty_string b = Some t.
Proof.
  unfold envelope_text. destruct (Js.get d "body") as [b|]; [|discriminate].
  intros H. exists b. split; [reflexivity | exact H].
Qed.

Lemma plain_body p :
  plain p = true ->
  exists b, Js.get p "body" = Ok b /\ Js.nonempty_string b = None.
Proof.
  unfold plain, envelope_text.
  destruct p; cbn; try discriminate; try (exists None; split; reflexivity).
  destruct (Js.nonempty_string (Js.lookup "body" fields)) eqn:Hb;
    [discriminate|].
  intros _. eexists. split; [reflexivity | exact Hb].
Qed.

Lemma ok_direct r t : ok (direct r t) = ok r.
Proof. reflexivity. Qed.

(** Unfolds the monad until a run is a triple. *)
Ltac run :=
  unfold Api.response_json, Api.parse, prop, to_string, throw_new_Error,
    console_error, of_option, of_result, bind, ret, throw, emit; cbn.

Lemma envelope_is_object d t :
  envelope_text d = Some t -> exists fields, d = JObj fields.
Proof.
  destruct d; cbn; try discriminate. intros _. eexists; reflexivity.
Qed.

Lemma plain_get p k :
  plain p = true -> exists v, Js.get p k = Ok v.
Proof.
  destruct p; cbn; try discriminate; intros _; eexists; reflexivity.
Qed.

Ltac settle_run := rewrite ?let_triple; try reflexivity.

(** ** Unwrapping the proxy envelope (C1) *)

(** C1, as amended.  Take a 2xx response whose decoded JSON is an envelope:
    it has a non-empty string [body], and that text parses to a payload [p].
    When [p] is not [null], is not itself an envelope, and is a payload the
    endpoint accepts (an array for getReadingLists; an array or an object
    holding an array [recommendations] for getRecommendations; a record
    with a truthy [bookIds] or [books] for createReadingList and
    updateReadingList; anything for getBooks, getReviews, createBook,
    updateBook and createReview), the operation runs exactly as on the
    response that carries the text of [p] directly: same value returned or
    same error raised. *)
Theorem unwrapping_transparent_when_accepted :
  forall (E : env) (S : Type) (e : endpoint) (r : response)
         (d : json) (t : string) (p : json) (s : S),
    ok r = true ->
    JSON_parse E (text r) = Some d ->
    envelope_text d = Some t ->
    JSON_parse E t = Some p ->
    plain p = true ->
    accepted e p = true ->
    handle E e r s = handle E e (direct r t) s.
Proof.
  intros E S e r d t p s Hok Hd Ht Hp Hplain Hacc.
  destruct (envelope_text_body _ Ht) as (b & Hb & Hbt).
  destruct (plain_body _ Hplain) as (b' & Hb' & Hbn).
  destruct (envelope_is_object _ Ht) as (fields & ->).
  destruct e;
    unfold handle, Api.getBooks_response, Api.getReviews_response,
      Api.getReadingLists_response, Api.getRecommendations_response,
      Api.createReadingList_response, Api.updateReadingList_response,
      Api.createBook_response, Api.updateBook_response,
      Api.createReview_response, Api.unwrap_response;
    rewrite ok_direct, Hok; run; rewrite Hd, Hp; cbn;
    cbn in Hb; rewrite Hb'; injection Hb as Hb; rewrite Hb; cbn;
    rewrite Hbt, Hbn, ?Hp; cbn.
  - destruct (Js.isArray p); reflexivity.
  - destruct (Js.isArray p); reflexivity.
  - cbn in Hacc. rewrite Hacc. reflexivity.
  - cbn in Hacc. unfold holds_recommendations in Hacc.
    destruct (Js.get p "recommendations") as [[v|]|]; cbn.
    + destruct v; cbn in *; rewrite ?andb_false_r;
        try (rewrite orb_false_r in Hacc; rewrite Hacc); reflexivity.
    + rewrite orb_false_r in Hacc. rewrite Hacc. reflexivity.
    + reflexivity.
  - unfold accepted, has_truthy in Hacc.
    destruct (plain_get p "bookIds" Hplain) as (ids & Hids).
    destruct (plain_get p "books" Hplain) as (bks & Hbks).
    rewrite Hids, Hbks in *. cbn. rewrite Hacc. settle_run.
  - unfold accepted, has_truthy in Hacc.
    destruct (plain_get p "bookIds" Hplain) as (ids & Hids).
    destruct (plain_get p "books" Hplain) as (bks & Hbks).
    rewrite Hids, Hbks in *. cbn. rewrite Hacc. settle_run.
  - reflexivity.
  - reflexivity.
  - reflexivity.
Qed.

Lemma unwrapping_transparent_witness :
  let r := reply 201 "Created"
                 "{'body':'{\'name\':\'Summer\',\'books\':[\'a\']}'}" in
  let t := JsonText.q "{'name':'Summer','books':['a']}" in
  handle offline CreateReadingList r tt
  = handle offline CreateReadingList (direct r t) tt
  /\ outcome (handle offline CreateReadingList r tt)
     = Ok (JObj [("name", JStr "Summer"); ("bookIds", JArr [JStr "a"])]).
Proof.
  split.
  - apply (@unwrapping_transparent_when_accepted offline unit
             CreateReadingList _
             (JObj [("body", JStr (JsonText.q "{'name':'Summer','books':['a']}"))])
             (JsonText.q "{'name':'Summer','books':['a']}")
             (JObj [("name", JStr "Summer"); ("books", JArr [JStr "a"])]) tt);
      vm_compute; reflexivity.
  - vm_compute. reflexivity.
Defined.

(** C1 as stated fails: a created record that names neither [bookIds]
    nor [books] is returned when it arrives wrapped and is rejected when
    the same record arrives directly, for createReadingList and for
    updateReadingList alike. *)
Lemma unwrapping_not_transparent_for_every_payload :
  let wrapped := reply 201 "Created" "{'body':'{\'name\':\'Summer\'}'}" in
  let sent := JsonText.q "{'name':'Summer'}" in
  ok wrapped = true
  /\ JSON_parse offline (text wrapped) = Some (JObj [("body", JStr sent)])
  /\ outcome (Api.createReadingList_response offline wrapped tt)
     = Ok (JObj [("name", JStr "Summer")])
  /\ outcome (Api.createReadingList_response offline (direct wrapped sent) tt)
     = Throw (Error "Unexpected API response format")
  /\ outcome (Api.updateReadingList_response offline wrapped tt)
     = Ok (JObj [("name", JStr "Summer")])
  /\ outcome (Api.updateReadingList_response offline (direct wrapped sent) tt)
     = Throw (Error "Unexpected API response format").
Proof. vm_compute. repeat split; reflexivity. Qed.

(** The other limits of the amended statement are real as well: a body
    that parses to [null], a body that is itself an envelope, and a body
    of getReadingLists that is not an array each make the wrapped and the
    direct response end differently. *)
Example unwrapping_limits :
  let wrapped body := reply 200 "OK" body in
  (outcome (Api.createBook_response offline (wrapped "{'body':'null'}") tt)
   = Ok JNull
   /\ outcome (Api.createBook_response offline (wrapped "null") tt)
      = Throw TypeError)
  /\ (outcome (Api.getBooks_response offline
                 (wrapped "{'body':'{\'body\':\'[1]\'}'}") tt)
      = Ok (JArr [])
      /\ outcome (Api.getBooks_response offline (wrapped "{'body':'[1]'}") tt)
         = Ok (JArr [JNum 1]))
  /\ (outcome (Api.getReadingLists_response offline
                 (wrapped "{'body':'{\'count\':0}'}") tt)
      = Throw (Error "API response body is not an array")
      /\ outcome (Api.getReadingLists_response offline
                    (wrapped "{'count':0}") tt)
         = Throw (Error "Unexpected API response format")).
Proof. vm_compute. repeat split; reflexivity. Qed.

(** ** The books-to-bookIds repair (C2) *)

Lemma lookup_assign_same k v fields :
  Js.lookup k (Js.assign k v fields) = Some v.
Proof.
  induction fields as [|[k' v'] rest IH]; cbn.
  - rewrite String.eqb_refl. reflexivity.
  - destruct (String.eqb k k') eqn:Hk; cbn; rewrite Hk; [reflexivity | exact IH].
Qed.

Lemma lookup_delete_other k k' fields :
  String.eqb k' k = false ->
  Js.lookup k (Js.delete k' fields) = Js.lookup k fields.
Proof.
  intros Hne. unfold Js.delete.
  induction fields as [|[k0 v0] rest IH]; cbn; [reflexivity|].
  destruct (String.eqb k' k0) eqn:Hk0; cbn.
  - apply String.eqb_eq in Hk0. subst k0.
    rewrite String.eqb_sym, Hne. exact IH.
  - rewrite IH. reflexivity.
Qed.

Lemma lookup_delete_same k fields :
  Js.lookup k (Js.delete k fields) = None.
Proof.
  unfold Js.delete.
  induction fields as [|[k0 v0] rest IH]; cbn; [reflexivity|].
  destruct (String.eqb k k0) eqn:Hk0; cbn; [exact IH | rewrite Hk0; exact IH].
Qed.

Lemma renamed_has_bookIds fields b :
  Js.get (Api.rename_books (JObj fields) (Some b)) "bookIds" = Ok (Some b)
  /\ Js.get (Api.rename_books (JObj fields) (Some b)) "books" = Ok None.
Proof.
  cbn. split.
  - rewrite lookup_delete_other by reflexivity. rewrite lookup_assign_same.
    reflexivity.
  - rewrite lookup_delete_same. reflexivity.
Qed.

(** What the repair block does to a record. *)
Lemma books_to_bookIds_run {S} fields (s : S) :
  Api.books_to_bookIds (JObj fields) s
  = (s, [],
     Ok (if andb (Js.truthy_opt (Js.lookup "books" fields))
                 (negb (Js.truthy_opt (Js.lookup "bookIds" fields)))
         then Api.rename_books (JObj fields) (Js.lookup "books" fields)
         else JObj fields)).
Proof.
  unfold Api.books_to_bookIds. run.
  destruct (Js.truthy_opt (Js.lookup "books" fields)); cbn; [|reflexivity].
  destruct (Js.truthy_opt (Js.lookup "bookIds" fields)); reflexivity.
Qed.

Arguments Api.books_to_bookIds : simpl never.

(** A 2xx response to createReadingList whose payload is a record. *)
Lemma createReadingList_record_run {S} E r d fields (s : S) :
  ok r = true ->
  JSON_parse E (text r) = Some d ->
  payload E d = Some (JObj fields) ->
  Api.createReadingList_response E r s
  = match envelope_text d with
    | Some _ => Api.books_to_bookIds (JObj fields) s
    | None =>
        if orb (Js.truthy_opt (Js.lookup "bookIds" fields))
               (Js.truthy_opt (Js.lookup "books" fields))
        then Api.books_to_bookIds (JObj fields) s
        else (s, [], Throw (Error "Unexpected API response format"))
    end.
Proof.
  intros Hok Hd Hpay. unfold Api.createReadingList_response.
  rewrite Hok. unfold payload in Hpay.
  destruct (envelope_text d) as [t|] eqn:Ht.
  - destruct (envelope_text_body _ Ht) as (b & Hb & Hbt).
    run. rewrite Hd. cbn. rewrite Hb. cbn. rewrite Hbt, Hpay.
    settle_run.
  - injection Hpay as ->. cbn in Ht. run. rewrite Hd. cbn. rewrite Ht.
    destruct (Js.truthy_opt (Js.lookup "bookIds" fields)
              || Js.truthy_opt (Js.lookup "books" fields)); settle_run.
Qed.

Lemma create_update_same_on_success {S} E r (s : S) :
  ok r = true ->
  Api.createReadingList_response E r s = Api.updateReadingList_response E r s.
Proof.
  intros Hok. unfold Api.createReadingList_response,
    Api.updateReadingList_response. rewrite Hok. reflexivity.
Qed.

(** C2, as amended.  For a 2xx response to createReadingList or
    updateReadingList whose payload (the parsed body of an envelope, else
    the decoded data) is a record: both operations handle it identically;
    when the record carries a truthy [books] value (any array, the empty
    one included) and no truthy [bookIds], the record returned is the
    payload with [books] renamed to [bookIds] and [books] deleted; and
    whenever a record is returned whose payload had a [bookIds] field or a
    truthy [books] value, the returned record has a [bookIds] field. *)
Theorem books_renamed_to_bookIds :
  forall (E : env) (S : Type) (r : response) (d : json)
         (fields : list (string * json)) (s : S),
    ok r = true ->
    JSON_parse E (text r) = Some d ->
    payload E d = Some (JObj fields) ->
    Api.createReadingList_response E r s = Api.updateReadingList_response E r s
    /\ (forall b,
          Js.lookup "books" fields = Some b ->
          Js.truthy b = true ->
          Js.truthy_opt (Js.lookup "bookIds" fields) = false ->
          let repaired := Api.rename_books (JObj fields) (Some b) in
          Api.createReadingList_response E r s = (s, [], Ok repaired)
          /\ Js.get repaired "bookIds" = Ok (Some b)
          /\ Js.get repaired "books" = Ok None)
    /\ (forall v,
          outcome (Api.createReadingList_response E r s) = Ok v ->
          Js.lookup "bookIds" fields <> None
          \/ Js.truthy_opt (Js.lookup "books" fields) = true ->
          exists ids, Js.get v "bookIds" = Ok (Some ids)).
Proof.
  intros E S r d fields s Hok Hd Hpay.
  split; [apply create_update_same_on_success; exact Hok|].
  rewrite (createReadingList_record_run _ _ s Hok Hd Hpay).
  rewrite books_to_bookIds_run.
  split.
  - intros b Hb Htb Hids repaired. subst repaired.
    rewrite Hb, Hids. cbn. rewrite Htb. cbn.
    split; [|apply renamed_has_bookIds].
    destruct (envelope_text d); reflexivity.
  - intros v Hv Hnamed.
    assert (Hret :
      Ok (if andb (Js.truthy_opt (Js.lookup "books" fields))
                  (negb (Js.truthy_opt (Js.lookup "bookIds" fields)))
          then Api.rename_books (JObj fields) (Js.lookup "books" fields)
          else JObj fields) = Ok v).
    { unfold outcome in Hv.
      destruct (envelope_text d); [exact Hv|].
      destruct (Js.truthy_opt (Js.lookup "bookIds" fields)
                || Js.truthy_opt (Js.lookup "books" fields));
        [exact Hv | simpl in Hv; congruence]. }
    injection Hret as <-.
    destruct (Js.lookup "books" fields) as [b|] eqn:Hb; cbn [Js.truthy_opt].
    + destruct (Js.truthy b) eqn:Htb; cbn [andb].
      * destruct (Js.truthy_opt (Js.lookup "bookIds" fields)) eqn:Hids;
          cbn [negb].
        -- destruct (Js.lookup "bookIds" fields) as [ids|] eqn:Hl;
             [|discriminate Hids].
           exists ids. cbn. rewrite Hl. reflexivity.
        -- exists b. apply renamed_has_bookIds.
      * destruct Hnamed as [Hn|Hn];
          [|cbn in Hn; congruence].
        destruct (Js.lookup "bookIds" fields) as [ids|] eqn:Hl;
          [|contradiction].
        exists ids. cbn. rewrite Hl. reflexivity.
    + cbn [andb]. destruct Hnamed as [Hn|Hn];
        [|discriminate Hn].
      destruct (Js.lookup "bookIds" fields) as [ids|] eqn:Hl;
        [|contradiction].
      exists ids. cbn. rewrite Hl. reflexivity.
Qed.

Lemma books_renamed_witness :
  let r := reply 200 "OK"
                 "{'body':'{\'id\':\'7\',\'books\':[\'a\',\'b\'],\'name\':\'Summer\'}'}" in
  outcome (Api.updateReadingList_response offline r tt)
  = Ok (JObj [("id", JStr "7"); ("name", JStr "Summer");
              ("bookIds", JArr [JStr "a"; JStr "b"])]).
Proof.
  intros r.
  pose proof (@books_renamed_to_bookIds offline unit r
                (JObj [("body", JStr (JsonText.q
                   "{'id':'7','books':['a','b'],'name':'Summer'}"))])
                [("id", JStr "7"); ("books", JArr [JStr "a"; JStr "b"]);
                 ("name", JStr "Summer")] tt
                eq_refl eq_refl eq_refl) as (Hsame & Hrename & _).
  rewrite <- Hsame.
  destruct (Hrename (JArr [JStr "a"; JStr "b"]) eq_refl eq_refl eq_refl)
    as (Hrun & _).
  rewrite Hrun. reflexivity.
Defined.

(** C2 as stated fails: a record whose [books] field is [null] (or any
    other falsy value) carries [books] and no [bookIds], and is returned
    as it came. *)
Lemma falsy_books_not_renamed :
  let r := reply 201 "Created"
                 "{'body':'{\'name\':\'Summer\',\'books\':null}'}" in
  let returned := JObj [("name", JStr "Summer"); ("books", JNull)] in
  ok r = true
  /\ payload offline (JObj [("body", JStr (JsonText.q
                      "{'name':'Summer','books':null}"))]) = Some returned
  /\ outcome (Api.createReadingList_response offline r tt) = Ok returned
  /\ outcome (Api.updateReadingList_response offline r tt) = Ok returned
  /\ Js.get returned "books" = Ok (Some JNull)
  /\ Js.get returned "bookIds" = Ok None.
Proof. vm_compute. repeat split; reflexivity. Qed.

(** ** Failed responses (C3) *)

Lemma append_empty_r (a : string) : a ++ "" = a.
Proof.
  induction a as [|c a IH]; cbn; [reflexivity | rewrite IH; reflexivity].
Qed.

Lemma append_assoc (a b c : string) : (a ++ b) ++ c = a ++ b ++ c.
Proof.
  induction a as [|x a IH]; cbn; [reflexivity | rewrite IH; reflexivity].
Qed.

Lemma prefix_append (a b : string) : String.prefix a (a ++ b) = true.
Proof.
  induction a as [|c a IH]; cbn.
  - destruct b; reflexivity.
  - destruct (Ascii.ascii_dec c c) as [_|Hne]; [exact IH | contradiction].
Qed.

Lemma contains_append (needle before after : string) :
  Js.contains needle (before ++ needle ++ after) = true.
Proof.
  induction before as [|c before IH].
  - change ("" ++ needle ++ after) with (needle ++ after).
    pose proof (prefix_append needle after) as Hp.
    destruct (needle ++ after); cbn [Js.contains]; rewrite Hp; reflexivity.
  - change (String c before ++ needle ++ after)
      with (String c (before ++ needle ++ after)).
    cbn [Js.contains]. rewrite IH.
    destruct (String.prefix needle _); reflexivity.
Qed.

(** The message of a failure names the status whatever follows it. *)
Lemma contains_status prefix r detail :
  Js.contains (Js.Number_toString (status r))
              (prefix ++ Api.status_line r ++ detail) = true.
Proof.
  unfold Api.status_line. rewrite !append_assoc. apply contains_append.
Qed.

(** The [try] block always leaves a message that starts as it started. *)
Lemma describe_failure_extends {S} E with_error label message r (s : S) :
  exists t detail,
    Api.describe_failure E with_error label message r s
    = (s, t, Ok (message ++ detail)).
Proof.
  unfold Api.describe_failure, Api.message_or_error, Api.append_detail,
    try_catch.
  run.
  repeat (match goal with
          | |- context [match ?x with _ => _ end] =>
              lazymatch x with
              | context [match _ with _ => _ end] => fail
              | _ => destruct x eqn:?
              end
          end; cbn);
    first [ exists [], ""; rewrite append_empty_r; reflexivity
          | eexists _, ""; rewrite append_empty_r; reflexivity
          | eexists _, _; reflexivity ].
Qed.

Arguments Api.describe_failure : simpl never.
Arguments String.append : simpl never.
Arguments Js.contains : simpl never.
Arguments Js.Number_toString : simpl never.

Ltac unfold_handlers :=
  unfold failure, raised, outcome, handle, Api.getBooks_response,
    Api.getReviews_response, Api.getReadingLists_response,
    Api.getRecommendations_response, Api.createReadingList_response,
    Api.updateReadingList_response, Api.createBook_response,
    Api.updateBook_response, Api.createReview_response,
    Api.unwrap_response, Api.deleteBook_response,
    Api.deleteReadingList_response.

(** C3, as amended.  On a response that is not 2xx, every operation other
    than getRecommendations raises an [Error] whose message is the
    operation's own prefix followed by the HTTP status and status text, so
    the message carries the status.  Only getReadingLists and
    updateReadingList go on to quote the server: after [" - "] they append
    the top-level [message] of the decoded body when it is truthy, and
    otherwise the [message] found in the parsed string [body]; all other
    operations append nothing.  getRecommendations raises the fixed
    message "Failed to get recommendations", without the status, on every
    failure other than 429. *)
Theorem failed_response_raises_status :
  forall (E : env) (S : Type) (o : operation) (r : response) (s : S),
    ok r = false ->
    (o <> Reading GetRecommendations ->
     exists detail,
       failure E o r s
       = Some (Error (failure_prefix o ++ Api.status_line r ++ detail))
       /\ Js.contains (Js.Number_toString (status r))
                      (failure_prefix o ++ Api.status_line r ++ detail) = true
       /\ (quotes_server o = false -> detail = ""))
    /\ (quotes_server o = true ->
        forall d m shown,
          JSON_parse E (text r) = Some d ->
          Js.get d "message" = Ok (Some m) ->
          Js.truthy m = true ->
          Js.ToString m = Some shown ->
          failure E o r s
          = Some (Error (failure_prefix o ++ Api.status_line r
                         ++ " - " ++ shown)))
    /\ (quotes_server o = true ->
        forall d t p m shown,
          JSON_parse E (text r) = Some d ->
          has_truthy d "message" = false ->
          envelope_text d = Some t ->
          JSON_parse E t = Some p ->
          Js.get p "message" = Ok (Some m) ->
          Js.truthy m = true ->
          Js.ToString m = Some shown ->
          failure E o r s
          = Some (Error (failure_prefix o ++ Api.status_line r
                         ++ " - " ++ shown)))
    /\ (status r <> 429%Z ->
        failure E (Reading GetRecommendations) r s
        = Some (Error "Failed to get recommendations")).
Proof.
  intros E S o r s Hok. repeat split.
  - intros Hother.
    destruct o as [[]| |]; try contradiction;
      unfold_handlers; rewrite Hok; cbn [negb];
      try (exists ""; rewrite append_empty_r; split; [reflexivity|];
           split; [|reflexivity];
           rewrite <- (append_empty_r (Api.status_line r));
           apply contains_status).
    + destruct (describe_failure_extends E false "API Error Response:"
                  ("Failed to fetch reading lists: " ++ Api.status_line r)
                  r s) as (t & detail & Hrun).
      exists detail. unfold bind. rewrite Hrun. cbn.
      rewrite append_assoc. split; [reflexivity|].
      split; [apply contains_status | discriminate].
    + destruct (describe_failure_extends E true
                  "Update Reading List API Error Response:"
                  ("Failed to update reading list: " ++ Api.status_line r)
                  r s) as (t & detail & Hrun).
      exists detail. unfold bind. rewrite Hrun. cbn.
      rewrite append_assoc. split; [reflexivity|].
      split; [apply contains_status | discriminate].
  - intros Hq d m shown Hd Hm Htm Hshown.
    destruct o as [[]| |]; try discriminate Hq;
      unfold_handlers; rewrite Hok; cbn [negb];
      unfold Api.describe_failure, Api.append_detail, try_catch; run;
      rewrite Hd; cbn; rewrite Hm; cbn; rewrite Htm, Hshown; cbn;
      rewrite append_assoc; reflexivity.
  - intros Hq d t p m shown Hd Hnone Ht Hp Hm Htm Hshown.
    destruct (envelope_text_body _ Ht) as (b & Hb & Hbt).
    unfold has_truthy in Hnone.
    destruct (Js.get d "message") as [top|] eqn:Htop; [|destruct d; discriminate].
    assert (Hbody : exists body_text, b = Some (JStr body_text)
                                      /\ body_text = t
                                      /\ String.eqb body_text "" = false).
    { destruct b as [[]|]; cbn in Hbt; try discriminate.
      destruct (String.eqb s0 "") eqn:Hs0; [discriminate|].
      injection Hbt as <-. exists s0. repeat split. exact Hs0. }
    destruct Hbody as (body_text & -> & -> & Htruthy).
    destruct o as [[]| |]; try discriminate Hq;
      unfold_handlers; rewrite Hok; cbn [negb];
      unfold Api.describe_failure, Api.append_detail, Api.message_or_error,
        try_catch; run;
      repeat (progress (rewrite ?Hd, ?Htop, ?Hnone, ?Hb, ?Htruthy, ?Hp,
                          ?Hm, ?Htm, ?Hshown; cbn));
      rewrite append_assoc; reflexivity.
  - intros H429. unfold_handlers. rewrite Hok. cbn [negb].
    destruct (Z.eqb_spec (status r) 429); [contradiction | reflexivity].
Qed.

Lemma failed_response_witness :
  failure offline (Reading UpdateReadingList)
          (reply 403 "Forbidden" "{'message':'Not your list'}") tt
  = Some (Error "Failed to update reading list: 403 Forbidden - Not your list")
  /\ failure offline (Reading GetReadingLists)
             (reply 500 "Internal Server Error"
                    "{'body':'{\'message\':\'Table missing\'}'}") tt
     = Some (Error ("Failed to fetch reading lists: 500 Internal Server Error"
                    ++ " - Table missing"))
  /\ failure offline DeleteBook (reply 404 "Not Found" "") tt
     = Some (Error "Failed to delete book: 404 Not Found").
Proof.
  split; [|split].
  - destruct (@failed_response_raises_status offline unit
                (Reading UpdateReadingList)
                (reply 403 "Forbidden" "{'message':'Not your list'}") tt
                eq_refl) as (_ & Htop & _).
    exact (Htop eq_refl (JObj [("message", JStr "Not your list")])
                (JStr "Not your list") "Not your list"
                eq_refl eq_refl eq_refl eq_refl).
  - destruct (@failed_response_raises_status offline unit
                (Reading GetReadingLists)
                (reply 500 "Internal Server Error"
                       "{'body':'{\'message\':\'Table missing\'}'}") tt
                eq_refl) as (_ & _ & Hnested & _).
    exact (Hnested eq_refl
                   (JObj [("body", JStr (JsonText.q "{'message':'Table missing'}"))])
                   (JsonText.q "{'message':'Table missing'}")
                   (JObj [("message", JStr "Table missing")])
                   (JStr "Table missing") "Table missing"
                   eq_refl eq_refl eq_refl eq_refl eq_refl eq_refl eq_refl).
  - destruct (@failed_response_raises_status offline unit DeleteBook
                (reply 404 "Not Found" "") tt eq_refl) as (Hplain & _).
    destruct Hplain as (detail & Hfail & _ & Hnone); [discriminate|].
    rewrite (Hnone eq_refl) in Hfail. exact Hfail.
Defined.

(** C3 as stated fails for getRecommendations: on a 500 it raises a fixed
    message that carries neither the status nor the message the server
    supplied; and an operation such as getBooks does not quote the
    server's message although the body supplies one. *)
Lemma getRecommendations_failure_omits_status :
  let r := reply 500 "Internal Server Error" "{'message':'model unavailable'}" in
  ok r = false
  /\ failure offline (Reading GetRecommendations) r tt
     = Some (Error "Failed to get recommendations")
  /\ Js.contains (Js.Number_toString (status r))
                 "Failed to get recommendations" = false
  /\ Js.contains "model unavailable" "Failed to get recommendations" = false
  /\ failure offline (Reading GetBooks) r tt
     = Some (Error "Failed to fetch books: 500 Internal Server Error").
Proof. vm_compute. repeat split; reflexivity. Qed.

(** ** The API touches no component state *)

Lemma detached_ret {S A} (a : A) : detached (@ret S A a).
Proof. intros s. split; reflexivity. Qed.

Lemma detached_throw {S A} (e : exn) : detached (@throw S A e).
Proof. intros s. split; reflexivity. Qed.

Lemma detached_emit {S} (ev : event) :
  platform_only [ev] = true -> detached (@emit S ev).
Proof. intros Hev s. split; [reflexivity | exact Hev]. Qed.

Lemma setter_free_app t1 t2 :
  setter_free (t1 ++ t2) = andb (setter_free t1) (setter_free t2).
Proof. apply forallb_app. Qed.

Lemma platform_only_app t1 t2 :
  platform_only (t1 ++ t2) = andb (platform_only t1) (platform_only t2).
Proof. apply forallb_app. Qed.

Lemma platform_only_setter_free t :
  platform_only t = true -> setter_free t = true.
Proof.
  unfold platform_only, setter_free. rewrite !forallb_forall.
  intros H ev Hev. specialize (H ev Hev). destruct ev; congruence.
Qed.

Lemma platform_only_no_notice t message :
  platform_only t = true -> ~ In (EvShowSuccess message) t.
Proof.
  unfold platform_only. rewrite forallb_forall.
  intros H Hin. specialize (H _ Hin). discriminate H.
Qed.

Lemma detached_bind {S A B} (m : M S A) (k : A -> M S B) :
  detached m -> (forall a, detached (k a)) -> detached (bind m k).
Proof.
  intros Hm Hk s. destruct (Hm s) as [Hs Ht].
  unfold bind, final_state, trace in *.
  destruct (m s) as [[s1 t1] [a|e]]; cbn [fst snd] in *; subst s1;
    [|split; [reflexivity | exact Ht]].
  destruct (Hk a s) as [Hs2 Ht2]. unfold final_state, trace in *.
  destruct (k a s) as [[s2 t2] r2]; cbn [fst snd] in *.
  split; [exact Hs2 | rewrite platform_only_app, Ht, Ht2; reflexivity].
Qed.

Lemma detached_try_catch {S A} (m : M S A) (h : exn -> M S A) :
  detached m -> (forall e, detached (h e)) -> detached (try_catch m h).
Proof.
  intros Hm Hh s. destruct (Hm s) as [Hs Ht].
  unfold try_catch, final_state, trace in *.
  destruct (m s) as [[s1 t1] [a|e]]; cbn [fst snd] in *; subst s1;
    [split; [reflexivity | exact Ht]|].
  destruct (Hh e s) as [Hs2 Ht2]. unfold final_state, trace in *.
  destruct (h e s) as [[s2 t2] r2]; cbn [fst snd] in *.
  split; [exact Hs2 | rewrite platform_only_app, Ht, Ht2; reflexivity].
Qed.

Lemma detached_of_option {S A} (e : exn) (o : option A) :
  detached (@of_option S A e o).
Proof. destruct o; intros s; split; reflexivity. Qed.

Lemma detached_of_result {S A} (r : result A) :
  detached (@of_result S A r).
Proof. destruct r; intros s; split; reflexivity. Qed.

Ltac detached :=
  repeat first
    [ apply detached_ret | apply detached_throw
    | apply detached_emit; reflexivity
    | apply detached_of_option | apply detached_of_result
    | apply detached_bind; [|intros]
    | apply detached_try_catch; [|intros]
    | match goal with
      | |- detached (if ?b then _ else _) => destruct b
      | |- detached (match ?x with _ => _ end) => destruct x
      end ].

Lemma updateReadingList_detached {S} E id payload :
  detached (@Api.updateReadingList E S id payload).
Proof.
  unfold Api.updateReadingList, Api.getAuthHeaders, Api.do_fetch,
    Api.updateReadingList_response, Api.describe_failure,
    Api.books_to_bookIds, Api.message_or_error, Api.append_detail,
    Api.response_json, Api.parse, prop, to_string, console_error.
  detached.
Qed.

Lemma getAuthHeaders_run E :
  exists headers, forall S (s : S),
    Api.getAuthHeaders E s = (s, [EvProvider FetchAuthSession], Ok headers).
Proof.
  unfold Api.getAuthHeaders, try_catch. run.
  destruct (fetchAuthSession E) as [token|e]; cbn; eexists; intros; reflexivity.
Qed.

(** [updateReadingList] asks for the session, sends one PUT of the whole
    record, and then only reads the response. *)
Lemma updateReadingList_sends E :
  exists headers, forall S id payload (s : S),
    exists rest,
      trace (Api.updateReadingList E id payload s)
      = EvProvider FetchAuthSession
          :: EvFetch (update_request E headers id payload) :: rest.
Proof.
  destruct (getAuthHeaders_run E) as (headers & Hheaders).
  exists headers. intros S id payload s.
  unfold Api.updateReadingList, Api.do_fetch.
  unfold bind at 1. rewrite Hheaders.
  unfold bind at 1. unfold bind at 1. cbn [emit].
  unfold update_request.
  destruct (of_result (fetch E _) s) as [[s1 t1] [resp|e]] eqn:Hfetch.
  - destruct (Api.updateReadingList_response E resp s1) as [[s2 t2] r2].
    cbn. eexists. reflexivity.
  - cbn. eexists. reflexivity.
Qed.

(** ** Adding a book to a list (C4) *)

Arguments Api.updateReadingList : simpl never.

(** The run of handleSelectList on a list that lacks the book, in terms
    of the run of the update it awaits. *)
Lemma handleSelectList_adds E listId b l st :
  BookDetail.book st = Some b ->
  find (fun l => String.eqb (list_id l) listId) (BookDetail.readingLists st)
  = Some l ->
  Js.includes (bookIds l) (book_id b) = false ->
  BookDetail.handleSelectList E listId st
  = match Api.updateReadingList E listId
            (list_payload (list_name l) (list_description l)
                          (bookIds l ++ [book_id b])%list)
            {| BookDetail.book := BookDetail.book st;
               BookDetail.isModalOpen := BookDetail.isModalOpen st;
               BookDetail.readingLists := BookDetail.readingLists st;
               BookDetail.isAddingToList := true |} with
    | (s2, t2, Ok _) =>
        ({| BookDetail.book := BookDetail.book s2;
            BookDetail.isModalOpen := false;
            BookDetail.readingLists := BookDetail.readingLists s2;
            BookDetail.isAddingToList := false |},
         (EvSet (SetIsAddingToList true) :: t2
          ++ [EvShowSuccess ("Added " ++ Js.quoted (title b) ++ " to "
                             ++ Js.quoted (list_name l) ++ "!");
              EvSet (SetIsModalOpen false);
              EvSet (SetIsAddingToList false)])%list,
         Ok tt)
    | (s2, t2, Throw e) =>
        ({| BookDetail.book := BookDetail.book s2;
            BookDetail.isModalOpen := BookDetail.isModalOpen s2;
            BookDetail.readingLists := BookDetail.readingLists s2;
            BookDetail.isAddingToList := false |},
         (EvSet (SetIsAddingToList true) :: t2
          ++ [EvHandleApiError e; EvSet (SetIsAddingToList false)])%list,
         Ok tt)
    end.
Proof.
  intros Hbook Hfind Hout.
  unfold BookDetail.handleSelectList, read. unfold bind at 1.
  rewrite Hbook, Hfind, Hout.
  unfold try_finally, try_catch, bind, BookDetail.setIsAddingToList,
    BookDetail.setIsModalOpen, showSuccess, handleApiError, set, emit.
  cbn. rewrite ?Hbook.
  destruct (Api.updateReadingList E listId _ _) as [[s2 t2] [v|e]]; cbn.
  - rewrite <- !app_assoc. reflexivity.
  - rewrite <- !app_assoc. reflexivity.
Qed.

(** C4.  When the book shown is already a member of the selected list,
    handleSelectList sends nothing: it raises the notice "Book is already
    in this reading list!" through showSuccess, reports no error, closes
    the modal and leaves every list as it was.  Otherwise the first thing
    it sends is one PUT to /reading-lists/{listId} whose body is the full
    record, field by field: the list's name, its description when it has
    one (an undefined description is not serialised), and the old
    [bookIds] with the book's id appended. *)
Theorem add_to_list_checks_membership :
  forall (E : env) (listId : string) (b : Book) (l : ReadingList)
         (st : BookDetail.state),
    BookDetail.book st = Some b ->
    find (fun l => String.eqb (list_id l) listId) (BookDetail.readingLists st)
    = Some l ->
    (Js.includes (bookIds l) (book_id b) = true ->
     BookDetail.handleSelectList E listId st
     = ({| BookDetail.book := Some b;
           BookDetail.isModalOpen := false;
           BookDetail.readingLists := BookDetail.readingLists st;
           BookDetail.isAddingToList := false |},
        [EvSet (SetIsAddingToList true);
         EvShowSuccess "Book is already in this reading list!";
         EvSet (SetIsModalOpen false);
         EvSet (SetIsAddingToList false)],
        Ok tt)
     /\ forall req,
          ~ In (EvFetch req) (trace (BookDetail.handleSelectList E listId st)))
    /\ (Js.includes (bookIds l) (book_id b) = false ->
        exists headers rest,
          trace (BookDetail.handleSelectList E listId st)
          = EvSet (SetIsAddingToList true)
              :: EvProvider FetchAuthSession
              :: EvFetch
                   {| req_method := PUT;
                      req_url := API_BASE_URL E ++ "/reading-lists/" ++ listId;
                      req_headers := headers;
                      req_body :=
                        Some (JObj
                                (("name", JStr (list_name l))
                                 :: match list_description l with
                                    | Some d => [("description", JStr d)]
                                    | None => []
                                    end
                                 ++ [("bookIds",
                                      JArr (map JStr
                                              (bookIds l ++ [book_id b])))])%list)
                   |}
              :: rest).
Proof.
  intros E listId b l st Hbook Hfind. split.
  - intros Hin.
    assert (Hrun : BookDetail.handleSelectList E listId st
                   = ({| BookDetail.book := Some b;
                         BookDetail.isModalOpen := false;
                         BookDetail.readingLists := BookDetail.readingLists st;
                         BookDetail.isAddingToList := false |},
                      [EvSet (SetIsAddingToList true);
                       EvShowSuccess "Book is already in this reading list!";
                       EvSet (SetIsModalOpen false);
                       EvSet (SetIsAddingToList false)],
                      Ok tt)).
    { unfold BookDetail.handleSelectList, read. unfold bind at 1.
      rewrite Hbook, Hfind, Hin. cbn. rewrite Hbook. reflexivity. }
    split; [exact Hrun|].
    intros req. rewrite Hrun. cbn.
    intros [H|[H|[H|[H|[]]]]]; discriminate H.
  - intros Hout.
    destruct (updateReadingList_sends E) as (headers & Hsends).
    exists headers.
    rewrite (handleSelectList_adds E listId st Hbook Hfind Hout).
    match goal with
    | |- context [Api.updateReadingList E listId ?payload ?s1] =>
        destruct (Hsends BookDetail.state listId payload s1) as (rest & Hrest);
        destruct (Api.updateReadingList E listId payload s1)
          as [[s2 t2] [v|e]]
    end; cbn in Hrest; subst t2; cbn; eexists; reflexivity.
Qed.

Lemma add_to_list_witness :
  let described :=
    {| list_id := "2"; list_name := "Winter";
       list_description := Some "By the fire";
       bookIds := ["b"];
       list_createdAt := "2025-01-01T00:00:00.000Z";
       list_updatedAt := "2025-01-01T00:00:00.000Z" |} in
  let st := {| BookDetail.book := Some (a_book "a" "Dune");
               BookDetail.isModalOpen := true;
               BookDetail.readingLists :=
                 [a_list "1" "Summer" ["a"]; described;
                  a_list "3" "Spring" []];
               BookDetail.isAddingToList := false |} in
  trace (BookDetail.handleSelectList offline "1" st)
  = [EvSet (SetIsAddingToList true);
     EvShowSuccess "Book is already in this reading list!";
     EvSet (SetIsModalOpen false);
     EvSet (SetIsAddingToList false)]
  /\ BookDetail.readingLists
       (final_state (BookDetail.handleSelectList offline "1" st))
     = BookDetail.readingLists st
  /\ (exists headers rest,
        trace (BookDetail.handleSelectList offline "2" st)
        = EvSet (SetIsAddingToList true)
            :: EvProvider FetchAuthSession
            :: EvFetch
                 {| req_method := PUT;
                    req_url := "https://api.example.test/reading-lists/2";
                    req_headers := headers;
                    req_body :=
                      Some (JObj [("name", JStr "Winter");
                                  ("description", JStr "By the fire");
                                  ("bookIds", JArr [JStr "b"; JStr "a"])]) |}
            :: rest)
  /\ (exists headers rest,
        trace (BookDetail.handleSelectList offline "3" st)
        = EvSet (SetIsAddingToList true)
            :: EvProvider FetchAuthSession
            :: EvFetch
                 {| req_method := PUT;
                    req_url := "https://api.example.test/reading-lists/3";
                    req_headers := headers;
                    req_body :=
                      Some (JObj [("name", JStr "Spring");
                                  ("bookIds", JArr [JStr "a"])]) |}
            :: rest).
Proof.
  intros described st.
  destruct (@add_to_list_checks_membership offline "1" (a_book "a" "Dune")
              (a_list "1" "Summer" ["a"]) st eq_refl eq_refl)
    as (Hmember & _).
  destruct (Hmember eq_refl) as (Hrun & _).
  destruct (@add_to_list_checks_membership offline "2" (a_book "a" "Dune")
              described st eq_refl eq_refl)
    as (_ & Hadd).
  destruct (@add_to_list_checks_membership offline "3" (a_book "a" "Dune")
              (a_list "3" "Spring" []) st eq_refl eq_refl)
    as (_ & Hbare).
  rewrite Hrun. split; [reflexivity|]. split; [reflexivity|].
  split; [exact (Hadd eq_refl) | exact (Hbare eq_refl)].
Defined.

(** ** Removing a book from a list (C5, C6) *)

Arguments setter_free : simpl never.
Arguments platform_only : simpl never.

(** The run of handleRemoveBook in terms of the run of the update it
    awaits. *)
Lemma handleRemoveBook_run E bookId l st :
  ReadingListDetail.readingList st = Some l ->
  ReadingListDetail.handleRemoveBook E bookId st
  = let updatedBookIds :=
      filter (fun id => negb (String.eqb id bookId)) (bookIds l) in
    match Api.updateReadingList E (list_id l)
            (list_payload (list_name l) (list_description l) updatedBookIds)
            st with
    | (s2, t2, Ok _) =>
        let kept := filter (fun book => negb (String.eqb (book_id book) bookId))
                           (ReadingListDetail.books st) in
        ({| ReadingListDetail.readingList :=
              Some (ReadingListDetail.with_bookIds l updatedBookIds);
            ReadingListDetail.books := kept;
            ReadingListDetail.isLoading := ReadingListDetail.isLoading s2 |},
         (t2 ++ [EvSet (SetReadingList
                          (Some (ReadingListDetail.with_bookIds
                                   l updatedBookIds)));
                 EvSet (SetBooks kept);
                 EvShowSuccess "Book removed from list!"])%list,
         Ok tt)
    | (s2, t2, Throw e) => (s2, (t2 ++ [EvHandleApiError e])%list, Ok tt)
    end.
Proof.
  intros Hlist.
  unfold ReadingListDetail.handleRemoveBook, read. unfold bind at 1.
  rewrite Hlist.
  unfold try_catch, bind, ReadingListDetail.setReadingList,
    ReadingListDetail.setBooks, showSuccess, handleApiError, set, emit.
  cbn.
  destruct (Api.updateReadingList E (list_id l) _ _) as [[s2 t2] [v|e]]; cbn.
  - rewrite <- ?app_assoc. reflexivity.
  - reflexivity.
Qed.

(** The only cells handleSelectList ever sets are its busy flag and the
    modal flag; it has no setter for the lists or the book. *)
Lemma handleSelectList_setters E listId st c :
  In (EvSet c) (trace (BookDetail.handleSelectList E listId st)) ->
  exists b, c = SetIsAddingToList b \/ c = SetIsModalOpen b.
Proof.
  destruct (BookDetail.book st) as [b|] eqn:Hbook.
  - destruct (find (fun l => String.eqb (list_id l) listId)
                   (BookDetail.readingLists st)) as [l|] eqn:Hfind.
    + destruct (Js.includes (bookIds l) (book_id b)) eqn:Hin.
      * unfold BookDetail.handleSelectList, read. unfold bind at 1.
        rewrite Hbook, Hfind, Hin. cbn.
        intros [H|[H|[H|[H|[]]]]]; try discriminate H;
          injection H as <-; eexists; eauto.
      * rewrite (handleSelectList_adds E listId st Hbook Hfind Hin).
        match goal with
        | |- context [Api.updateReadingList E listId ?payload ?s1] =>
            destruct (updateReadingList_detached E listId payload s1)
              as [_ Hquiet];
            apply platform_only_setter_free in Hquiet;
            unfold trace in *;
            destruct (Api.updateReadingList E listId payload s1)
              as [[s2 t2] [v|e]]
        end; cbn [fst snd] in *;
          (intros [H|H]; [injection H as <-; eexists; eauto|]);
          apply in_app_or in H; destruct H as [H|H];
          try (unfold setter_free in Hquiet;
               rewrite forallb_forall in Hquiet;
               specialize (Hquiet _ H); discriminate Hquiet).
        -- destruct H as [H|[H|[H|[]]]]; try discriminate H;
             injection H as <-; eexists; eauto.
        -- destruct H as [H|[H|[]]]; try discriminate H;
             injection H as <-; eexists; eauto.
    + unfold BookDetail.handleSelectList, read. unfold bind at 1.
      rewrite Hbook, Hfind. cbn.
      intros [H|[H|[H|[]]]]; try discriminate H;
        injection H as <-; eexists; eauto.
  - unfold BookDetail.handleSelectList, read. unfold bind at 1.
    rewrite Hbook. cbn. intros [].
Qed.

(** C5.  Both handlers await updateReadingList before they touch the
    list or the books.  When that call raises [e]: handleRemoveBook ends
    in the very state it started from, having called no state setter, and
    hands [e] to handleApiError; handleSelectList leaves the lists, the
    book and the modal as they were, raises no success notice, and hands
    [e] to handleApiError.  In every run of handleRemoveBook the events of
    the awaited call come first and contain no setter call; and the only
    cells handleSelectList sets in any run are its busy flag
    (isAddingToList, raised before the call) and the modal flag. *)
Theorem failed_update_leaves_state :
  forall (E : env),
    (forall bookId l st e,
        ReadingListDetail.readingList st = Some l ->
        outcome (Api.updateReadingList E (list_id l)
                   (list_payload (list_name l) (list_description l)
                      (filter (fun id => negb (String.eqb id bookId))
                              (bookIds l)))
                   st) = Throw e ->
        final_state (ReadingListDetail.handleRemoveBook E bookId st) = st
        /\ outcome (ReadingListDetail.handleRemoveBook E bookId st) = Ok tt
        /\ In (EvHandleApiError e)
              (trace (ReadingListDetail.handleRemoveBook E bookId st))
        /\ setter_free (trace (ReadingListDetail.handleRemoveBook E bookId st))
           = true)
    /\ (forall listId b l st e,
          BookDetail.book st = Some b ->
          find (fun l => String.eqb (list_id l) listId)
               (BookDetail.readingLists st) = Some l ->
          Js.includes (bookIds l) (book_id b) = false ->
          outcome (Api.updateReadingList E listId
                     (list_payload (list_name l) (list_description l)
                                   (bookIds l ++ [book_id b])%list)
                     (final_state (BookDetail.setIsAddingToList true st)))
          = Throw e ->
          let st' := final_state (BookDetail.handleSelectList E listId st) in
          BookDetail.readingLists st' = BookDetail.readingLists st
          /\ BookDetail.book st' = BookDetail.book st
          /\ BookDetail.isModalOpen st' = BookDetail.isModalOpen st
          /\ In (EvHandleApiError e)
                (trace (BookDetail.handleSelectList E listId st))
          /\ forall message,
               ~ In (EvShowSuccess message)
                    (trace (BookDetail.handleSelectList E listId st)))
    /\ (forall bookId l st,
          ReadingListDetail.readingList st = Some l ->
          exists after,
            trace (ReadingListDetail.handleRemoveBook E bookId st)
            = (trace (Api.updateReadingList E (list_id l)
                        (list_payload (list_name l) (list_description l)
                           (filter (fun id => negb (String.eqb id bookId))
                                   (bookIds l)))
                        st) ++ after)%list
            /\ setter_free
                 (trace (Api.updateReadingList E (list_id l)
                           (list_payload (list_name l) (list_description l)
                              (filter (fun id => negb (String.eqb id bookId))
                                      (bookIds l)))
                           st)) = true)
    /\ (forall listId st c,
          In (EvSet c) (trace (BookDetail.handleSelectList E listId st)) ->
          exists b, c = SetIsAddingToList b \/ c = SetIsModalOpen b).
Proof.
  intros E. split; [|split; [|split]];
    [| | |intros listId st c; apply handleSelectList_setters].
  - intros bookId l st e Hlist Hfail.
    rewrite (handleRemoveBook_run E bookId st Hlist). cbv zeta.
    destruct (updateReadingList_detached E (list_id l)
                (list_payload (list_name l) (list_description l)
                   (filter (fun id => negb (String.eqb id bookId))
                           (bookIds l))) st) as [Hstate Hquiet].
    unfold outcome, final_state, trace in *.
    destruct (Api.updateReadingList E (list_id l) _ st) as [[s2 t2] [v|e']];
      cbn [fst snd] in *; [discriminate Hfail|].
    injection Hfail as ->. subst s2. repeat split.
    + apply in_or_app. right. left. reflexivity.
    + rewrite setter_free_app, (@platform_only_setter_free _ Hquiet).
      reflexivity.
  - intros listId b l st e Hbook Hfind Hout Hfail st'. subst st'.
    rewrite (handleSelectList_adds E listId st Hbook Hfind Hout).
    cbn [BookDetail.setIsAddingToList set final_state fst] in Hfail.
    match type of Hfail with
    | outcome (Api.updateReadingList E listId ?payload ?s1) = _ =>
        destruct (updateReadingList_detached E listId payload s1)
          as [Hstate Hquiet];
        unfold outcome, final_state, trace in *;
        destruct (Api.updateReadingList E listId payload s1)
          as [[s2 t2] [v|e']]
    end; cbn [fst snd] in *; [discriminate Hfail|].
    injection Hfail as ->. subst s2. cbn [BookDetail.readingLists
      BookDetail.book BookDetail.isModalOpen].
    repeat split.
    + right. apply in_or_app. right. left. reflexivity.
    + intros message [H|H]; [discriminate H|].
      apply in_app_or in H. destruct H as [H|[H|[H|[]]]]; try discriminate H.
      exact (@platform_only_no_notice _ _ Hquiet H).
  - intros bookId l st Hlist.
    rewrite (handleRemoveBook_run E bookId st Hlist). cbv zeta.
    destruct (updateReadingList_detached E (list_id l)
                (list_payload (list_name l) (list_description l)
                   (filter (fun id => negb (String.eqb id bookId))
                           (bookIds l))) st) as [_ Hquiet].
    apply platform_only_setter_free in Hquiet.
    unfold trace in *.
    destruct (Api.updateReadingList E (list_id l) _ st) as [[s2 t2] [v|e']];
      cbn [fst snd] in *; eexists; (split; [reflexivity | exact Hquiet]).
Qed.

Lemma failed_update_witness :
  let failing := env_answering
                   (Ok (reply 500 "Internal Server Error" "{'message':'boom'}")) in
  let st := {| ReadingListDetail.readingList :=
                 Some (a_list "7" "Summer" ["a"; "b"]);
               ReadingListDetail.books := [a_book "a" "Dune"; a_book "b" "Emma"];
               ReadingListDetail.isLoading := false |} in
  final_state (ReadingListDetail.handleRemoveBook failing "a" st) = st
  /\ In (EvHandleApiError
           (Error ("Failed to update reading list: 500 Internal Server Error"
                   ++ " - boom")))
        (trace (ReadingListDetail.handleRemoveBook failing "a" st)).
Proof.
  intros failing st.
  destruct (failed_update_leaves_state failing) as (Hremove & _).
  destruct (Hremove "a" (a_list "7" "Summer" ["a"; "b"]) st
              (Error ("Failed to update reading list: 500 Internal Server Error"
                      ++ " - boom"))
              eq_refl eq_refl) as (Hstate & _ & Hreported & _).
  split; [exact Hstate | exact Hreported].
Defined.

Lemma filter_absent (bookId : string) (ids : list string) :
  Js.includes ids bookId = false ->
  filter (fun id => negb (String.eqb id bookId)) ids = ids.
Proof.
  unfold Js.includes. induction ids as [|id ids IH]; cbn; [reflexivity|].
  intros H. apply orb_false_elim in H. destruct H as [Hid Hrest].
  rewrite String.eqb_sym, Hid. cbn. rewrite (IH Hrest). reflexivity.
Qed.

Lemma getBooks_detached {S} E : detached (@Api.getBooks E S).
Proof.
  unfold Api.getBooks, Api.do_fetch, Api.getBooks_response,
    Api.response_json, Api.parse, prop.
  detached.
Qed.

(** loadBooks caches records of members only. *)
Lemma loadBooks_members E books_of ids st :
  ReadingListDetail.books st = [] ->
  Forall (fun book => Js.includes ids (book_id book) = true)
         (ReadingListDetail.books
            (final_state (ReadingListDetail.loadBooks E books_of ids st))).
Proof.
  intros Hempty.
  unfold ReadingListDetail.loadBooks, try_catch, bind,
    ReadingListDetail.setBooks, handleApiError, set, emit.
  destruct (getBooks_detached (S := ReadingListDetail.state) E st)
    as [Hstate _].
  unfold final_state in *.
  destruct (Api.getBooks E st) as [[s1 t1] [allBooks|e]];
    cbn [fst snd] in *; subst s1.
  - cbn. apply Forall_forall. intros book Hin.
    apply filter_In in Hin. apply Hin.
  - cbn. rewrite Hempty. constructor.
Qed.

(** C6.  Removing an id that the list does not hold leaves [bookIds] as
    it was, in sequence and in length, whether or not the update is
    acknowledged.  For a list whose [bookIds] are ['a','b'], removing 'a'
    always sends ['b'] as the new [bookIds]; once the update is
    acknowledged the list's [bookIds] are ['b'], and the books rendered are
    the cached ones other than 'a', which, the cache holding records of
    the list's members, are records of book 'b' only. *)
Theorem remove_book_filters_ids :
  forall (E : env) (bookId : string) (l : ReadingList)
         (st : ReadingListDetail.state),
    ReadingListDetail.readingList st = Some l ->
    (Js.includes (bookIds l) bookId = false ->
     filter (fun id => negb (String.eqb id bookId)) (bookIds l) = bookIds l
     /\ exists l',
          ReadingListDetail.readingList
            (final_state (ReadingListDetail.handleRemoveBook E bookId st))
          = Some l'
          /\ bookIds l' = bookIds l
          /\ List.length (bookIds l') = List.length (bookIds l))
    /\ (bookIds l = ["a"; "b"] ->
        bookId = "a" ->
        (exists headers rest,
            trace (ReadingListDetail.handleRemoveBook E bookId st)
            = EvProvider FetchAuthSession
                :: EvFetch (update_request E headers (list_id l)
                              (list_payload (list_name l) (list_description l)
                                            ["b"]))
                :: rest)
        /\ forall v,
             outcome (Api.updateReadingList E (list_id l)
                        (list_payload (list_name l) (list_description l) ["b"])
                        st) = Ok v ->
             let st' :=
               final_state (ReadingListDetail.handleRemoveBook E bookId st) in
             ReadingListDetail.readingList st'
             = Some (ReadingListDetail.with_bookIds l ["b"])
             /\ ReadingListDetail.books st'
                = filter (fun book => negb (String.eqb (book_id book) "a"))
                         (ReadingListDetail.books st)
             /\ (Forall (fun book => Js.includes (bookIds l) (book_id book) = true)
                        (ReadingListDetail.books st) ->
                 Forall (fun book => book_id book = "b")
                        (ReadingListDetail.books st'))).
Proof.
  intros E bookId l st Hlist. split.
  - intros Habsent. pose proof (filter_absent _ _ Habsent) as Hsame.
    split; [exact Hsame|].
    rewrite (handleRemoveBook_run E bookId st Hlist). cbv zeta.
    rewrite Hsame.
    destruct (updateReadingList_detached E (list_id l)
                (list_payload (list_name l) (list_description l) (bookIds l))
                st) as [Hstate _].
    unfold final_state in *.
    destruct (Api.updateReadingList E (list_id l) _ st) as [[s2 t2] [v|e]];
      cbn [fst snd] in *.
    + eexists. split; [reflexivity|]. split; reflexivity.
    + subst s2. exists l. split; [exact Hlist|]. split; reflexivity.
  - intros Hids ->.
    rewrite (handleRemoveBook_run E "a" st Hlist). cbv zeta.
    rewrite Hids.
    change (filter (fun id => negb (String.eqb id "a")) ["a"; "b"])
      with ["b"].
    split.
    + destruct (updateReadingList_sends E) as (headers & Hsends).
      exists headers.
      destruct (Hsends ReadingListDetail.state (list_id l)
                  (list_payload (list_name l) (list_description l) ["b"]) st)
        as (rest & Hrest).
      unfold trace in *.
      destruct (Api.updateReadingList E (list_id l) _ st) as [[s2 t2] [v|e]];
        cbn [fst snd] in *; subst t2; eexists; reflexivity.
    + intros v Hok. unfold outcome, final_state in *.
      destruct (Api.updateReadingList E (list_id l) _ st) as [[s2 t2] [v'|e]];
        cbn [fst snd] in *; [|discriminate Hok].
      split; [reflexivity|]. split; [reflexivity|].
      cbn [ReadingListDetail.books]. rewrite !Forall_forall.
      intros Hmembers book Hin. apply filter_In in Hin.
      destruct Hin as [Hin Hnot]. specialize (Hmembers book Hin).
      cbn in Hmembers.
      destruct (String.eqb (book_id book) "a"); [discriminate Hnot|].
      cbn in Hmembers. rewrite orb_false_r in Hmembers.
      apply String.eqb_eq in Hmembers. exact Hmembers.
Qed.

Lemma remove_book_witness :
  let acknowledging :=
    env_answering
      (Ok (reply 200 "OK" "{'id':'7','name':'Summer','bookIds':['b']}")) in
  let st := {| ReadingListDetail.readingList :=
                 Some (a_list "7" "Summer" ["a"; "b"]);
               ReadingListDetail.books := [a_book "a" "Dune"; a_book "b" "Emma"];
               ReadingListDetail.isLoading := false |} in
  (ReadingListDetail.readingList
     (final_state (ReadingListDetail.handleRemoveBook acknowledging "a" st))
   = Some (a_list "7" "Summer" ["b"])
   /\ ReadingListDetail.books
        (final_state (ReadingListDetail.handleRemoveBook acknowledging "a" st))
      = [a_book "b" "Emma"])
  /\ exists l',
       ReadingListDetail.readingList
         (final_state (ReadingListDetail.handleRemoveBook acknowledging "z" st))
       = Some l'
       /\ bookIds l' = ["a"; "b"].
Proof.
  intros acknowledging st. split.
  - destruct (@remove_book_filters_ids acknowledging "a"
                (a_list "7" "Summer" ["a"; "b"]) st eq_refl) as (_ & Hab).
    destruct (Hab eq_refl eq_refl) as (_ & Hack).
    destruct (Hack (JObj [("id", JStr "7"); ("name", JStr "Summer");
                          ("bookIds", JArr [JStr "b"])]) eq_refl)
      as (Hlist & Hbooks & _).
    split; [exact Hlist | exact Hbooks].
  - destruct (@remove_book_filters_ids acknowledging "z"
                (a_list "7" "Summer" ["a"; "b"]) st eq_refl) as (Habsent & _).
    destruct (Habsent eq_refl) as (_ & l' & Hl' & Hids & _).
    exists l'. split; [exact Hl' | exact Hids].
Defined.

(** ** A rate-limited recommendation request (C7) *)

(** On a 429 whose body decodes to a value other than [null], the error
    raised carries the body's [error] when that is truthy and printable,
    and the fixed default when it is absent or falsy. *)
Lemma rate_limit_message {S} E r d (s : S) :
  status r = 429%Z ->
  JSON_parse E (text r) = Some d ->
  d <> JNull ->
  (forall supplied shown,
      Js.get d "error" = Ok (Some supplied) ->
      Js.truthy supplied = true ->
      Js.ToString supplied = Some shown ->
      Api.getRecommendations_response E r s = (s, [], Throw (Error shown)))
  /\ (has_truthy d "error" = false ->
      Api.getRecommendations_response E r s
      = (s, [], Throw (Error Api.rate_limit_default))).
Proof.
  intros H429 Hd Hnull.
  assert (Hok : ok r = false) by (unfold ok; rewrite H429; reflexivity).
  unfold Api.getRecommendations_response. rewrite Hok, H429. cbn [negb Z.eqb].
  split.
  - intros supplied shown Hget Htruthy Hshown. run.
    rewrite Hd. cbn. rewrite Hget. cbn. rewrite Htruthy. run.
    rewrite Hshown. reflexivity.
  - unfold has_truthy. intros Hfalsy. run. rewrite Hd. cbn.
    destruct (Js.get d "error") as [[supplied|]|] eqn:Hget; cbn.
    + cbn in Hfalsy. rewrite Hfalsy. reflexivity.
    + reflexivity.
    + destruct d; cbn in Hget; try discriminate Hget. contradiction.
Qed.

(** C7, where the code departs from it: a 429 whose body is not JSON (the
    plain text of a gateway, say) makes [response.json()] throw, and that
    [SyntaxError] is what getRecommendations raises, not an error with the
    default rate-limit message; a body that is the JSON [null] ends in a
    [TypeError] likewise.  getReadingLists, given the same response, falls
    back on its own default message. *)
Lemma rate_limit_body_not_json :
  let r := {| status := 429; statusText := "Too Many Requests";
              text := "Too Many Requests" |} in
  JSON_parse offline (text r) = None
  /\ outcome (Api.getRecommendations_response offline r tt) = Throw SyntaxError
  /\ outcome (Api.getRecommendations_response offline
                {| status := 429; statusText := "Too Many Requests";
                   text := "null" |} tt) = Throw TypeError
  /\ outcome (Api.getReadingLists_response offline r tt)
     = Throw (Error "Failed to fetch reading lists: 429 Too Many Requests").
Proof. vm_compute. repeat split; reflexivity. Qed.

Example rate_limit_supplied :
  outcome (Api.getRecommendations_response offline
             (reply 429 "Too Many Requests" "{'error':'Daily quota used up'}")
             tt)
  = Throw (Error "Daily quota used up")
  /\ outcome (Api.getRecommendations_response offline
                (reply 429 "Too Many Requests" "{'message':'Too Many Requests'}")
                tt)
     = Throw (Error Api.rate_limit_default).
Proof. vm_compute. split; reflexivity. Qed.

(** ** Mock data and live calls (C8) *)

(** C8, as amended.  getBook makes no HTTP call: after a timer of 300 ms
    it resolves with the first mock book whose id matches, or with [null]
    when none matches.  The catalog listing is live: getBooks sends one GET
    to {base}/books and, on a 2xx response that decodes to an array,
    returns the server's array. *)
Theorem getBook_serves_mock_data :
  forall (E : env) (S : Type) (id : string) (s : S),
    Api.getBook E id s
    = (s, [EvTimeout 300],
       Ok (find (fun b => String.eqb (book_id b) id) (mockBooks E)))
    /\ (forall b,
          outcome (Api.getBook E id s) = Ok (Some b) ->
          In b (mockBooks E) /\ book_id b = id)
    /\ (outcome (Api.getBook E id s) = Ok None ->
        forall b, In b (mockBooks E) -> book_id b <> id)
    /\ (forall req, ~ In (EvFetch req) (trace (Api.getBook E id s)))
    /\ trace (Api.getBooks E s)
       = [EvFetch {| req_method := GET;
                     req_url := API_BASE_URL E ++ "/books";
                     req_headers := [];
                     req_body := None |}]
    /\ (forall r items,
          fetch E {| req_method := GET;
                     req_url := API_BASE_URL E ++ "/books";
                     req_headers := [];
                     req_body := None |} = Ok r ->
          ok r = true ->
          JSON_parse E (text r) = Some (JArr items) ->
          outcome (Api.getBooks E s) = Ok (JArr items)).
Proof.
  intros E S id s.
  assert (Hrun : Api.getBook E id s
                 = (s, [EvTimeout 300],
                    Ok (find (fun b => String.eqb (book_id b) id)
                             (mockBooks E)))) by reflexivity.
  split; [exact Hrun|]. rewrite Hrun. unfold outcome, trace. cbn [fst snd].
  split; [|split; [|split; [|split]]].
  - intros b Hb. injection Hb as Hb. apply find_some in Hb.
    destruct Hb as [Hin Hid]. apply String.eqb_eq in Hid. split; assumption.
  - intros Hnone b Hin Hid. injection Hnone as Hnone.
    pose proof (find_none _ _ Hnone b Hin) as Hne. cbn in Hne.
    rewrite Hid, String.eqb_refl in Hne. discriminate Hne.
  - intros req [H|[]]. discriminate H.
  - unfold Api.getBooks, Api.do_fetch, bind, emit. cbn.
    destruct (fetch E _) as [r|e]; cbn; [|reflexivity].
    assert (Hquiet : forall s' : S,
               snd (fst (Api.getBooks_response E r s')) = []).
    { intros s'. unfold Api.getBooks_response. run.
      repeat (match goal with
              | |- context [match ?x with _ => _ end] =>
                  lazymatch x with
                  | context [match _ with _ => _ end] => fail
                  | _ => destruct x eqn:?
                  end
              end; cbn); reflexivity. }
    specialize (Hquiet s).
    destruct (Api.getBooks_response E r s) as [[s2 t2] r2]. cbn in *.
    subst t2. reflexivity.
  - intros r items Hfetch Hok Hitems.
    unfold Api.getBooks, Api.do_fetch, Api.getBooks_response. run.
    rewrite Hfetch. cbn. rewrite Hok. cbn. rewrite Hitems. reflexivity.
Qed.

(** C8 as stated fails for the catalog listing: getBooks sends a request
    and returns what the server answers, whatever the mock table holds. *)
Lemma getBooks_goes_to_the_network :
  let E := {| API_BASE_URL := "https://api.example.test";
              JSON_parse := JsonText.parse;
              fetch := fun _ => Ok (reply 200 "OK" "[]");
              fetchAuthSession := Throw (Error "No current user");
              mockBooks := [a_book "a" "Dune"] |} in
  Api.getBooks E tt
  = (tt,
     [EvFetch {| req_method := GET;
                 req_url := "https://api.example.test/books";
                 req_headers := [];
                 req_body := None |}],
     Ok (JArr []))
  /\ Api.getBook E "a" tt = (tt, [EvTimeout 300], Ok (Some (a_book "a" "Dune")))
  /\ outcome (Api.getBooks offline tt) = Throw TypeError.
Proof. vm_compute. repeat split; reflexivity. Qed.

(** ** The loading flag of the auth provider (C9) *)

Ltac auth_run :=
  unfold brackets_loading, AuthContext.login, AuthContext.logout,
    AuthContext.signup, AuthContext.confirmSignup, AuthContext.await,
    AuthContext.setIsLoading, AuthContext.setUser, try_finally, try_catch,
    console_error, bind, set, emit, of_result, ret, throw,
    final_state, trace, outcome.

(** C9.  Each of login, logout, signup and confirmSignup sets the loading
    flag as the first thing it does and clears it as the last, on every
    path, so the flag is down when the operation has completed; and an
    error of the provider (from signIn, getCurrentUser,
    fetchUserAttributes, signOut, signUp or confirmSignUp) is the error
    the operation raises, after it was logged. *)
Theorem auth_operations_clear_loading :
  forall (P : AuthContext.provider) (st : AuthContext.state),
    (forall email password,
        brackets_loading (AuthContext.login P email password st)
        /\ (forall e,
              AuthContext.signIn P email password = Throw e
              \/ (AuthContext.signIn P email password = Ok true
                  /\ AuthContext.getCurrentUser P = Throw e)
              \/ (AuthContext.signIn P email password = Ok true
                  /\ (exists u, AuthContext.getCurrentUser P = Ok u)
                  /\ AuthContext.fetchUserAttributes P = Throw e) ->
              outcome (AuthContext.login P email password st) = Throw e
              /\ In (EvConsoleError "Login error:")
                    (trace (AuthContext.login P email password st))))
    /\ (brackets_loading (AuthContext.logout P st)
        /\ (forall e,
              AuthContext.signOut P = Throw e ->
              outcome (AuthContext.logout P st) = Throw e
              /\ In (EvConsoleError "Logout error:")
                    (trace (AuthContext.logout P st))))
    /\ (forall email password name,
          brackets_loading (AuthContext.signup P email password name st)
          /\ (forall e,
                AuthContext.signUp P email password email name = Throw e ->
                outcome (AuthContext.signup P email password name st) = Throw e
                /\ In (EvConsoleError "Signup error:")
                      (trace (AuthContext.signup P email password name st))))
    /\ (forall email code,
          brackets_loading (AuthContext.confirmSignup P email code st)
          /\ (forall e,
                AuthContext.confirmSignUp P email code = Throw e ->
                outcome (AuthContext.confirmSignup P email code st) = Throw e
                /\ In (EvConsoleError "Confirm signup error:")
                      (trace (AuthContext.confirmSignup P email code st)))).
Proof.
  intros P st. split; [|split; [|split]].
  - intros email password. auth_run. cbn.
    destruct (AuthContext.signIn P email password) as [[|]|e0]; cbn.
    + destruct (AuthContext.getCurrentUser P) as [u|e1]; cbn.
      * destruct (AuthContext.fetchUserAttributes P) as [a|e2]; cbn.
        -- split; [repeat split|].
           intros e [H|[[_ H]|[_ [_ H]]]]; discriminate H.
        -- split; [repeat split|].
           intros e [H|[[_ H]|[_ [_ H]]]]; try discriminate H.
           injection H as ->. split; [reflexivity|]. cbn. tauto.
      * split; [repeat split|].
        intros e [H|[[_ H]|[_ [[u Hu] _]]]]; try discriminate.
        injection H as ->. split; [reflexivity|]. cbn. tauto.
    + split; [repeat split|].
      intros e [H|[[H _]|[H _]]]; discriminate H.
    + split; [repeat split|].
      intros e [H|[[H _]|[H _]]]; try discriminate H.
      injection H as ->. split; [reflexivity|]. cbn. tauto.
  - auth_run. cbn.
    destruct (AuthContext.signOut P) as [[]|e0]; cbn.
    + split; [repeat split|]. intros e H. discriminate H.
    + split; [repeat split|]. intros e H. injection H as ->.
      split; [reflexivity|]. cbn. tauto.
  - intros email password name. auth_run. cbn.
    destruct (AuthContext.signUp P email password email name) as [[]|e0]; cbn.
    + split; [repeat split|]. intros e H. discriminate H.
    + split; [repeat split|]. intros e H. injection H as ->.
      split; [reflexivity|]. cbn. tauto.
  - intros email code. auth_run. cbn.
    destruct (AuthContext.confirmSignUp P email code) as [[]|e0]; cbn.
    + split; [repeat split|]. intros e H. discriminate H.
    + split; [repeat split|]. intros e H. injection H as ->.
      split; [reflexivity|]. cbn. tauto.
Qed.

Lemma auth_operations_witness :
  let P := {| AuthContext.signIn :=
                fun _ _ => Throw (Error "Incorrect username or password.");
              AuthContext.signOut := Ok tt;
              AuthContext.signUp := fun _ _ _ _ => Ok tt;
              AuthContext.confirmSignUp := fun _ _ => Ok tt;
              AuthContext.getCurrentUser := Throw (Error "No current user");
              AuthContext.fetchUserAttributes := Throw (Error "No current user");
              AuthContext.now := "2025-01-01T00:00:00.000Z" |} in
  let st := {| AuthContext.user := None; AuthContext.isLoading := false |} in
  outcome (AuthContext.login P "reader@example.test" "secret" st)
  = Throw (Error "Incorrect username or password.")
  /\ AuthContext.isLoading
       (final_state (AuthContext.login P "reader@example.test" "secret" st))
     = false
  /\ trace (AuthContext.login P "reader@example.test" "secret" st)
     = [EvSet (SetIsLoading true);
        EvProvider (SignIn "reader@example.test" "secret");
        EvConsoleError "Login error:";
        EvSet (SetIsLoading false)].
Proof.
  intros P st.
  destruct (auth_operations_clear_loading P st) as (Hlogin & _).
  destruct (Hlogin "reader@example.test" "secret")
    as ((_ & _ & Hdown) & Hthrows).
  destruct (Hthrows (Error "Incorrect username or password.")
                    (or_introl eq_refl)) as (Hout & _).
  split; [exact Hout|]. split; [exact Hdown | reflexivity].
Defined.

(** ** Responses of an unexpected shape (C10) *)

Lemma no_recommendations v :
  holds_recommendations v = false ->
  forall found, Js.get v "recommendations" = Ok found ->
                Api.truthy_array found = None.
Proof.
  unfold holds_recommendations. intros H found Hfound. rewrite Hfound in H.
  destruct found as [[]|]; cbn; rewrite ?andb_false_r;
    try reflexivity; discriminate H.
Qed.

(** C10, as amended.  Take a 2xx response whose decoded JSON [d] is not
    [null] and not an array.  When [d] is no envelope, getBooks and
    getReviews return the empty array, getReadingLists raises "Unexpected
    API response format", and so does getRecommendations unless [d] holds
    an array [recommendations].  When [d] is an envelope whose body parses
    to a value [p] that is not an array, getBooks and getReviews again
    return the empty array, getReadingLists raises "API response body is
    not an array", and getRecommendations raises "Unexpected API response
    format" provided [p] is not [null] and neither [p] nor [d] holds an
    array [recommendations]. *)
Theorem unexpected_shape_is_absorbed_by_reads :
  forall (E : env) (S : Type) (r : response) (d : json) (s : S),
    ok r = true ->
    JSON_parse E (text r) = Some d ->
    d <> JNull ->
    Js.isArray d = false ->
    (envelope_text d = None ->
     Api.getBooks_response E r s = (s, [], Ok (JArr []))
     /\ Api.getReviews_response E r s = (s, [], Ok (JArr []))
     /\ Api.getReadingLists_response E r s
        = (s, [], Throw (Error "Unexpected API response format"))
     /\ (holds_recommendations d = false ->
         Api.getRecommendations_response E r s
         = (s, [], Throw (Error "Unexpected API response format"))))
    /\ (forall t p,
          envelope_text d = Some t ->
          JSON_parse E t = Some p ->
          Js.isArray p = false ->
          Api.getBooks_response E r s = (s, [], Ok (JArr []))
          /\ Api.getReviews_response E r s = (s, [], Ok (JArr []))
          /\ Api.getReadingLists_response E r s
             = (s, [], Throw (Error "API response body is not an array"))
          /\ (p <> JNull ->
              holds_recommendations p = false ->
              holds_recommendations d = false ->
              Api.getRecommendations_response E r s
              = (s, [], Throw (Error "Unexpected API response format")))).
Proof.
  intros E S r d s Hok Hd Hnull Harr.
  assert (Hget : forall k, exists v, Js.get d k = Ok v).
  { intros k. destruct d; cbn; try (eexists; reflexivity). contradiction. }
  destruct (Hget "body") as (b & Hb).
  destruct (Hget "recommendations") as (recs & Hrecs).
  unfold Api.getBooks_response, Api.getReviews_response,
    Api.getReadingLists_response, Api.getRecommendations_response.
  rewrite Hok. cbn [negb]. split.
  - unfold envelope_text. rewrite Hb. intros Hplain.
    run. rewrite Hd. cbn. rewrite Hb. cbn. rewrite Hplain, Harr. cbn.
    repeat split.
    intros Hnone. rewrite Hrecs. cbn.
    rewrite (no_recommendations d Hnone Hrecs). reflexivity.
  - intros t p. unfold envelope_text. rewrite Hb. intros Ht Hp Hparr.
    run. rewrite Hd. cbn. rewrite Hb. cbn. rewrite Ht, Hp. cbn.
    rewrite Hparr, Harr. cbn. repeat split.
    intros Hpnull Hpnone Hdnone.
    assert (Hpget : exists v, Js.get p "recommendations" = Ok v).
    { destruct p; cbn; try (eexists; reflexivity). contradiction. }
    destruct Hpget as (precs & Hprecs). rewrite Hprecs. cbn.
    rewrite (no_recommendations p Hpnone Hprecs). cbn.
    rewrite Hrecs. cbn. rewrite (no_recommendations d Hdnone Hrecs).
    reflexivity.
Qed.

Lemma unexpected_shape_witness :
  let r := reply 200 "OK" "{'items':[]}" in
  Api.getBooks_response offline r tt = (tt, [], Ok (JArr []))
  /\ Api.getReadingLists_response offline r tt
     = (tt, [], Throw (Error "Unexpected API response format"))
  /\ Api.getRecommendations_response offline r tt
     = (tt, [], Throw (Error "Unexpected API response format")).
Proof.
  intros r.
  destruct (@unexpected_shape_is_absorbed_by_reads offline unit r
              (JObj [("items", JArr [])]) tt eq_refl eq_refl
              ltac:(discriminate) eq_refl) as (Hdirect & _).
  destruct (Hdirect eq_refl) as (Hbooks & _ & Hlists & Hrecs).
  split; [exact Hbooks|]. split; [exact Hlists | exact (Hrecs eq_refl)].
Defined.

(** C10 as stated fails on the side of the raising endpoints: for an
    envelope whose body is not an array getReadingLists raises "API
    response body is not an array", a message of its own, where getBooks
    returns the empty array; and getRecommendations returns the array
    held in [recommendations] of an object that is neither an array nor
    an envelope. *)
Lemma unexpected_shape_messages_differ :
  let r := reply 200 "OK" "{'body':'{\'count\':0}'}" in
  ok r = true
  /\ JSON_parse offline (text r)
     = Some (JObj [("body", JStr (JsonText.q "{'count':0}"))])
  /\ JSON_parse offline (JsonText.q "{'count':0}")
     = Some (JObj [("count", JNum 0)])
  /\ outcome (Api.getBooks_response offline r tt) = Ok (JArr [])
  /\ outcome (Api.getReviews_response offline r tt) = Ok (JArr [])
  /\ outcome (Api.getReadingLists_response offline r tt)
     = Throw (Error "API response body is not an array")
  /\ outcome (Api.getRecommendations_response offline
                (reply 200 "OK" "{'recommendations':['Dune']}") tt)
     = Ok (JArr [JStr "Dune"]).
Proof. vm_compute. repeat split; reflexivity. Qed.

(** Outside the amended statement: a 2xx body that is the JSON [null], or
    an envelope whose body is not JSON, makes the two read endpoints
    raise as well. *)
Example reads_raise_on_null_and_on_malformed_body :
  outcome (Api.getBooks_response offline (reply 200 "OK" "null") tt)
  = Throw TypeError
  /\ outcome (Api.getReviews_response offline
                (reply 200 "OK" "{'body':'<html>'}") tt)
     = Throw SyntaxError.
Proof. vm_compute. split; reflexivity. Qed.

(* ================================================================== *)
(** * Further properties of the API layer *)

(** ** One request per call *)

Arguments console_only : simpl never.

Lemma console_only_app t1 t2 :
  console_only (t1 ++ t2) = andb (console_only t1) (console_only t2).
Proof. apply forallb_app. Qed.

Lemma quiet_ret {S A} (a : A) : confined console_only (@ret S A a).
Proof. intros s. split; reflexivity. Qed.

Lemma quiet_throw {S A} (e : exn) : confined console_only (@throw S A e).
Proof. intros s. split; reflexivity. Qed.

Lemma quiet_console {S} label : confined console_only (@console_error S label).
Proof. intros s. split; reflexivity. Qed.

Lemma quiet_of_option {S A} (e : exn) (o : option A) :
  confined console_only (@of_option S A e o).
Proof. destruct o; intros s; split; reflexivity. Qed.

Lemma quiet_of_result {S A} (r : result A) :
  confined console_only (@of_result S A r).
Proof. destruct r; intros s; split; reflexivity. Qed.

Lemma quiet_bind {S A B} (m : M S A) (k : A -> M S B) :
  confined console_only m -> (forall a, confined console_only (k a)) ->
  confined console_only (bind m k).
Proof.
  intros Hm Hk s. destruct (Hm s) as [Hs Ht].
  unfold bind, final_state, trace in *.
  destruct (m s) as [[s1 t1] [a|e]]; cbn [fst snd] in *; subst s1;
    [|split; [reflexivity | exact Ht]].
  destruct (Hk a s) as [Hs2 Ht2]. unfold final_state, trace in *.
  destruct (k a s) as [[s2 t2] r2]; cbn [fst snd] in *.
  split; [exact Hs2 | rewrite console_only_app, Ht, Ht2; reflexivity].
Qed.

Lemma quiet_try_catch {S A} (m : M S A) (h : exn -> M S A) :
  confined console_only m -> (forall e, confined console_only (h e)) ->
  confined console_only (try_catch m h).
Proof.
  intros Hm Hh s. destruct (Hm s) as [Hs Ht].
  unfold try_catch, final_state, trace in *.
  destruct (m s) as [[s1 t1] [a|e]]; cbn [fst snd] in *; subst s1;
    [split; [reflexivity | exact Ht]|].
  destruct (Hh e s) as [Hs2 Ht2]. unfold final_state, trace in *.
  destruct (h e s) as [[s2 t2] r2]; cbn [fst snd] in *.
  split; [exact Hs2 | rewrite console_only_app, Ht, Ht2; reflexivity].
Qed.

Ltac quiet :=
  repeat first
    [ apply quiet_ret | apply quiet_throw | apply quiet_console
    | apply quiet_of_option | apply quiet_of_result
    | apply quiet_bind; [|intros]
    | apply quiet_try_catch; [|intros]
    | match goal with
      | |- confined _ (if ?b then _ else _) => destruct b
      | |- confined _ (match ?x with _ => _ end) => destruct x
      end ].

(** Reading a response sends nothing and sets nothing: at most it writes
    to the console. *)
Lemma response_handlers_quiet {S} E r :
  (forall e, confined console_only (@handle S E e r))
  /\ confined console_only (@Api.deleteBook_response S r)
  /\ confined console_only (@Api.deleteReadingList_response S r).
Proof.
  split; [intros e; destruct e|split];
    unfold handle, Api.getBooks_response, Api.getReviews_response,
      Api.getReadingLists_response, Api.getRecommendations_response,
      Api.createReadingList_response, Api.updateReadingList_response,
      Api.createBook_response, Api.updateBook_response,
      Api.createReview_response, Api.unwrap_response,
      Api.deleteBook_response, Api.deleteReadingList_response,
      Api.describe_failure, Api.books_to_bookIds, Api.message_or_error,
      Api.append_detail, Api.response_json, Api.parse, prop, to_string,
      throw_new_Error;
    quiet.
Qed.

Lemma getAuthHeaders_headers {S} E (s : S) :
  Api.getAuthHeaders E s
  = (s, [EvProvider FetchAuthSession], Ok (headers_for (fetchAuthSession E))).
Proof.
  unfold Api.getAuthHeaders, try_catch, headers_for. run.
  destruct (fetchAuthSession E) as [[token|]|e]; reflexivity.
Qed.

(** A function that awaits the auth headers, then one [fetch], then
    reads the response. *)
Lemma authenticated_run {S A} E (req_of : list (string * string) -> request)
    (k : response -> M S A) (s : S) :
  bind (Api.getAuthHeaders E)
       (fun headers => bind (Api.do_fetch E (req_of headers)) k) s
  = match fetch E (req_of (headers_for (fetchAuthSession E))) with
    | Ok r =>
        (final_state (k r s),
         EvProvider FetchAuthSession
           :: EvFetch (req_of (headers_for (fetchAuthSession E)))
           :: trace (k r s),
         outcome (k r s))
    | Throw e =>
        (s, [EvProvider FetchAuthSession;
             EvFetch (req_of (headers_for (fetchAuthSession E)))],
         Throw e)
    end.
Proof.
  unfold bind at 1. rewrite getAuthHeaders_headers.
  unfold Api.do_fetch, bind, emit, of_result, ret, throw,
    final_state, trace, outcome.
  destruct (fetch E _) as [r|e]; [|reflexivity].
  destruct (k r s) as [[s2 t2] r2]. reflexivity.
Qed.

Lemma public_run {S A} E (req : request) (k : response -> M S A) (s : S) :
  bind (Api.do_fetch E req) k s
  = match fetch E req with
    | Ok r => (final_state (k r s), EvFetch req :: trace (k r s),
               outcome (k r s))
    | Throw e => (s, [EvFetch req], Throw e)
    end.
Proof.
  unfold Api.do_fetch, bind, emit, of_result, ret, throw,
    final_state, trace, outcome.
  destruct (fetch E req) as [r|e]; [|reflexivity].
  destruct (k r s) as [[s2 t2] r2]. reflexivity.
Qed.

(** Every call that has a route awaits the session first when the route
    is authenticated, then sends exactly one request: the route's method,
    the base URL followed by the route's path, the body, and as headers
    those of [getAuthHeaders] (none at all on the two public reads).  What
    follows the request is at most console output, so nothing is sent
    twice; the caller's state is not touched; and when [fetch] rejects,
    the call rejects with the same error and does nothing more. *)
Theorem call_sends_one_request :
  forall (E : env) (S : Type) (c : api_call) (rt : route) (s : S),
    route_of c = Some rt ->
    let headers :=
      if route_auth rt then headers_for (fetchAuthSession E) else [] in
    let session :=
      if route_auth rt then [EvProvider FetchAuthSession] else [] in
    exists rest,
      trace (perform E c s)
      = (session ++ EvFetch (request_of E rt headers) :: rest)%list
      /\ console_only rest = true
      /\ final_state (perform E c s) = s
      /\ (forall e,
            fetch E (request_of E rt headers) = Throw e ->
            rest = [] /\ outcome (perform E c s) = Throw e).
Proof.
  intros E S c rt s Hroute headers session. subst headers session.
  assert (Hquiet : forall r,
             (forall e, confined console_only (@handle S E e r))
             /\ confined console_only (@Api.deleteBook_response S r)
             /\ confined console_only (@Api.deleteReadingList_response S r))
    by (intros r; apply response_handlers_quiet).
  destruct c as [| id | book | id book | [[|a id]|] | query | | list
                 | id list | id | bookId | bookId review];
    cbn in Hroute; try discriminate Hroute;
    injection Hroute as <-; cbn [route_auth app];
    unfold perform, settled, request_of;
    cbn [route_method route_path route_body];
    unfold Api.getBooks, Api.createBook, Api.updateBook, Api.deleteBook,
      Api.getRecommendations, Api.getReadingLists, Api.createReadingList,
      Api.updateReadingList, Api.deleteReadingList, Api.getReviews,
      Api.createReview;
    first [rewrite authenticated_run | rewrite public_run];
    (destruct (fetch E _) as [r|e0] eqn:Hfetch;
     [ | exists []; cbn; repeat split; intros; congruence ]).
  all: destruct (Hquiet r) as (Hh & Hdb & Hdl).
  all: match goal with
       | |- context [trace (?k ?s0)] =>
           assert (Hk : confined console_only k)
             by first [ exact (Hh GetBooks) | exact (Hh GetReviews)
                      | exact (Hh GetReadingLists)
                      | exact (Hh GetRecommendations)
                      | exact (Hh CreateReadingList)
                      | exact (Hh UpdateReadingList)
                      | exact (Hh CreateBook) | exact (Hh UpdateBook)
                      | exact (Hh CreateReview) | exact Hdb | exact Hdl ];
           destruct (Hk s0) as [Hs Ht];
           exists (trace (k s0))
       end.
  all: cbn [final_state trace outcome fst snd].
  all: repeat split; try assumption; intros; congruence.
Qed.

Lemma call_sends_one_request_witness :
  exists rest,
    trace (perform offline (CallDeleteReadingList "7") tt)
    = EvProvider FetchAuthSession
        :: EvFetch {| req_method := DELETE;
                      req_url := "https://api.example.test/reading-lists/7";
                      req_headers := [("Content-Type", "application/json")];
                      req_body := None |}
        :: rest
    /\ rest = []
    /\ outcome (perform offline (CallDeleteReadingList "7") tt)
       = Throw TypeError.
Proof.
  destruct (@call_sends_one_request offline unit (CallDeleteReadingList "7")
              {| route_method := DELETE; route_path := "/reading-lists/7";
                 route_auth := true; route_body := None |} tt eq_refl)
    as (rest & Htrace & _ & _ & Hfail).
  destruct (Hfail TypeError eq_refl) as (Hrest & Hout).
  exists rest. split; [exact Htrace|]. split; [exact Hrest | exact Hout].
Defined.

(** getBook, and deleteBook called without an id or with the empty id,
    reach neither the network nor the identity provider; deleteBook then
    rejects with "Book ID is required for deletion", and getBook
    resolves. *)
Theorem call_without_route_sends_nothing :
  forall (E : env) (S : Type) (c : api_call) (s : S),
    route_of c = None ->
    (forall ev, In ev (trace (perform E c s)) -> ev = EvTimeout 300)
    /\ final_state (perform E c s) = s
    /\ (forall id, c = CallDeleteBook id ->
          perform E c s
          = (s, [], Throw (Error "Book ID is required for deletion")))
    /\ (forall id, c = CallGetBook id -> outcome (perform E c s) = Ok tt).
Proof.
  intros E S c s Hroute.
  destruct c as [| id | book | id book | [[|a id]|] | query | | list
                 | id list | id | bookId | bookId review];
    cbn in Hroute; try discriminate Hroute; cbn;
    (split; [intros ev Hin; cbn in Hin; intuition congruence|]);
    (split; [reflexivity|]);
    split; intros id' Hc; try discriminate Hc; reflexivity.
Qed.

Lemma call_without_route_witness :
  perform offline (CallDeleteBook (Some "")) tt
  = (tt, [], Throw (Error "Book ID is required for deletion"))
  /\ perform offline (CallDeleteBook None) tt
     = (tt, [], Throw (Error "Book ID is required for deletion")).
Proof.
  split.
  - destruct (@call_without_route_sends_nothing offline unit
                (CallDeleteBook (Some "")) tt eq_refl) as (_ & _ & Hd & _).
    exact (Hd (Some "") eq_refl).
  - destruct (@call_without_route_sends_nothing offline unit
                (CallDeleteBook None) tt eq_refl) as (_ & _ & Hd & _).
    exact (Hd None eq_refl).
Defined.

(** ** What the list endpoints resolve with *)

Lemma truthy_array_is_array found a :
  Api.truthy_array found = Some a -> Js.isArray a = true.
Proof.
  unfold Api.truthy_array. destruct found as [v|]; [|discriminate].
  destruct (Js.truthy v && Js.isArray v) eqn:H; [|discriminate].
  intros Ha. injection Ha as <-. apply andb_true_iff in H. apply H.
Qed.

(** Whenever getBooks, getReviews, getReadingLists or getRecommendations
    resolves, whatever the response was, the value is an array. *)
Theorem listing_resolves_with_array :
  forall (E : env) (S : Type) (e : endpoint) (r : response) (s : S) (v : json),
    is_listing e = true ->
    outcome (handle E e r s) = Ok v ->
    Js.isArray v = true.
Proof.
  intros E S e r s v Hlisting.
  destruct e; try discriminate Hlisting;
    unfold handle, Api.getBooks_response, Api.getReviews_response,
      Api.getReadingLists_response, Api.getRecommendations_response,
      Api.describe_failure, try_catch, outcome;
    run;
    repeat (match goal with
            | |- context [match ?x with _ => _ end] =>
                lazymatch x with
                | context [match _ with _ => _ end] => fail
                | _ => destruct x eqn:?
                end
            end; cbn);
    intros Hv; try discriminate Hv; injection Hv as <-;
    first [ assumption | reflexivity
          | eapply truthy_array_is_array; eassumption ].
Qed.

Lemma listing_resolves_with_array_witness :
  outcome (handle offline GetRecommendations
                  (reply 200 "OK" "{'recommendations':['Dune'],'model':'x'}") tt)
  = Ok (JArr [JStr "Dune"])
  /\ Js.isArray (JArr [JStr "Dune"]) = true.
Proof.
  split; [reflexivity|].
  exact (@listing_resolves_with_array offline unit GetRecommendations
           (reply 200 "OK" "{'recommendations':['Dune'],'model':'x'}") tt
           (JArr [JStr "Dune"]) eq_refl eq_refl).
Defined.

(** ** The repair of a reading-list record *)

Lemma lookup_assign_other k k' v fields :
  String.eqb k k' = false ->
  Js.lookup k (Js.assign k' v fields) = Js.lookup k fields.
Proof.
  intros Hne. induction fields as [|[k0 v0] rest IH]; cbn.
  - rewrite Hne. reflexivity.
  - destruct (String.eqb k' k0) eqn:Hk0; cbn.
    + apply String.eqb_eq in Hk0. subst k0. rewrite Hne. reflexivity.
    + rewrite IH. reflexivity.
Qed.

(** The books-to-bookIds block changes no field other than [books] and
    [bookIds], leaves a record with a truthy [bookIds] exactly as it is,
    and repairs once and for all: applied to its own result it changes
    nothing. *)
Theorem repair_keeps_other_fields :
  forall (S : Type) (x : json) (s : S) (v : json),
    outcome (Api.books_to_bookIds x s) = Ok v ->
    (forall k, k <> "books" -> k <> "bookIds" -> Js.get v k = Js.get x k)
    /\ (has_truthy x "bookIds" = true -> v = x)
    /\ Api.books_to_bookIds v s = (s, [], Ok v).
Proof.
  intros S x s v Hv.
  destruct x as [| b | n | str | items | fields];
    try (cbn in Hv; first [discriminate Hv | injection Hv as <-];
         repeat split; reflexivity).
  rewrite books_to_bookIds_run in Hv. cbn in Hv. injection Hv as <-.
  destruct (Js.lookup "books" fields) as [b|] eqn:Hb; cbn [Js.truthy_opt andb].
  - destruct (Js.truthy b) eqn:Htb; cbn [andb].
    + destruct (Js.truthy_opt (Js.lookup "bookIds" fields)) eqn:Hids;
        cbn [negb].
      * split; [reflexivity|]. split; [reflexivity|].
        rewrite books_to_bookIds_run, Hb, Hids. cbn. rewrite Htb. reflexivity.
      * split; [|split].
        -- intros k Hk1 Hk2. cbn.
           rewrite lookup_delete_other
             by (apply String.eqb_neq; congruence).
           rewrite lookup_assign_other
             by (apply String.eqb_neq; exact Hk2).
           reflexivity.
        -- unfold has_truthy. cbn. rewrite Hids. discriminate.
        -- rewrite books_to_bookIds_run.
           destruct (renamed_has_bookIds fields b) as [Hnew Hgone].
           cbn in Hnew, Hgone. injection Hnew as Hnew.
           injection Hgone as Hgone. cbn [Api.rename_books].
           rewrite Hgone. reflexivity.
    + split; [reflexivity|]. split; [reflexivity|].
      rewrite books_to_bookIds_run, Hb. cbn. rewrite Htb. reflexivity.
  - split; [reflexivity|]. split; [reflexivity|].
    rewrite books_to_bookIds_run, Hb. reflexivity.
Qed.

Lemma repair_keeps_other_fields_witness :
  let x := JObj [("id", JStr "7"); ("books", JArr [JStr "a"]);
                 ("name", JStr "Summer")] in
  let v := JObj [("id", JStr "7"); ("name", JStr "Summer");
                 ("bookIds", JArr [JStr "a"])] in
  Js.get v "name" = Js.get x "name"
  /\ Api.books_to_bookIds v tt = (tt, [], Ok v).
Proof.
  intros x v.
  destruct (@repair_keeps_other_fields unit x tt v eq_refl)
    as (Hkeep & _ & Hagain).
  split; [apply Hkeep; discriminate | exact Hagain].
Defined.

(** A record that createReadingList or updateReadingList returns from a
    response that is no envelope has a truthy [bookIds]. *)
Theorem direct_record_has_bookIds :
  forall (E : env) (S : Type) (r : response) (d : json) (s : S) (v : json),
    ok r = true ->
    JSON_parse E (text r) = Some d ->
    envelope_text d = None ->
    outcome (Api.createReadingList_response E r s) = Ok v
    \/ outcome (Api.updateReadingList_response E r s) = Ok v ->
    has_truthy v "bookIds" = true.
Proof.
  intros E S r d s v Hok Hd Hplain Hv.
  rewrite <- (create_update_same_on_success E r s Hok) in Hv.
  assert (Hv' : outcome (Api.createReadingList_response E r s) = Ok v)
    by (destruct Hv; assumption). clear Hv.
  destruct d as [| b | n | str | items | fields];
    try (unfold Api.createReadingList_response, outcome in Hv';
         rewrite Hok in Hv'; revert Hv'; run; rewrite Hd; cbn;
         discriminate).
  assert (Hpay : payload E (JObj fields) = Some (JObj fields))
    by (unfold payload; rewrite Hplain; reflexivity).
  rewrite (createReadingList_record_run E r s Hok Hd Hpay), Hplain in Hv'.
  unfold has_truthy.
  destruct (Js.truthy_opt (Js.lookup "bookIds" fields)) eqn:Hids;
    cbn [orb] in Hv'.
  - rewrite books_to_bookIds_run, Hids, andb_false_r in Hv'.
    cbn in Hv'. injection Hv' as <-. cbn. exact Hids.
  - destruct (Js.truthy_opt (Js.lookup "books" fields)) eqn:Hbooks;
      [|discriminate Hv'].
    rewrite books_to_bookIds_run, Hids, Hbooks in Hv'. cbn in Hv'.
    injection Hv' as <-.
    destruct (Js.lookup "books" fields) as [b|] eqn:Hb; [|discriminate].
    destruct (renamed_has_bookIds fields b) as [Hnew _].
    cbn [Api.rename_books] in Hnew. rewrite Hnew. exact Hbooks.
Qed.

Lemma direct_record_has_bookIds_witness :
  has_truthy (JObj [("name", JStr "Summer"); ("bookIds", JArr [])]) "bookIds"
  = true.
Proof.
  exact (@direct_record_has_bookIds offline unit
           (reply 200 "OK" "{'name':'Summer','books':[]}")
           (JObj [("name", JStr "Summer"); ("books", JArr [])]) tt
           (JObj [("name", JStr "Summer"); ("bookIds", JArr [])])
           eq_refl eq_refl eq_refl (or_introl eq_refl)).
Defined.

Lemma rate_limit_message_witness :
  Api.getRecommendations_response offline
    (reply 429 "Too Many Requests" "{'error':'Daily quota used up'}") tt
  = (tt, [], Throw (Error "Daily quota used up"))
  /\ Api.getRecommendations_response offline
       (reply 429 "Too Many Requests" "{'message':'Too Many Requests'}") tt
     = (tt, [], Throw (Error Api.rate_limit_default)).
Proof.
  split.
  - destruct (@rate_limit_message unit offline
                (reply 429 "Too Many Requests" "{'error':'Daily quota used up'}")
                (JObj [("error", JStr "Daily quota used up")]) tt
                eq_refl eq_refl ltac:(discriminate)) as (Hsupplied & _).
    exact (Hsupplied (JStr "Daily quota used up") "Daily quota used up"
                     eq_refl eq_refl eq_refl).
  - destruct (@rate_limit_message unit offline
                (reply 429 "Too Many Requests" "{'message':'Too Many Requests'}")
                (JObj [("message", JStr "Too Many Requests")]) tt
                eq_refl eq_refl ltac:(discriminate)) as (_ & Hdefault).
    exact (Hdefault eq_refl).
Defined.

(* ================================================================== *)
(** * Further properties of the auth provider *)

(** ** Who is an admin *)

Lemma lower_letter (a : ascii) (s t : string) :
  spells s t -> spells (String a s) (String (Js.lower a) t).
Proof.
  intros H. unfold Js.lower.
  destruct (Nat.leb 65 (nat_of_ascii a) && Nat.leb (nat_of_ascii a) 90)
    eqn:Hcapital; [|constructor; exact H].
  apply andb_true_iff in Hcapital. rewrite !Nat.leb_le in Hcapital.
  set (c := ascii_of_nat (nat_of_ascii a + 32)).
  assert (Hc : nat_of_ascii c = nat_of_ascii a + 32)
    by (apply nat_ascii_embedding; lia).
  assert (Ha : a = capital c).
  { unfold capital. rewrite Hc.
    replace (nat_of_ascii a + 32 - 32) with (nat_of_ascii a) by lia.
    symmetry. apply ascii_nat_embedding. }
  rewrite Ha at 1. apply spells_capital; [|exact H].
  unfold small. rewrite Hc. apply andb_true_iff.
  rewrite !Nat.leb_le. lia.
Qed.

Lemma toLowerCase_letter (a : ascii) (s : string) :
  nat_of_ascii a <> 226 ->
  Js.toLowerCase (String a s) = String (Js.lower a) (Js.toLowerCase s).
Proof.
  intros Ha. apply Nat.eqb_neq in Ha.
  destruct s as [|b [|c rest]]; try reflexivity.
  cbn [Js.toLowerCase]. unfold Js.kelvin. rewrite Ha. reflexivity.
Qed.

Lemma toLowerCase_spells (email : string) :
  spells email (Js.toLowerCase email).
Proof.
  assert (H : forall n s, String.length s <= n -> spells s (Js.toLowerCase s)).
  { induction n as [|n IH]; intros s Hlen.
    - destruct s; [constructor | cbn in Hlen; lia].
    - destruct s as [|a r1]; [constructor|]. cbn in Hlen.
      destruct r1 as [|b [|c r3]].
      + apply (lower_letter a). constructor.
      + apply (lower_letter a). apply IH. lia.
      + cbn [Js.toLowerCase]. fold (Js.toLowerCase (String b (String c r3))).
        destruct (Js.kelvin a b c) eqn:Hk.
        * unfold Js.kelvin in Hk.
          rewrite !andb_true_iff, !Nat.eqb_eq in Hk.
          destruct Hk as (Ha & Hb & Hc).
          rewrite <- (ascii_nat_embedding a), <- (ascii_nat_embedding b),
            <- (ascii_nat_embedding c), Ha, Hb, Hc.
          apply (spells_kelvin (s := r3)). apply IH. cbn in Hlen. lia.
        * apply (lower_letter a). apply IH. lia. }
  exact (H (String.length email) email (le_n _)).
Qed.

Lemma spells_toLowerCase (email address : string) :
  plain_small address = true -> spells email address ->
  Js.toLowerCase email = address.
Proof.
  intros Hplain H. induction H as [| c s t _ IH | c s t Hc _ IH | s t _ IH];
    unfold plain_small in *; cbn [list_ascii_of_string forallb] in Hplain;
    try (apply andb_true_iff in Hplain; destruct Hplain as [Hhead Hplain]).
  - reflexivity.
  - apply andb_true_iff in Hhead. destruct Hhead as [Hascii Hsmall].
    apply Nat.ltb_lt in Hascii.
    rewrite toLowerCase_letter by lia. rewrite (IH Hplain).
    unfold Js.lower. apply negb_true_iff in Hsmall. rewrite Hsmall.
    reflexivity.
  - unfold small in Hc. apply andb_true_iff in Hc.
    rewrite !Nat.leb_le in Hc.
    assert (Hcap : nat_of_ascii (capital c) = nat_of_ascii c - 32)
      by (apply nat_ascii_embedding; lia).
    rewrite toLowerCase_letter by lia. rewrite (IH Hplain).
    unfold Js.lower. rewrite Hcap.
    replace (Nat.leb 65 (nat_of_ascii c - 32)
             && Nat.leb (nat_of_ascii c - 32) 90) with true
      by (symmetry; apply andb_true_iff; rewrite !Nat.leb_le; lia).
    replace (nat_of_ascii c - 32 + 32) with (nat_of_ascii c) by lia.
    rewrite ascii_nat_embedding. reflexivity.
  - change (Js.toLowerCase (KELVIN ++ s))
      with (String "k" (Js.toLowerCase s)).
    rewrite (IH Hplain). reflexivity.
Qed.

(** The role goes by the address up to case: an address is an admin's
    exactly when it spells an address of the allow-list with capitals for
    some of its letters, or with the Kelvin sign (U+212A, whose lower
    case is [k]) for some of its [k]; every other address is a plain
    user's. *)
Theorem admin_up_to_case :
  forall (email : string),
    (AuthContext.getUserRole email = role_admin
     <-> exists address,
           In address AuthContext.ADMIN_EMAILS /\ spells email address)
    /\ (AuthContext.getUserRole email = role_user
        <-> forall address,
              In address AuthContext.ADMIN_EMAILS -> ~ spells email address).
Proof.
  intros email.
  assert (Hlist : forall address,
             In address AuthContext.ADMIN_EMAILS ->
             plain_small address = true).
  { apply forallb_forall. reflexivity. }
  assert (Hmember : Js.includes AuthContext.ADMIN_EMAILS
                      (Js.toLowerCase email) = true
                    <-> exists address,
                          In address AuthContext.ADMIN_EMAILS
                          /\ spells email address).
  { unfold Js.includes. rewrite existsb_exists. split.
    - intros (address & Hin & Heq). apply String.eqb_eq in Heq.
      exists address. split; [exact Hin|]. rewrite <- Heq.
      apply toLowerCase_spells.
    - intros (address & Hin & Hspells). exists address.
      split; [exact Hin|]. apply String.eqb_eq.
      exact (spells_toLowerCase (Hlist address Hin) Hspells). }
  unfold AuthContext.getUserRole.
  destruct (Js.includes AuthContext.ADMIN_EMAILS (Js.toLowerCase email)).
  - split; [split; [intros _; apply Hmember; reflexivity | reflexivity]|].
    split; [discriminate|].
    intros Hnone. destruct (proj1 Hmember eq_refl) as (address & Hin & Hsp).
    destruct (Hnone address Hin Hsp).
  - split; [split; [discriminate|]|].
    + intros H. apply Hmember in H. discriminate H.
    + split; [|reflexivity].
      intros _ address Hin Hsp.
      assert (H : false = true)
        by (apply Hmember; exists address; split; assumption).
      discriminate H.
Qed.

Lemma admin_up_to_case_witness :
  AuthContext.getUserRole ("FUR" ++ KELVIN ++ "anTahaSaranda@Gmail.com")
  = role_admin.
Proof.
  destruct (admin_up_to_case ("FUR" ++ KELVIN ++ "anTahaSaranda@Gmail.com"))
    as (Hadmin & _).
  apply Hadmin. exists "furkantahasaranda@gmail.com".
  split; [left; reflexivity|].
  apply (spells_capital "f"); [reflexivity|].
  apply (spells_capital "u"); [reflexivity|].
  apply (spells_capital "r"); [reflexivity|].
  apply (spells_kelvin (s := "anTahaSaranda@Gmail.com")).
  do 2 apply spells_same.
  apply (spells_capital "t"); [reflexivity|].
  do 3 apply spells_same.
  apply (spells_capital "s"); [reflexivity|].
  do 7 apply spells_same.
  apply (spells_capital "g"); [reflexivity|].
  do 8 apply spells_same.
  constructor.
Defined.

Ltac auth_run' :=
  unfold AuthContext.checkAuth, AuthContext.login, AuthContext.logout,
    AuthContext.signup, AuthContext.confirmSignup, AuthContext.await,
    AuthContext.setIsLoading, AuthContext.setUser, try_finally, try_catch,
    console_error, bind, set, emit, of_result, ret, throw,
    final_state, trace, outcome.

(** The session probe on mount never rejects and always lowers the
    loading flag.  The user is populated exactly when both getCurrentUser
    and fetchUserAttributes resolve: the e-mail is the attribute, else the
    login id, else empty; the name is the attribute, else the username;
    the role is derived from that e-mail.  Otherwise the user is [null],
    and when getCurrentUser rejects the attributes are not asked for. *)
Theorem checkAuth_settles :
  forall (P : AuthContext.provider) (st : AuthContext.state),
    outcome (AuthContext.checkAuth P st) = Ok tt
    /\ AuthContext.isLoading (final_state (AuthContext.checkAuth P st)) = false
    /\ (forall u a,
          AuthContext.getCurrentUser P = Ok u ->
          AuthContext.fetchUserAttributes P = Ok a ->
          let userEmail :=
            AuthContext.or_else (AuthContext.attr_email a)
              (AuthContext.or_else (AuthContext.loginId u) "") in
          AuthContext.user (final_state (AuthContext.checkAuth P st))
          = Some {| user_id := AuthContext.userId u;
                    email := userEmail;
                    user_name := AuthContext.or_else (AuthContext.attr_name a)
                                   (AuthContext.username u);
                    user_role := AuthContext.getUserRole userEmail;
                    user_createdAt := AuthContext.now P |})
    /\ (forall e,
          AuthContext.getCurrentUser P = Throw e
          \/ AuthContext.fetchUserAttributes P = Throw e ->
          AuthContext.user (final_state (AuthContext.checkAuth P st)) = None)
    /\ (forall e,
          AuthContext.getCurrentUser P = Throw e ->
          trace (AuthContext.checkAuth P st)
          = [EvProvider GetCurrentUser; EvSet (SetUser None);
             EvSet (SetIsLoading false)]).
Proof.
  intros P st. auth_run'. cbn.
  destruct (AuthContext.getCurrentUser P) as [u|e1]; cbn;
    [destruct (AuthContext.fetchUserAttributes P) as [a|e2]; cbn|];
    repeat split; intros; try congruence;
    match goal with
    | H : _ \/ _ |- _ => destruct H; congruence
    | _ => idtac
    end.
Qed.

(** A completed sign-in populates the user from the provider: the e-mail
    is the provider's attribute, and the address typed in only when that
    is missing or empty; the role is derived from the e-mail so chosen.
    A sign-in the provider leaves incomplete ([isSignedIn] false) is no
    error: the user stays as it was and the provider is not asked for
    anything more. *)
Theorem login_populates_user :
  forall (P : AuthContext.provider) (email password : string)
         (st : AuthContext.state),
    (forall u a,
        AuthContext.signIn P email password = Ok true ->
        AuthContext.getCurrentUser P = Ok u ->
        AuthContext.fetchUserAttributes P = Ok a ->
        let userEmail := AuthContext.or_else (AuthContext.attr_email a) email in
        outcome (AuthContext.login P email password st) = Ok tt
        /\ AuthContext.user (final_state (AuthContext.login P email password st))
           = Some {| user_id := AuthContext.userId u;
                     email := userEmail;
                     user_name := AuthContext.or_else (AuthContext.attr_name a)
                                    (AuthContext.username u);
                     user_role := AuthContext.getUserRole userEmail;
                     user_createdAt := AuthContext.now P |})
    /\ (AuthContext.signIn P email password = Ok false ->
        AuthContext.login P email password st
        = ({| AuthContext.user := AuthContext.user st;
              AuthContext.isLoading := false |},
           [EvSet (SetIsLoading true);
            EvProvider (SignIn email password);
            EvSet (SetIsLoading false)],
           Ok tt)).
Proof.
  intros P email password st. split.
  - intros u a Hin Hu Ha. auth_run'. cbn. rewrite Hin. cbn.
    rewrite Hu. cbn. rewrite Ha. cbn. split; reflexivity.
  - intros Hin. auth_run'. cbn. rewrite Hin. reflexivity.
Qed.

Lemma login_populates_user_witness :
  let P := {| AuthContext.signIn := fun _ _ => Ok true;
              AuthContext.signOut := Ok tt;
              AuthContext.signUp := fun _ _ _ _ => Ok tt;
              AuthContext.confirmSignUp := fun _ _ => Ok tt;
              AuthContext.getCurrentUser :=
                Ok {| AuthContext.userId := "u-1";
                      AuthContext.username := "reader";
                      AuthContext.loginId := None |};
              AuthContext.fetchUserAttributes :=
                Ok {| AuthContext.attr_email :=
                        Some "FurkanTahaSaranda@Gmail.com";
                      AuthContext.attr_name := Some "" |};
              AuthContext.now := "2025-01-01T00:00:00.000Z" |} in
  let st := {| AuthContext.user := None; AuthContext.isLoading := false |} in
  AuthContext.user
    (final_state (AuthContext.login P "typed@example.test" "secret" st))
  = Some {| user_id := "u-1";
            email := "FurkanTahaSaranda@Gmail.com";
            user_name := "reader";
            user_role := role_admin;
            user_createdAt := "2025-01-01T00:00:00.000Z" |}.
Proof.
  intros P st.
  destruct (login_populates_user P "typed@example.test" "secret" st)
    as (Hdone & _).
  destruct (Hdone {| AuthContext.userId := "u-1";
                     AuthContext.username := "reader";
                     AuthContext.loginId := None |}
                  {| AuthContext.attr_email :=
                       Some "FurkanTahaSaranda@Gmail.com";
                     AuthContext.attr_name := Some "" |}
                  eq_refl eq_refl eq_refl) as (_ & Huser).
  exact Huser.
Defined.

(** An operation of the provider that fails changes nothing about who is
    signed in: after a rejected login or logout the user is who it was.
    A logout that succeeds clears the user; signup and confirmSignup never
    set the user, whether they succeed or fail. *)
Theorem failed_auth_keeps_user :
  forall (P : AuthContext.provider) (st : AuthContext.state),
    (forall email password e,
        outcome (AuthContext.login P email password st) = Throw e ->
        AuthContext.user (final_state (AuthContext.login P email password st))
        = AuthContext.user st)
    /\ (forall e,
          outcome (AuthContext.logout P st) = Throw e ->
          AuthContext.user (final_state (AuthContext.logout P st))
          = AuthContext.user st)
    /\ (outcome (AuthContext.logout P st) = Ok tt ->
        AuthContext.user (final_state (AuthContext.logout P st)) = None)
    /\ (forall email password name,
          AuthContext.user
            (final_state (AuthContext.signup P email password name st))
          = AuthContext.user st
          /\ forall u,
               ~ In (EvSet (SetUser u))
                    (trace (AuthContext.signup P email password name st)))
    /\ (forall email code,
          AuthContext.user
            (final_state (AuthContext.confirmSignup P email code st))
          = AuthContext.user st
          /\ forall u,
               ~ In (EvSet (SetUser u))
                    (trace (AuthContext.confirmSignup P email code st))).
Proof.
  intros P st. split; [|split; [|split; [|split]]].
  - intros email password e. auth_run'. cbn.
    destruct (AuthContext.signIn P email password) as [[|]|e0]; cbn;
      [destruct (AuthContext.getCurrentUser P) as [u|e1]; cbn;
       [destruct (AuthContext.fetchUserAttributes P) as [a|e2]; cbn|]| |];
      intros H; try discriminate H; reflexivity.
  - intros e. auth_run'. cbn.
    destruct (AuthContext.signOut P) as [[]|e0]; cbn;
      intros H; try discriminate H; reflexivity.
  - auth_run'. cbn.
    destruct (AuthContext.signOut P) as [[]|e0]; cbn;
      intros H; try discriminate H; reflexivity.
  - intros email password name. auth_run'. cbn.
    destruct (AuthContext.signUp P email password email name) as [[]|e0];
      cbn; (split; [reflexivity|]); intros u Hin;
      repeat (destruct Hin as [Hin|Hin]; [discriminate Hin|]);
      exact Hin.
  - intros email code. auth_run'. cbn.
    destruct (AuthContext.confirmSignUp P email code) as [[]|e0];
      cbn; (split; [reflexivity|]); intros u Hin;
      repeat (destruct Hin as [Hin|Hin]; [discriminate Hin|]);
      exact Hin.
Qed.

Lemma failed_auth_keeps_user_witness :
  let P := {| AuthContext.signIn := fun _ _ => Ok true;
              AuthContext.signOut := Throw (Error "Network error");
              AuthContext.signUp := fun _ _ _ _ => Ok tt;
              AuthContext.confirmSignUp := fun _ _ => Ok tt;
              AuthContext.getCurrentUser := Throw (Error "No current user");
              AuthContext.fetchUserAttributes := Throw (Error "No current user");
              AuthContext.now := "2025-01-01T00:00:00.000Z" |} in
  let reader := {| user_id := "u-1"; email := "reader@example.test";
                   user_name := "reader"; user_role := role_user;
                   user_createdAt := "2025-01-01T00:00:00.000Z" |} in
  let st := {| AuthContext.user := Some reader;
               AuthContext.isLoading := false |} in
  AuthContext.user (final_state (AuthContext.logout P st)) = Some reader
  /\ AuthContext.user
       (final_state (AuthContext.login P "other@example.test" "secret" st))
     = Some reader.
Proof.
  intros P reader st.
  destruct (failed_auth_keeps_user P st) as (Hlogin & Hlogout & _).
  split.
  - exact (Hlogout (Error "Network error") eq_refl).
  - exact (Hlogin "other@example.test" "secret" (Error "No current user")
                  eq_refl).
Defined.

(* ================================================================== *)
(** * Further properties of the page handlers *)

(** [updateReadingList] as its callers see it: the session, one PUT, and
    then at most console output; the caller's state is handed back. *)
Lemma updateReadingList_shape {S} E id payload (s : S) :
  exists rest,
    trace (Api.updateReadingList E id payload s)
    = EvProvider FetchAuthSession
        :: EvFetch (update_request E (headers_for (fetchAuthSession E))
                                   id payload)
        :: rest
    /\ console_only rest = true
    /\ final_state (Api.updateReadingList E id payload s) = s.
Proof.
  unfold Api.updateReadingList.
  rewrite (authenticated_run E
             (fun headers => {| req_method := PUT;
                                req_url := API_BASE_URL E ++ "/reading-lists/"
                                           ++ id;
                                req_headers := headers;
                                req_body := Some payload |})).
  unfold update_request.
  destruct (fetch E _) as [r|e].
  - destruct (response_handlers_quiet (S := S) E r) as (Hh & _).
    destruct (Hh UpdateReadingList s) as [Hs Ht]. cbn [handle] in Hs, Ht.
    exists (trace (Api.updateReadingList_response E r s)).
    cbn [trace final_state fst snd]. repeat split; assumption.
  - exists []. repeat split.
Qed.

Lemma console_only_no_fetch t req :
  console_only t = true -> ~ In (EvFetch req) t.
Proof.
  unfold console_only. rewrite forallb_forall.
  intros H Hin. specialize (H _ Hin). discriminate H.
Qed.

(** handleSelectList never rejects and never changes the book or the
    cached lists, not even after an acknowledged add: the list it added
    to still shows its old [bookIds] until the lists are loaded again.
    With no book on the page it does nothing at all; with a book it
    always ends with the busy flag down; and for a list id that is not
    among the cached lists it reports "Reading list not found" without
    sending anything. *)
Theorem handleSelectList_settles :
  forall (E : env) (listId : string) (st : BookDetail.state),
    outcome (BookDetail.handleSelectList E listId st) = Ok tt
    /\ BookDetail.readingLists
         (final_state (BookDetail.handleSelectList E listId st))
       = BookDetail.readingLists st
    /\ BookDetail.book (final_state (BookDetail.handleSelectList E listId st))
       = BookDetail.book st
    /\ (BookDetail.book st = None ->
        BookDetail.handleSelectList E listId st = (st, [], Ok tt))
    /\ (BookDetail.book st <> None ->
        BookDetail.isAddingToList
          (final_state (BookDetail.handleSelectList E listId st)) = false)
    /\ (BookDetail.book st <> None ->
        find (fun l => String.eqb (list_id l) listId)
             (BookDetail.readingLists st) = None ->
        trace (BookDetail.handleSelectList E listId st)
        = [EvSet (SetIsAddingToList true);
           EvHandleApiError (Error "Reading list not found");
           EvSet (SetIsAddingToList false)]).
Proof.
  intros E listId st.
  destruct (BookDetail.book st) as [b|] eqn:Hbook.
  - destruct (find (fun l => String.eqb (list_id l) listId)
                   (BookDetail.readingLists st)) as [l|] eqn:Hfind.
    + destruct (Js.includes (bookIds l) (book_id b)) eqn:Hin.
      * assert (Hrun : BookDetail.handleSelectList E listId st
                  = ({| BookDetail.book := Some b;
                        BookDetail.isModalOpen := false;
                        BookDetail.readingLists := BookDetail.readingLists st;
                        BookDetail.isAddingToList := false |},
                     [EvSet (SetIsAddingToList true);
                      EvShowSuccess "Book is already in this reading list!";
                      EvSet (SetIsModalOpen false);
                      EvSet (SetIsAddingToList false)],
                     Ok tt)).
        { unfold BookDetail.handleSelectList, read. unfold bind at 1.
          rewrite Hbook, Hfind, Hin. cbn. rewrite Hbook. reflexivity. }
        rewrite Hrun. cbn. repeat split; intros; congruence.
      * rewrite (handleSelectList_adds E listId st Hbook Hfind Hin).
        match goal with
        | |- context [Api.updateReadingList E listId ?payload ?s1] =>
            destruct (updateReadingList_shape E listId payload s1)
              as (rest & _ & _ & Hstate);
            unfold final_state in Hstate;
            destruct (Api.updateReadingList E listId payload s1)
              as [[s2 t2] [v|e]]
        end; cbn [fst snd] in Hstate; subst s2; cbn;
          repeat split; intros; congruence.
    + assert (Hrun : BookDetail.handleSelectList E listId st
                = ({| BookDetail.book := Some b;
                      BookDetail.isModalOpen := BookDetail.isModalOpen st;
                      BookDetail.readingLists := BookDetail.readingLists st;
                      BookDetail.isAddingToList := false |},
                   [EvSet (SetIsAddingToList true);
                    EvHandleApiError (Error "Reading list not found");
                    EvSet (SetIsAddingToList false)],
                   Ok tt)).
      { unfold BookDetail.handleSelectList, read. unfold bind at 1.
        rewrite Hbook, Hfind. cbn. rewrite Hbook. reflexivity. }
      rewrite Hrun. cbn. repeat split; intros; congruence.
  - assert (Hrun : BookDetail.handleSelectList E listId st = (st, [], Ok tt)).
    { unfold BookDetail.handleSelectList, read. unfold bind at 1.
      rewrite Hbook. reflexivity. }
    rewrite Hrun. cbn. repeat split; intros; congruence.
Qed.

Lemma includes_In (ids : list string) (x : string) :
  Js.includes ids x = true <-> In x ids.
Proof.
  unfold Js.includes. rewrite existsb_exists. split.
  - intros (y & Hin & Heq). apply String.eqb_eq in Heq. subst y. exact Hin.
  - intros Hin. exists x. split; [exact Hin | apply String.eqb_refl].
Qed.

Lemma includes_false_not_In (ids : list string) (x : string) :
  Js.includes ids x = false -> ~ In x ids.
Proof.
  intros Hfalse Hin. apply includes_In in Hin. congruence.
Qed.

(** Adding keeps a list free of repeats: for a list whose ids are
    pairwise distinct and do not hold the book's id, the one request
    handleSelectList sends is the PUT whose ids are again pairwise
    distinct and are the old ones and the new one, the old ones first and
    in their order; it sends no other request. *)
Theorem add_sends_distinct_ids :
  forall (E : env) (listId : string) (b : Book) (l : ReadingList)
         (st : BookDetail.state),
    BookDetail.book st = Some b ->
    find (fun l => String.eqb (list_id l) listId) (BookDetail.readingLists st)
    = Some l ->
    Js.includes (bookIds l) (book_id b) = false ->
    NoDup (bookIds l) ->
    let ids := (bookIds l ++ [book_id b])%list in
    NoDup ids
    /\ (forall x, In x ids <-> In x (bookIds l) \/ x = book_id b)
    /\ (forall req,
          In (EvFetch req) (trace (BookDetail.handleSelectList E listId st)) ->
          req = update_request E (headers_for (fetchAuthSession E)) listId
                  (list_payload (list_name l) (list_description l) ids)).
Proof.
  intros E listId b l st Hbook Hfind Hout Hdistinct ids. subst ids.
  split; [|split].
  - apply NoDup_app; [exact Hdistinct | repeat constructor; intros [] |].
    intros x Hx [Hb|[]]. subst x.
    exact (includes_false_not_In _ _ Hout Hx).
  - intros x. rewrite in_app_iff. cbn. intuition (subst; auto).
  - intros req.
    rewrite (handleSelectList_adds E listId st Hbook Hfind Hout).
    match goal with
    | |- context [Api.updateReadingList E listId ?payload ?s1] =>
        destruct (updateReadingList_shape E listId payload s1)
          as (rest & Htrace & Hquiet & _);
        unfold trace in Htrace;
        destruct (Api.updateReadingList E listId payload s1)
          as [[s2 t2] [v|e]]
    end; cbn [fst snd] in Htrace; subst t2; cbn [fst snd app In];
      intros [H|[H|[H|H]]]; try discriminate H;
      try (injection H as H; symmetry; exact H);
      apply in_app_or in H; destruct H as [H|H];
      try (exfalso; exact (@console_only_no_fetch _ _ Hquiet H));
      cbn in H; intuition discriminate.
Qed.

Lemma add_sends_distinct_ids_witness :
  let st := {| BookDetail.book := Some (a_book "c" "Emma");
               BookDetail.isModalOpen := true;
               BookDetail.readingLists := [a_list "1" "Summer" ["a"; "b"]];
               BookDetail.isAddingToList := false |} in
  NoDup ["a"; "b"; "c"]
  /\ forall req,
       In (EvFetch req) (trace (BookDetail.handleSelectList offline "1" st)) ->
       req = update_request offline [Api.content_type] "1"
               (JObj [("name", JStr "Summer");
                      ("bookIds", JArr [JStr "a"; JStr "b"; JStr "c"])]).
Proof.
  intros st.
  assert (Hdistinct : NoDup ["a"; "b"]).
  { repeat constructor; cbn; intuition discriminate. }
  destruct (@add_sends_distinct_ids offline "1" (a_book "c" "Emma")
              (a_list "1" "Summer" ["a"; "b"]) st
              eq_refl eq_refl eq_refl Hdistinct) as (Hnodup & _ & Honly).
  split; [exact Hnodup | exact Honly].
Defined.




Lemma fetches_app t1 t2 : fetches (t1 ++ t2) = (fetches t1 ++ fetches t2)%list.
Proof.
  induction t1 as [|ev t1 IH]; cbn; [reflexivity|].
  destruct ev; cbn; rewrite IH; reflexivity.
Qed.

Lemma console_only_fetches t : console_only t = true -> fetches t = [].
Proof.
  unfold console_only. induction t as [|ev t IH]; cbn; [reflexivity|].
  intros H. apply andb_true_iff in H. destruct H as [Hev Ht].
  destruct ev; try discriminate Hev. exact (IH Ht).
Qed.






(* ================================================================== *)
(** * Loading the books of a list *)

Lemma oblivious_ret {S A} (a : A) : oblivious (@ret S A a).
Proof. exists [], (Ok a). reflexivity. Qed.

Lemma oblivious_throw {S A} (e : exn) : oblivious (@throw S A e).
Proof. exists [], (Throw e). reflexivity. Qed.

Lemma oblivious_emit {S} (ev : event) : oblivious (@emit S ev).
Proof. exists [ev], (Ok tt). reflexivity. Qed.

Lemma oblivious_of_option {S A} (e : exn) (o : option A) :
  oblivious (@of_option S A e o).
Proof. destruct o; [apply oblivious_ret | apply oblivious_throw]. Qed.

Lemma oblivious_of_result {S A} (r : result A) : oblivious (@of_result S A r).
Proof. destruct r; [apply oblivious_ret | apply oblivious_throw]. Qed.

Lemma oblivious_bind {S A B} (m : M S A) (k : A -> M S B) :
  oblivious m -> (forall a, oblivious (k a)) -> oblivious (bind m k).
Proof.
  intros (t & r & Hm) Hk. destruct r as [a|e].
  - destruct (Hk a) as (t2 & r2 & Hka).
    exists (t ++ t2)%list, r2. intros s. unfold bind. rewrite Hm, Hka.
    reflexivity.
  - exists t, (Throw e). intros s. unfold bind. rewrite Hm. reflexivity.
Qed.

Ltac oblivious :=
  repeat first
    [ apply oblivious_ret | apply oblivious_throw | apply oblivious_emit
    | apply oblivious_of_option | apply oblivious_of_result
    | apply oblivious_bind; [|intros]
    | match goal with
      | |- oblivious (if ?b then _ else _) => destruct b
      | |- oblivious (match ?x with _ => _ end) => destruct x
      end ].

(** getBooks reads nothing of the caller's state. *)
Lemma getBooks_oblivious {S} E : oblivious (@Api.getBooks E S).
Proof.
  unfold Api.getBooks, Api.do_fetch, Api.getBooks_response,
    Api.response_json, Api.parse, prop.
  oblivious.
Qed.

(** [getBooks] as its callers see it: one GET with no header and no
    session call, then at most console output; the state is handed back. *)
Lemma getBooks_shape {S} E (s : S) :
  exists rest,
    trace (Api.getBooks E s) = EvFetch (books_request E) :: rest
    /\ console_only rest = true
    /\ final_state (Api.getBooks E s) = s.
Proof.
  unfold Api.getBooks. rewrite public_run. fold (books_request E).
  destruct (fetch E (books_request E)) as [r|e].
  - destruct (response_handlers_quiet (S := S) E r) as (Hh & _).
    destruct (Hh GetBooks s) as [Hs Ht]. cbn [handle] in Hs, Ht.
    exists (trace (Api.getBooks_response E r s)).
    cbn [trace final_state fst snd]. repeat split; assumption.
  - exists []. repeat split.
Qed.

(** The run of loadBooks, by the way [getBooks] settles. *)
Lemma loadBooks_run E books_of ids st :
  ReadingListDetail.loadBooks E books_of ids st
  = match outcome (Api.getBooks E st) with
    | Ok allBooks =>
        ({| ReadingListDetail.readingList := ReadingListDetail.readingList st;
            ReadingListDetail.books := members_of ids (books_of allBooks);
            ReadingListDetail.isLoading := ReadingListDetail.isLoading st |},
         trace (Api.getBooks E st)
           ++ [EvSet (SetBooks (members_of ids (books_of allBooks)))],
         Ok tt)
    | Throw e =>
        (st, trace (Api.getBooks E st) ++ [EvHandleApiError e], Ok tt)
    end%list.
Proof.
  destruct (getBooks_shape E st) as (rest & _ & _ & Hstate).
  unfold ReadingListDetail.loadBooks, try_catch, bind,
    ReadingListDetail.setBooks, handleApiError, set, emit, members_of.
  unfold final_state, trace, outcome in *.
  destruct (Api.getBooks E st) as [[s1 t1] [allBooks|e]];
    cbn [fst snd] in *; subst s1; reflexivity.
Qed.


Lemma includes_filter (b x : string) (ids : list string) :
  Js.includes (filter (fun id => negb (String.eqb id b)) ids) x
  = andb (Js.includes ids x) (negb (String.eqb x b)).
Proof.
  unfold Js.includes. induction ids as [|id ids IH]; cbn; [reflexivity|].
  destruct (String.eqb id b) eqn:Hid; cbn.
  - rewrite IH. apply String.eqb_eq in Hid. subst id.
    destruct (String.eqb x b); cbn; [|reflexivity].
    rewrite andb_false_r. reflexivity.
  - rewrite IH. destruct (String.eqb x id) eqn:Hx; cbn; [|reflexivity].
    apply String.eqb_eq in Hx. subst id. rewrite Hid. reflexivity.
Qed.

Lemma members_of_filter (b : string) (ids : list string) (all : list Book) :
  members_of (filter (fun id => negb (String.eqb id b)) ids) all
  = filter (fun book => negb (String.eqb (book_id book) b))
           (members_of ids all).
Proof.
  unfold members_of. induction all as [|book all IH]; cbn; [reflexivity|].
  rewrite includes_filter.
  destruct (Js.includes ids (book_id book)); cbn.
  - destruct (String.eqb (book_id book) b); cbn; rewrite IH; reflexivity.
  - exact IH.
Qed.

(** The cache follows the list through removals: when the cached books
    are what loadBooks keeps of the catalogue for the list's ids, then
    after an acknowledged removal they are what loadBooks keeps for the
    ids that remain, so that a reload against the same catalogue would
    change nothing. *)
Theorem removal_keeps_cache_current :
  forall (E : env) (books_of : json -> list Book) (bookId : string)
         (l : ReadingList) (st : ReadingListDetail.state)
         (allBooks v : json),
    ReadingListDetail.readingList st = Some l ->
    outcome (Api.getBooks E st) = Ok allBooks ->
    ReadingListDetail.books st = members_of (bookIds l) (books_of allBooks) ->
    outcome (Api.updateReadingList E (list_id l)
               (list_payload (list_name l) (list_description l)
                  (filter (fun id => negb (String.eqb id bookId)) (bookIds l)))
               st) = Ok v ->
    let st' := final_state (ReadingListDetail.handleRemoveBook E bookId st) in
    exists l',
      ReadingListDetail.readingList st' = Some l'
      /\ ReadingListDetail.books st'
         = members_of (bookIds l') (books_of allBooks)
      /\ ReadingListDetail.books
           (final_state (ReadingListDetail.loadBooks E books_of (bookIds l') st'))
         = ReadingListDetail.books st'.
Proof.
  intros E books_of bookId l st allBooks v Hlist Hcatalogue Hcache Hack st'.
  assert (Hfirst : st'
                   = {| ReadingListDetail.readingList :=
                          Some (ReadingListDetail.with_bookIds l
                                  (filter (fun id => negb (String.eqb id bookId))
                                          (bookIds l)));
                        ReadingListDetail.books :=
                          filter (fun book =>
                                    negb (String.eqb (book_id book) bookId))
                                 (ReadingListDetail.books st);
                        ReadingListDetail.isLoading :=
                          ReadingListDetail.isLoading st |}).
  { subst st'. rewrite (handleRemoveBook_run E bookId st Hlist). cbv zeta.
    destruct (updateReadingList_shape E (list_id l)
                (list_payload (list_name l) (list_description l)
                   (filter (fun id => negb (String.eqb id bookId))
                           (bookIds l))) st)
      as (rest & _ & _ & Hstate).
    unfold outcome, final_state in *.
    destruct (Api.updateReadingList E (list_id l) _ st) as [[s2 t2] [v'|e]];
      cbn [fst snd] in *; [subst s2; reflexivity | discriminate Hack]. }
  clearbody st'. subst st'.
  eexists. split; [reflexivity|].
  cbn [ReadingListDetail.with_bookIds bookIds ReadingListDetail.books].
  rewrite Hcache, <- members_of_filter. split; [reflexivity|].
  rewrite loadBooks_run.
  match goal with
  | |- context [Api.getBooks E ?s1] =>
      assert (Hsame : outcome (Api.getBooks E s1) = Ok allBooks)
  end.
  { destruct (getBooks_oblivious (S := ReadingListDetail.state) E)
      as (t & r & Hrun).
    rewrite Hrun in *. exact Hcatalogue. }
  rewrite Hsame. reflexivity.
Qed.

Lemma removal_keeps_cache_current_witness :
  let E :=
    env_serving (Ok (reply 200 "OK" "[{'id':'a'},{'id':'b'},{'id':'c'}]"))
                (Ok (reply 200 "OK" "{'id':'7','bookIds':['b']}")) in
  let books_of := fun _ : json => [a_book "a" "Dune"; a_book "b" "Emma";
                                   a_book "c" "Ulysses"] in
  let st := {| ReadingListDetail.readingList :=
                 Some (a_list "7" "Summer" ["b"; "a"]);
               ReadingListDetail.books := [a_book "a" "Dune"; a_book "b" "Emma"];
               ReadingListDetail.isLoading := false |} in
  exists l',
    ReadingListDetail.readingList
      (final_state (ReadingListDetail.handleRemoveBook E "a" st)) = Some l'
    /\ ReadingListDetail.books
         (final_state
            (ReadingListDetail.loadBooks E books_of (bookIds l')
               (final_state (ReadingListDetail.handleRemoveBook E "a" st))))
       = ReadingListDetail.books
           (final_state (ReadingListDetail.handleRemoveBook E "a" st)).
Proof.
  intros E books_of st.
  destruct (@removal_keeps_cache_current E books_of "a"
              (a_list "7" "Summer" ["b"; "a"]) st
              (JArr [JObj [("id", JStr "a")]; JObj [("id", JStr "b")];
                     JObj [("id", JStr "c")]])
              (JObj [("id", JStr "7"); ("bookIds", JArr [JStr "b"])])
              eq_refl eq_refl eq_refl eq_refl)
    as (l' & Hl' & _ & Hreload).
  exists l'. split; [exact Hl' | exact Hreload].
Defined.

(* ================================================================== *)
(** * The pages *)

(** ** The API layer as the pages see it *)

Lemma oblivious_try_catch {S A} (m : M S A) (h : exn -> M S A) :
  oblivious m -> (forall e, oblivious (h e)) -> oblivious (try_catch m h).
Proof.
  intros (t & r & Hm) Hh. destruct r as [a|e].
  - exists t, (Ok a). intros s. unfold try_catch. rewrite Hm. reflexivity.
  - destruct (Hh e) as (t2 & r2 & Hhe).
    exists (t ++ t2)%list, r2. intros s. unfold try_catch. rewrite Hm, Hhe.
    reflexivity.
Qed.

Ltac oblivious_all :=
  repeat first
    [ apply oblivious_ret | apply oblivious_throw | apply oblivious_emit
    | apply oblivious_of_option | apply oblivious_of_result
    | apply oblivious_bind; [|intros]
    | apply oblivious_try_catch; [|intros]
    | match goal with
      | |- oblivious (if ?b then _ else _) => destruct b
      | |- oblivious (match ?x with _ => _ end) => destruct x
      end ].

Lemma oblivious_at {S A} (m : M S A) :
  oblivious m -> forall s s', m s' = (s', trace (m s), outcome (m s)).
Proof.
  intros (t & r & H) s s'. rewrite (H s), (H s'). reflexivity.
Qed.

Lemma notices_app t1 t2 : notices (t1 ++ t2) = (notices t1 ++ notices t2)%list.
Proof.
  induction t1 as [|ev t1 IH]; cbn; [reflexivity|].
  destruct ev; cbn; rewrite IH; reflexivity.
Qed.

Lemma console_only_notices t : console_only t = true -> notices t = [].
Proof.
  unfold console_only. induction t as [|ev t IH]; cbn; [reflexivity|].
  intros H. apply andb_true_iff in H. destruct H as [Hev Ht].
  destruct ev; try discriminate Hev. exact (IH Ht).
Qed.

Lemma api_calls_of_the_pages {S} E :
  @api_call_sending S _ (Api.getReadingLists E) (lists_request E)
  /\ (forall id,
         @api_call_sending S _ (Api.deleteReadingList E id)
           (delete_list_request E id))
  /\ (forall bookId,
         @api_call_sending S _ (Api.getReviews E bookId)
           (reviews_request E bookId))
  /\ (forall bookId review,
         @api_call_sending S _ (Api.createReview E bookId review)
           (review_request E bookId review)).
Proof.
  assert (Hquiet : forall r,
             (forall e, confined console_only (@handle S E e r))
             /\ confined console_only (@Api.deleteBook_response S r)
             /\ confined console_only (@Api.deleteReadingList_response S r))
    by (intros r; apply response_handlers_quiet).
  unfold api_call_sending.
  repeat split; intros;
    try (unfold Api.getReadingLists, Api.deleteReadingList, Api.getReviews,
           Api.createReview, Api.getAuthHeaders, Api.do_fetch,
           Api.getReadingLists_response, Api.deleteReadingList_response,
           Api.getReviews_response, Api.createReview_response,
           Api.unwrap_response, Api.describe_failure, Api.message_or_error,
           Api.append_detail, Api.response_json, Api.parse, prop, to_string,
           throw_new_Error, console_error;
         solve [oblivious_all]).
  all: unfold Api.getReadingLists, Api.deleteReadingList, Api.getReviews,
         Api.createReview, lists_request, delete_list_request,
         reviews_request, review_request;
       first [rewrite authenticated_run | rewrite public_run];
       (destruct (fetch E _) as [r|e0]; [|reflexivity]);
       destruct (Hquiet r) as (Hh & _ & Hdl).
  all: match goal with
       | |- context [trace (?k ?s0)] =>
           assert (Hk : confined console_only k)
             by first [ exact (Hh GetReviews) | exact (Hh GetReadingLists)
                      | exact (Hh CreateReview) | exact Hdl ];
           destruct (Hk s0) as [_ Ht]
       end.
  all: cbn [trace fst snd fetches notices];
       rewrite ?(console_only_fetches _ Ht), ?(console_only_notices _ Ht);
       reflexivity.
Qed.

Lemma api_call_run {S A} (m : M S A) (req : request) (s0 : S) :
  api_call_sending m req ->
  exists t r,
    (forall s, m s = (s, t, r)) /\ fetches t = [req] /\ notices t = [].
Proof.
  intros [(t & r & Hrun) Hsent]. exists t, r. split; [exact Hrun|].
  specialize (Hsent s0). rewrite Hrun in Hsent. exact Hsent.
Qed.

Ltac page_step :=
  cbv beta iota zeta
      delta [bind read try_catch try_finally assign navigate alert within
             ret throw set showSuccess handleApiError emit negb
             final_state trace outcome fst snd cells navigated alerted].

(** ** Deleting a list *)

(** handleDeleteList never rejects and never touches a cell of the page,
    also when the list was deleted: leaving the page is all it does then.
    Without a list, or when the user declines, nothing happens at all.
    Otherwise one DELETE of the list is sent; acknowledged, the success
    is notified and the page navigates to /reading-lists; failed, the
    error goes to handleApiError and the page stays where it is. *)
Theorem handleDeleteList_settles :
  forall (E : env) (confirm : string -> bool)
         (st : ReadingListDetailPage.state),
    let run := ReadingListDetailPage.handleDeleteList E confirm st in
    outcome run = Ok tt
    /\ cells (final_state run) = cells st
    /\ alerted (final_state run) = alerted st
    /\ match ReadingListDetail.readingList (cells st) with
       | None => run = (st, [], Ok tt)
       | Some l =>
           if confirm (delete_question l) then
             fetches (trace run) = [delete_list_request E (list_id l)]
             /\ match outcome (Api.deleteReadingList E (list_id l) st) with
                | Ok _ =>
                    navigated (final_state run)
                    = "/reading-lists" :: navigated st
                    /\ notices (trace run)
                       = [EvShowSuccess "Reading list deleted successfully!"]
                | Throw e =>
                    navigated (final_state run) = navigated st
                    /\ notices (trace run) = [EvHandleApiError e]
                end
           else run = (st, [], Ok tt)
       end.
Proof.
  intros E confirm st run. subst run.
  destruct (api_calls_of_the_pages (S := ReadingListDetailPage.state) E)
    as (_ & Hdelete & _).
  destruct st as [c nav al].
  unfold ReadingListDetailPage.handleDeleteList. fold delete_question.
  page_step.
  destruct (ReadingListDetail.readingList c) as [l|];
    [|repeat split].
  fold (delete_question l).
  destruct (confirm (delete_question l)); page_step; [|repeat split].
  destruct (api_call_run {| cells := c; navigated := nav; alerted := al |}
              (Hdelete (list_id l)))
    as (t & r & Hrun & Hsent & Hquiet).
  rewrite !Hrun.
  destruct r as [[]|e]; page_step;
    rewrite ?fetches_app, ?notices_app, ?Hsent, ?Hquiet; repeat split.
Qed.

(** ** Loading a list *)

Lemma getBooks_sending {S} E :
  @api_call_sending S _ (Api.getBooks E) (books_request E).
Proof.
  split; [apply getBooks_oblivious|]. intros s.
  destruct (getBooks_shape E s) as (rest & Htrace & Hquiet & _).
  rewrite Htrace. cbn [fetches notices].
  rewrite (console_only_fetches _ Hquiet), (console_only_notices _ Hquiet).
  split; reflexivity.
Qed.

Ltac list_page_step :=
  unfold ReadingListDetailPage.setIsLoading,
    ReadingListDetail.setReadingList, ReadingListDetail.setBooks, of_result;
  page_step;
  cbn [ReadingListDetail.readingList ReadingListDetail.books
       ReadingListDetail.isLoading].

(** loadReadingList never rejects and always ends with the loading flag
    down.  It shows no alert, navigates at most once and then to /404,
    sends the request for the lists first and after it at most the one
    for the catalogue, and notifies at most one thing, an error.  When
    [getReadingLists] fails, list, books and location stay as they were
    and that error is the one notified. *)
Theorem loadReadingList_settles :
  forall (E : env) (books_of : json -> list Book)
         (lists_of : json -> list (option ReadingListDetailPage.received))
         (listId : string) (st : ReadingListDetailPage.state),
    let run :=
      ReadingListDetailPage.loadReadingList E books_of lists_of listId st in
    outcome run = Ok tt
    /\ ReadingListDetail.isLoading (cells (final_state run)) = false
    /\ alerted (final_state run) = alerted st
    /\ (navigated (final_state run) = navigated st
        \/ navigated (final_state run) = "/404" :: navigated st)
    /\ (fetches (trace run) = [lists_request E]
        \/ fetches (trace run) = [lists_request E; books_request E])
    /\ (notices (trace run) = []
        \/ exists e, notices (trace run) = [EvHandleApiError e])
    /\ (forall e,
          outcome (Api.getReadingLists E st) = Throw e ->
          ReadingListDetail.readingList (cells (final_state run))
          = ReadingListDetail.readingList (cells st)
          /\ ReadingListDetail.books (cells (final_state run))
             = ReadingListDetail.books (cells st)
          /\ navigated (final_state run) = navigated st
          /\ fetches (trace run) = [lists_request E]
          /\ notices (trace run) = [EvHandleApiError e]).
Proof.
  intros E books_of lists_of listId st run. subst run.
  destruct (api_calls_of_the_pages (S := ReadingListDetailPage.state) E)
    as (Hlists & _).
  destruct (api_call_run st Hlists) as (t & r & Hrun & Hsent & Hquiet).
  destruct (api_call_run (cells st)
              (getBooks_sending (S := ReadingListDetail.state) E))
    as (t' & r' & Hrun' & Hsent' & Hquiet').
  destruct st as [[l0 bs0 f0] nav al].
  unfold ReadingListDetailPage.loadReadingList.
  list_page_step. rewrite !Hrun.
  destruct r as [lists|e]; list_page_step.
  - destruct (ReadingListDetailPage.find_list listId (lists_of lists))
      as [[l|]|e]; list_page_step.
    + destruct (ReadingListDetailPage.has_bookIds l); list_page_step.
      * destruct (bookIds (ReadingListDetailPage.the_list l))
          as [|id ids] eqn:Hids; list_page_step.
        -- rewrite ?fetches_app, ?notices_app, ?Hsent, ?Hquiet.
           repeat split; try (left; reflexivity); discriminate.
        -- rewrite !loadBooks_run. unfold outcome, trace. rewrite !Hrun'.
           destruct r' as [allBooks|e']; list_page_step;
             rewrite ?fetches_app, ?notices_app, ?Hsent, ?Hquiet,
               ?Hsent', ?Hquiet';
             repeat split; try (left; reflexivity);
             try (right; reflexivity); try discriminate.
           right. eexists. reflexivity.
      * rewrite ?fetches_app, ?notices_app, ?Hsent, ?Hquiet.
        repeat split; try (left; reflexivity);
          try (right; eexists; reflexivity); discriminate.
    + rewrite ?fetches_app, ?notices_app, ?Hsent, ?Hquiet.
      repeat split; try (left; reflexivity); try (right; reflexivity);
        discriminate.
    + rewrite ?fetches_app, ?notices_app, ?Hsent, ?Hquiet.
      repeat split; try (left; reflexivity);
        try (right; eexists; reflexivity); discriminate.
  - rewrite ?fetches_app, ?notices_app, ?Hsent, ?Hquiet.
    repeat split; try (left; reflexivity);
      try (right; eexists; reflexivity);
      match goal with H : Throw _ = Throw _ |- _ => injection H as <- end;
      reflexivity.
Qed.


Lemma find_list_absent listId
    (lists : list (option ReadingListDetailPage.received)) :
  (forall x, In x lists ->
             exists l, x = Some l
                       /\ list_id (ReadingListDetailPage.the_list l)
                          <> listId) ->
  ReadingListDetailPage.find_list listId lists = Ok None.
Proof.
  intros H. induction lists as [|x lists IH]; cbn; [reflexivity|].
  destruct (H x (or_introl eq_refl)) as (l & -> & Hne).
  apply String.eqb_neq in Hne. rewrite Hne. apply IH.
  intros y Hy. apply H. right. exact Hy.
Qed.

(** When the lists arrive, none of them is [null] and none has the id
    asked for, the page navigates to /404 and keeps the list and the
    books it had; the catalogue is not requested and nothing is
    notified. *)
Theorem loadReadingList_not_found :
  forall (E : env) (books_of : json -> list Book)
         (lists_of : json -> list (option ReadingListDetailPage.received))
         (listId : string) (st : ReadingListDetailPage.state) (lists : json),
    outcome (Api.getReadingLists E st) = Ok lists ->
    (forall x, In x (lists_of lists) ->
               exists l, x = Some l
                         /\ list_id (ReadingListDetailPage.the_list l)
                            <> listId) ->
    let run :=
      ReadingListDetailPage.loadReadingList E books_of lists_of listId st in
    navigated (final_state run) = "/404" :: navigated st
    /\ ReadingListDetail.readingList (cells (final_state run))
       = ReadingListDetail.readingList (cells st)
    /\ ReadingListDetail.books (cells (final_state run))
       = ReadingListDetail.books (cells st)
    /\ fetches (trace run) = [lists_request E]
    /\ notices (trace run) = [].
Proof.
  intros E books_of lists_of listId st lists Hlists Habsent run. subst run.
  destruct (api_calls_of_the_pages (S := ReadingListDetailPage.state) E)
    as (Hcall & _).
  destruct (api_call_run st Hcall) as (t & r & Hrun & Hsent & Hquiet).
  rewrite Hrun in Hlists. cbn in Hlists. subst r.
  destruct st as [[l0 bs0 f0] nav al].
  unfold ReadingListDetailPage.loadReadingList.
  list_page_step. rewrite !Hrun. list_page_step.
  rewrite (@find_list_absent listId (lists_of lists) Habsent).
  list_page_step. rewrite ?fetches_app, ?notices_app, ?Hsent, ?Hquiet.
  repeat split.
Qed.

Lemma loadReadingList_not_found_witness :
  let E := env_serving (Ok (reply 200 "OK" "[{'id':'7','bookIds':[]}]"))
                       (Throw TypeError) in
  let st := {| cells :=
                 {| ReadingListDetail.readingList :=
                      Some (a_list "3" "Winter" ["a"]);
                    ReadingListDetail.books := [a_book "a" "Dune"];
                    ReadingListDetail.isLoading := false |};
               navigated := []; alerted := [] |} in
  let summer :=
    {| ReadingListDetailPage.the_list := a_list "7" "Summer" [];
       ReadingListDetailPage.has_bookIds := true |} in
  let run :=
    ReadingListDetailPage.loadReadingList E (fun _ => [])
      (fun _ => [Some summer]) "8" st in
  navigated (final_state run) = ["/404"]
  /\ ReadingListDetail.books (cells (final_state run)) = [a_book "a" "Dune"].
Proof.
  intros E st summer run.
  destruct (@loadReadingList_not_found E (fun _ => [])
              (fun _ => [Some summer]) "8" st
              (JArr [JObj [("id", JStr "7"); ("bookIds", JArr [])]])
              eq_refl)
    as (Hnav & _ & Hbooks & _).
  - intros x [<-|[]]. exists summer. split; [reflexivity | discriminate].
  - split; [exact Hnav | exact Hbooks].
Defined.



(* ================================================================== *)
(** * The cover image of a card *)

Lemma handleImageError_again (s : ReadingListBookCard.state) :
  ReadingListBookCard.handleImageError
    (ReadingListBookCard.handleImageError s)
  = ReadingListBookCard.handleImageError s.
Proof.
  destruct (negb (ReadingListBookCard.hasError s)
            && negb (Js.contains "data:image/svg+xml"
                       (ReadingListBookCard.imageSrc s))) eqn:Hguard;
    unfold ReadingListBookCard.handleImageError; rewrite Hguard;
    [|rewrite Hguard; reflexivity].
  reflexivity.
Qed.

(** The fallback of the cover image fires at most once: however often
    the image fails to load, the card is in the state the first failure
    left it in, which is either the state before (the image had failed
    already, or is an SVG data URI) or the placeholder with the error
    flag up; in that state the handler's test is false on both counts,
    the placeholder being an SVG data URI itself.  A freshly mounted
    card whose cover is not such a URI shows the placeholder after the
    first failure. *)
Theorem image_fallback_fires_once :
  forall (s : ReadingListBookCard.state) (n : nat),
    let s' := ReadingListBookCard.handleImageError s in
    Nat.iter (S n) ReadingListBookCard.handleImageError s = s'
    /\ (s' = s
        \/ s' = {| ReadingListBookCard.imageSrc :=
                     ReadingListBookCard.PLACEHOLDER_IMAGE;
                   ReadingListBookCard.hasError := true |})
    /\ (s' <> s ->
        ReadingListBookCard.hasError s' = true
        /\ Js.contains "data:image/svg+xml"
             (ReadingListBookCard.imageSrc s') = true)
    /\ (forall book,
          s = ReadingListBookCard.mounted book ->
          Js.contains "data:image/svg+xml" (coverImage book) = false ->
          ReadingListBookCard.imageSrc s'
          = ReadingListBookCard.PLACEHOLDER_IMAGE).
Proof.
  intros s n s'. subst s'. split; [|split; [|split]].
  - induction n as [|n IH]; [reflexivity|].
    change (Nat.iter (S (S n)) ReadingListBookCard.handleImageError s)
      with (ReadingListBookCard.handleImageError
              (Nat.iter (S n) ReadingListBookCard.handleImageError s)).
    rewrite IH. apply handleImageError_again.
  - unfold ReadingListBookCard.handleImageError.
    destruct (negb (ReadingListBookCard.hasError s) && _);
      [right; reflexivity | left; reflexivity].
  - unfold ReadingListBookCard.handleImageError.
    destruct (negb (ReadingListBookCard.hasError s) && _).
    + intros _. split; [reflexivity|]. vm_compute. reflexivity.
    + intros Hne. contradiction Hne. reflexivity.
  - intros book -> Hcover.
    unfold ReadingListBookCard.handleImageError, ReadingListBookCard.mounted.
    cbn [ReadingListBookCard.hasError ReadingListBookCard.imageSrc negb andb].
    rewrite Hcover. reflexivity.
Qed.

(* ================================================================== *)
(** * The page of a book *)

Ltac book_page_step :=
  unfold BookDetailPage.setIsLoading, BookDetailPage.setBook,
    BookDetailPage.setReadingLists, BookDetailPage.setIsModalOpen,
    BookDetailPage.setIsLoadingLists, BookDetailPage.setIsReviewModalOpen,
    BookDetailPage.setReviews, BookDetailPage.setIsLoadingReviews,
    BookDetailPage.setReviewRating, BookDetailPage.setReviewComment,
    BookDetailPage.setIsSubmittingReview, BookDetailPage.on_selecting,
    BookDetailPage.with_selecting, BookDetail.setIsModalOpen,
    BookDetailPage.spread_after;
  page_step;
  cbn [BookDetailPage.selecting BookDetailPage.isLoading
       BookDetailPage.isLoadingLists BookDetailPage.isReviewModalOpen
       BookDetailPage.reviews BookDetailPage.isLoadingReviews
       BookDetailPage.reviewRating BookDetailPage.reviewComment
       BookDetailPage.isSubmittingReview
       BookDetail.book BookDetail.isModalOpen BookDetail.readingLists
       BookDetail.isAddingToList].

(** loadBook cannot fail in this snapshot: [getBook] reads the mock
    table after its timer, so no request is sent and nothing reaches
    handleApiError; the loading flag ends down.  The book shown becomes
    the first mock book with the id; when there is none the page
    navigates to /404 and keeps the book it had.  Reviews and alerts are
    not touched. *)
Theorem loadBook_never_fails :
  forall (E : env) (bookId : string) (st : BookDetailPage.state),
    let run := BookDetailPage.loadBook E bookId st in
    run = (final_state run,
           [EvSet (SetIsLoading true); EvTimeout 300;
            EvSet (SetIsLoading false)],
           Ok tt)
    /\ BookDetailPage.isLoading (cells (final_state run)) = false
    /\ alerted (final_state run) = alerted st
    /\ BookDetailPage.reviews (cells (final_state run))
       = BookDetailPage.reviews (cells st)
    /\ match find (fun b => String.eqb (book_id b) bookId) (mockBooks E) with
       | Some b =>
           BookDetail.book (BookDetailPage.selecting (cells (final_state run)))
           = Some b
           /\ navigated (final_state run) = navigated st
       | None =>
           BookDetail.book (BookDetailPage.selecting (cells (final_state run)))
           = BookDetail.book (BookDetailPage.selecting (cells st))
           /\ navigated (final_state run) = "/404" :: navigated st
       end.
Proof.
  intros E bookId st run. subst run.
  destruct st as [[[b0 m0 ls0 a0] f1 f2 f3 rv f4 n0 c0 f5] nav al].
  unfold BookDetailPage.loadBook, Api.getBook.
  book_page_step.
  destruct (find _ (mockBooks E)) as [b|]; book_page_step; repeat split.
Qed.

Lemma getReviews_array {S} E bookId (s : S) v :
  outcome (Api.getReviews E bookId s) = Ok v -> Js.isArray v = true.
Proof.
  unfold Api.getReviews. rewrite public_run.
  destruct (fetch E _) as [r|e]; [|discriminate].
  cbn [outcome snd].
  unfold Api.getReviews_response, outcome; run;
    repeat (match goal with
            | |- context [match ?x with _ => _ end] =>
                lazymatch x with
                | context [match _ with _ => _ end] => fail
                | _ => destruct x eqn:?
                end
            end; cbn);
    intros Hv; try discriminate Hv; injection Hv as <-;
    first [assumption | reflexivity].
Qed.

(** loadReviews never rejects and ends with its flag down; it sends the
    one request for the book's reviews, without a session and without a
    header, so that reviews load for a visitor who is not signed in.
    The reviews become what [getReviews] resolved with, which is an
    array; when it failed they stay and the error is notified. *)
Theorem loadReviews_settles :
  forall (E : env) (bookId : string) (st : BookDetailPage.state),
    let run := BookDetailPage.loadReviews E bookId st in
    outcome run = Ok tt
    /\ BookDetailPage.isLoadingReviews (cells (final_state run)) = false
    /\ fetches (trace run) = [reviews_request E bookId]
    /\ ~ In (EvProvider FetchAuthSession) (trace run)
    /\ navigated (final_state run) = navigated st
    /\ alerted (final_state run) = alerted st
    /\ match outcome (Api.getReviews E bookId st) with
       | Ok data =>
           BookDetailPage.reviews (cells (final_state run)) = data
           /\ Js.isArray data = true
           /\ notices (trace run) = []
       | Throw e =>
           BookDetailPage.reviews (cells (final_state run))
           = BookDetailPage.reviews (cells st)
           /\ notices (trace run) = [EvHandleApiError e]
       end.
Proof.
  intros E bookId st run. subst run.
  destruct (api_calls_of_the_pages (S := BookDetailPage.state) E)
    as (_ & _ & Hreviews & _).
  destruct (api_call_run st (Hreviews bookId))
    as (t & r & Hrun & Hsent & Hquiet).
  assert (Harray : forall data, r = Ok data -> Js.isArray data = true).
  { intros data ->. apply (getReviews_array E bookId st).
    rewrite Hrun. reflexivity. }
  assert (Hsession : ~ In (EvProvider FetchAuthSession) t).
  { pose proof (Hrun st) as Hst. unfold Api.getReviews in Hst.
    rewrite public_run in Hst.
    destruct (fetch E _) as [resp|e].
    - destruct (response_handlers_quiet (S := BookDetailPage.state) E resp)
        as (Hh & _).
      destruct (Hh GetReviews st) as [_ Ht]. cbn [handle] in Ht.
      apply (f_equal trace) in Hst. cbn [trace fst snd] in Hst. subst t.
      intros Hin. destruct Hin as [Hin|Hin]; [discriminate Hin|].
      unfold console_only in Ht. rewrite forallb_forall in Ht.
      specialize (Ht _ Hin). discriminate Ht.
    - apply (f_equal trace) in Hst. cbn [trace fst snd] in Hst. subst t.
      intros Hin. destruct Hin as [Hin|[]]. discriminate Hin. }
  destruct st as [[[b0 m0 ls0 a0] f1 f2 f3 rv f4 n0 c0 f5] nav al].
  unfold BookDetailPage.loadReviews.
  book_page_step. rewrite !Hrun.
  destruct r as [data|e]; book_page_step;
    rewrite ?fetches_app, ?notices_app, ?Hsent, ?Hquiet;
    repeat split; try (apply Harray; reflexivity);
    intros Hin; rewrite ?in_app_iff in Hin; cbn [In] in Hin;
    intuition discriminate.
Qed.

(** ** Reviews *)

Lemma length_append (a b : string) :
  String.length (a ++ b) = String.length a + String.length b.
Proof.
  induction a as [|c a IH]; [reflexivity|].
  change (String c a ++ b) with (String c (a ++ b)).
  cbn [String.length]. rewrite IH. reflexivity.
Qed.

Lemma in_white (w : string) :
  existsb (String.eqb w) WhiteSpace = true -> In w WhiteSpace.
Proof.
  intros H. apply existsb_exists in H. destruct H as (x & Hin & Heq).
  apply String.eqb_eq in Heq. subst x. exact Hin.
Qed.

Lemma white_nonempty (w : string) :
  In w WhiteSpace -> 1 <= String.length w.
Proof.
  unfold WhiteSpace. cbn [map In]. intros H.
  repeat destruct H as [<-|H]; first [contradiction | cbn; lia].
Qed.

(** Stripping starts by stripping any one white-space character. *)
Lemma white_strip (w s : string) :
  In w WhiteSpace -> JsString.trimStart (w ++ s) = JsString.trimStart s.
Proof.
  unfold WhiteSpace. cbn [map In]. intros H.
  repeat destruct H as [<-|H]; first [contradiction | reflexivity].
Qed.

Lemma white1_in (a : ascii) :
  JsString.white1 a = true -> In (String a EmptyString) WhiteSpace.
Proof.
  unfold JsString.white1. intros H. rewrite <- (ascii_nat_embedding a).
  revert H. generalize (nat_of_ascii a). intros x H. cbv zeta in H.
  apply orb_true_iff in H.
  rewrite andb_true_iff, !Nat.leb_le, Nat.eqb_eq in H.
  assert (Hx : x = 9 \/ x = 10 \/ x = 11 \/ x = 12 \/ x = 13 \/ x = 32)
    by lia.
  repeat destruct Hx as [->|Hx]; try subst x; apply in_white; reflexivity.
Qed.

Lemma white2_in (a b : ascii) :
  JsString.white2 a b = true ->
  In (String a (String b EmptyString)) WhiteSpace.
Proof.
  unfold JsString.white2. intros H.
  rewrite <- (ascii_nat_embedding a), <- (ascii_nat_embedding b).
  revert H. generalize (nat_of_ascii a) (nat_of_ascii b). intros x y H.
  rewrite andb_true_iff, !Nat.eqb_eq in H. destruct H as [-> ->].
  apply in_white. reflexivity.
Qed.

Lemma white3_in (a b c : ascii) :
  JsString.white3 a b c = true ->
  In (String a (String b (String c EmptyString))) WhiteSpace.
Proof.
  unfold JsString.white3. intros H.
  rewrite <- (ascii_nat_embedding a), <- (ascii_nat_embedding b),
    <- (ascii_nat_embedding c).
  revert H. generalize (nat_of_ascii a) (nat_of_ascii b) (nat_of_ascii c).
  intros x y z H. cbv zeta in H.
  repeat rewrite ?orb_true_iff, ?andb_true_iff, ?Nat.eqb_eq, ?Nat.leb_le
    in H.
  destruct H as [(-> & -> & ->)
                | [(-> & -> & [Hz | [-> | [-> | ->]]])
                  | [(-> & -> & ->)
                    | [(-> & -> & ->) | (-> & -> & ->)]]]];
    try (apply in_white; reflexivity).
  assert (Hcases : z = 128 \/ z = 129 \/ z = 130 \/ z = 131 \/ z = 132
                   \/ z = 133 \/ z = 134 \/ z = 135 \/ z = 136 \/ z = 137
                   \/ z = 138) by lia.
  clear Hz.
  repeat destruct Hcases as [->|Hcases]; try subst z;
    apply in_white; reflexivity.
Qed.

(** A text is empty, or begins with a white-space character that
    [trimStart] strips, or is not empty and is left as it is. *)
Lemma trimStart_cases (P : string -> Prop) :
  P EmptyString ->
  (forall w s, In w WhiteSpace -> P s -> P (w ++ s)) ->
  (forall s, s <> EmptyString -> JsString.trimStart s = s -> P s) ->
  forall s, P s.
Proof.
  intros Hempty Hwhite Hkept.
  assert (H : forall n s, String.length s <= n -> P s).
  { induction n as [|n IH]; intros s Hlen.
    - destruct s; [exact Hempty | cbn in Hlen; lia].
    - destruct s as [|a r1]; [exact Hempty|]. cbn in Hlen.
      destruct (JsString.white1 a) eqn:H1.
      + change (String a r1) with (String a EmptyString ++ r1).
        apply Hwhite; [apply white1_in; exact H1 | apply IH; lia].
      + destruct r1 as [|b r2].
        * apply Hkept; [discriminate|].
          cbn [JsString.trimStart]. rewrite H1. reflexivity.
        * cbn in Hlen. destruct (JsString.white2 a b) eqn:H2.
          -- change (String a (String b r2))
               with (String a (String b EmptyString) ++ r2).
             apply Hwhite; [apply white2_in; exact H2 | apply IH; lia].
          -- destruct r2 as [|c r3].
             ++ apply Hkept; [discriminate|].
                cbn [JsString.trimStart]. rewrite H1, H2. reflexivity.
             ++ cbn in Hlen. destruct (JsString.white3 a b c) eqn:H3.
                ** change (String a (String b (String c r3)))
                     with (String a (String b (String c EmptyString)) ++ r3).
                   apply Hwhite; [apply white3_in; exact H3 | apply IH; lia].
                ** apply Hkept; [discriminate|].
                   cbn [JsString.trimStart]. rewrite H1, H2, H3.
                   reflexivity. }
  intros s. exact (H (String.length s) s (le_n _)).
Qed.

Lemma blank_trimStart (s : string) :
  blank s -> JsString.trimStart s = EmptyString.
Proof.
  induction 1 as [|w s Hw _ IH]; [reflexivity|].
  rewrite (white_strip s Hw). exact IH.
Qed.

Lemma trimStart_blank (s : string) :
  JsString.trimStart s = EmptyString -> blank s.
Proof.
  induction s as [| w s Hw IH | s Hne Hkept] using trimStart_cases.
  - intros _. constructor.
  - rewrite (white_strip s Hw). intros H. constructor; [exact Hw | exact (IH H)].
  - rewrite Hkept. intros H. contradiction.
Qed.

Lemma trimStart_again (s : string) :
  JsString.trimStart (JsString.trimStart s) = JsString.trimStart s.
Proof.
  induction s as [| w s Hw IH | s Hne Hkept] using trimStart_cases.
  - reflexivity.
  - rewrite (white_strip s Hw). exact IH.
  - rewrite !Hkept. reflexivity.
Qed.

Lemma trimStart_shorter (s : string) :
  String.length (JsString.trimStart s) <= String.length s.
Proof.
  induction s as [| w s Hw IH | s Hne Hkept] using trimStart_cases.
  - cbn. lia.
  - rewrite (white_strip s Hw), length_append. lia.
  - rewrite Hkept. lia.
Qed.

Lemma trimStart_split (s : string) :
  exists pre, blank pre /\ s = pre ++ JsString.trimStart s.
Proof.
  induction s as [| w s Hw IH | s Hne Hkept] using trimStart_cases.
  - exists EmptyString. split; [constructor | reflexivity].
  - destruct IH as (pre & Hpre & Hs). exists (w ++ pre).
    split; [constructor; assumption|].
    rewrite (white_strip s Hw), append_assoc, <- Hs. reflexivity.
  - exists EmptyString. split; [constructor | rewrite Hkept; reflexivity].
Qed.

Lemma trimEnd_step (a : ascii) (rest : string) :
  JsString.trimEnd (String a rest)
  = match JsString.trimStart (String a rest) with
    | EmptyString => EmptyString
    | String _ _ => String a (JsString.trimEnd rest)
    end.
Proof. reflexivity. Qed.

Lemma trimEnd_empty (t : string) :
  JsString.trimEnd t = EmptyString <-> JsString.trimStart t = EmptyString.
Proof.
  destruct t as [|a rest]; [split; reflexivity|].
  rewrite trimEnd_step.
  destruct (JsString.trimStart (String a rest)); split;
    first [reflexivity | discriminate].
Qed.

Lemma trimEnd_split (t : string) :
  exists post, blank post /\ t = JsString.trimEnd t ++ post.
Proof.
  induction t as [|a rest IH].
  - exists EmptyString. split; [constructor | reflexivity].
  - rewrite trimEnd_step.
    destruct (JsString.trimStart (String a rest)) eqn:Hstart.
    + exists (String a rest).
      split; [apply trimStart_blank; exact Hstart | reflexivity].
    + destruct IH as (post & Hpost & Hrest). exists post.
      split; [exact Hpost|].
      change (String a (JsString.trimEnd rest) ++ post)
        with (String a (JsString.trimEnd rest ++ post)).
      rewrite <- Hrest. reflexivity.
Qed.

Lemma trimEnd_cut (before x : string) :
  JsString.trimStart x = EmptyString ->
  String.length (JsString.trimEnd (before ++ x)) <= String.length before.
Proof.
  intros Hx. induction before as [|a before IH].
  - apply trimEnd_empty in Hx.
    change (EmptyString ++ x) with x. rewrite Hx. cbn. lia.
  - change (String a before ++ x) with (String a (before ++ x)).
    rewrite trimEnd_step.
    destruct (JsString.trimStart (String a (before ++ x))); cbn; lia.
Qed.

(** What [trim] does: it yields the empty text exactly on white space;
    the text is the result between two runs of white space; and the
    result neither begins nor ends with a white-space character. *)
Lemma trim_blank (s : string) : JsString.trim s = EmptyString <-> blank s.
Proof.
  unfold JsString.trim. rewrite trimEnd_empty, trimStart_again.
  split; [apply trimStart_blank | apply blank_trimStart].
Qed.

Lemma trim_split (s : string) :
  exists pre post,
    blank pre /\ blank post /\ s = pre ++ JsString.trim s ++ post.
Proof.
  destruct (trimStart_split s) as (pre & Hpre & Hs).
  destruct (trimEnd_split (JsString.trimStart s)) as (post & Hpost & Ht).
  exists pre, post. split; [exact Hpre|]. split; [exact Hpost|].
  unfold JsString.trim. rewrite <- Ht. exact Hs.
Qed.

Lemma trim_no_white_prefix (s w rest : string) :
  In w WhiteSpace -> JsString.trim s <> w ++ rest.
Proof.
  intros Hw Htrim. unfold JsString.trim in Htrim.
  pose proof (trimStart_again s) as Hkept.
  destruct (trimEnd_split (JsString.trimStart s)) as (post & _ & Ht).
  rewrite Htrim, append_assoc in Ht.
  rewrite Ht in Hkept at 1. rewrite (white_strip _ Hw) in Hkept.
  pose proof (trimStart_shorter (rest ++ post)) as Hlen.
  rewrite Hkept, Ht, length_append in Hlen.
  pose proof (white_nonempty Hw). lia.
Qed.

Lemma trim_no_white_suffix (s w before : string) :
  In w WhiteSpace -> JsString.trim s <> before ++ w.
Proof.
  intros Hw Htrim. unfold JsString.trim in Htrim.
  destruct (trimEnd_split (JsString.trimStart s)) as (post & Hpost & Ht).
  rewrite Htrim, append_assoc in Ht.
  assert (Hblank : JsString.trimStart (w ++ post) = EmptyString)
    by (apply blank_trimStart; constructor; assumption).
  pose proof (@trimEnd_cut before (w ++ post) Hblank) as Hcut.
  rewrite <- Ht, Htrim, length_append in Hcut.
  pose proof (white_nonempty Hw). lia.
Qed.

(** handleSubmitReview sends nothing when there is no book on the page,
    no signed-in user, or a comment that is empty or white space only
    (any white space that [trim] strips, U+00A0 and the like included):
    whichever it is, the one alert asks for a review comment, and no
    cell changes. *)
Theorem blank_review_is_not_sent :
  forall (E : env) (user : option User) (st : BookDetailPage.state),
    BookDetail.book (BookDetailPage.selecting (cells st)) = None
    \/ user = None
    \/ blank (BookDetailPage.reviewComment (cells st)) ->
    BookDetailPage.handleSubmitReview E user st
    = ({| cells := cells st;
          navigated := navigated st;
          alerted := "Please enter a review comment" :: alerted st |},
       [], Ok tt).
Proof.
  intros E user st Hguard. destruct st as [c nav al].
  cbn [cells navigated alerted] in *.
  unfold BookDetailPage.handleSubmitReview. page_step.
  destruct (BookDetail.book (BookDetailPage.selecting c))
    as [book|]; [|reflexivity].
  destruct user as [u|]; [|reflexivity].
  destruct Hguard as [H|[H|H]]; try discriminate H.
  apply trim_blank in H. rewrite H. reflexivity.
Qed.

Lemma blank_review_witness :
  let reader := {| user_id := "u1"; email := "reader@example.test";
                   user_name := "Reader"; user_role := role_user;
                   user_createdAt := "2024-01-01T00:00:00.000Z" |} in
  let st :=
    {| cells :=
         {| BookDetailPage.selecting :=
              {| BookDetail.book := Some (a_book "b" "Emma");
                 BookDetail.isModalOpen := false;
                 BookDetail.readingLists := [];
                 BookDetail.isAddingToList := false |};
            BookDetailPage.isLoading := false;
            BookDetailPage.isLoadingLists := false;
            BookDetailPage.isReviewModalOpen := true;
            BookDetailPage.reviews := JArr [];
            BookDetailPage.isLoadingReviews := false;
            BookDetailPage.reviewRating := 4;
            BookDetailPage.reviewComment :=
              utf8 [194; 160; 32; 227; 128; 128; 10];
            BookDetailPage.isSubmittingReview := false |};
       navigated := []; alerted := [] |} in
  BookDetailPage.handleSubmitReview offline (Some reader) st
  = ({| cells := cells st; navigated := [];
        alerted := ["Please enter a review comment"] |}, [], Ok tt).
Proof.
  intros reader st.
  apply (@blank_review_is_not_sent offline (Some reader) st).
  right. right.
  apply (@blank_white (utf8 [194; 160]) (utf8 [32; 227; 128; 128; 10]));
    [apply in_white; reflexivity|].
  apply (@blank_white (utf8 [32]) (utf8 [227; 128; 128; 10]));
    [apply in_white; reflexivity|].
  apply (@blank_white (utf8 [227; 128; 128]) (utf8 [10]));
    [apply in_white; reflexivity|].
  apply (@blank_white (utf8 [10]) EmptyString);
    [apply in_white; reflexivity | constructor].
Defined.

(** With a book on the page, a signed-in user, a comment that is not
    blank and reviews that are an array, handleSubmitReview never
    rejects, ends with its flag down, and sends exactly one request: the
    POST to /books/{id}/reviews under the headers of getAuthHeaders,
    whose body holds, field by field, the book's id, the user's id and
    name, the rating, and the comment trimmed.  The trimmed comment is
    the one typed without the white space around it: it neither begins
    nor ends with a white-space character.  Acknowledged, the review the
    server returned is put in front of the reviews, the modal is closed,
    the form is reset to rating 5 and an empty comment, and the success
    is notified; failed, reviews, modal and form stay as they were, so
    that what was typed is not lost, and the error is notified. *)
Theorem handleSubmitReview_settles :
  forall (E : env) (u : User) (st : BookDetailPage.state)
         (book : Book) (items : list json),
    BookDetail.book (BookDetailPage.selecting (cells st)) = Some book ->
    ~ blank (BookDetailPage.reviewComment (cells st)) ->
    BookDetailPage.reviews (cells st) = JArr items ->
    let typed := BookDetailPage.reviewComment (cells st) in
    let comment := JsString.trim typed in
    let body :=
      JObj [("bookId", JStr (book_id book));
            ("userId", JStr (user_id u));
            ("userName", JStr (user_name u));
            ("rating", JNum (BookDetailPage.reviewRating (cells st)));
            ("comment", JStr comment)] in
    let run := BookDetailPage.handleSubmitReview E (Some u) st in
    outcome run = Ok tt
    /\ BookDetailPage.isSubmittingReview (cells (final_state run)) = false
    /\ fetches (trace run)
       = [{| req_method := POST;
             req_url := API_BASE_URL E ++ "/books/" ++ book_id book
                        ++ "/reviews";
             req_headers := headers_for (fetchAuthSession E);
             req_body := Some body |}]
    /\ (exists pre post,
           blank pre /\ blank post /\ typed = pre ++ comment ++ post)
    /\ (forall w rest, In w WhiteSpace -> comment <> w ++ rest)
    /\ (forall w before, In w WhiteSpace -> comment <> before ++ w)
    /\ navigated (final_state run) = navigated st
    /\ alerted (final_state run) = alerted st
    /\ match outcome (Api.createReview E (book_id book) body st) with
       | Ok newReview =>
           BookDetailPage.reviews (cells (final_state run))
           = JArr (newReview :: items)
           /\ BookDetailPage.isReviewModalOpen (cells (final_state run))
              = false
           /\ BookDetailPage.reviewRating (cells (final_state run)) = 5%Z
           /\ BookDetailPage.reviewComment (cells (final_state run))
              = EmptyString
           /\ notices (trace run)
              = [EvShowSuccess "Review submitted successfully!"]
       | Throw e =>
           BookDetailPage.reviews (cells (final_state run))
           = BookDetailPage.reviews (cells st)
           /\ BookDetailPage.isReviewModalOpen (cells (final_state run))
              = BookDetailPage.isReviewModalOpen (cells st)
           /\ BookDetailPage.reviewRating (cells (final_state run))
              = BookDetailPage.reviewRating (cells st)
           /\ BookDetailPage.reviewComment (cells (final_state run))
              = BookDetailPage.reviewComment (cells st)
           /\ notices (trace run) = [EvHandleApiError e]
       end.
Proof.
  intros E u st book items Hbook Hcomment Hreviews typed comment body run.
  assert (Hfirst : exists c rest, comment = String c rest).
  { subst comment. destruct (JsString.trim typed) as [|c rest] eqn:Htrim.
    - apply trim_blank in Htrim. contradiction.
    - eexists. eexists. reflexivity. }
  destruct Hfirst as (c & rest & Hshape).
  pose proof (trim_split typed) as Hsplit. fold comment in Hsplit.
  assert (Hhead : forall w rest, In w WhiteSpace -> comment <> w ++ rest)
    by (intros w r Hw; apply trim_no_white_prefix; exact Hw).
  assert (Htail : forall w before, In w WhiteSpace -> comment <> before ++ w)
    by (intros w b Hw; apply trim_no_white_suffix; exact Hw).
  destruct (api_calls_of_the_pages (S := BookDetailPage.state) E)
    as (_ & _ & _ & Hcreate).
  destruct (api_call_run st (Hcreate (book_id book) body))
    as (t & r & Hrun & Hsent & Hquiet).
  unfold review_request in Hsent.
  subst run. rewrite Hrun. cbn [outcome snd].
  subst typed.
  destruct st as [[sel f1 f2 f3 rv f4 n0 c0 f5] nav al].
  cbn [cells navigated alerted BookDetailPage.selecting
       BookDetailPage.reviewComment BookDetailPage.reviews
       BookDetailPage.reviewRating BookDetailPage.isReviewModalOpen] in *.
  unfold BookDetailPage.handleSubmitReview. page_step.
  cbn [BookDetailPage.selecting BookDetailPage.reviewComment
       BookDetailPage.reviews BookDetailPage.reviewRating].
  rewrite Hbook. fold comment.
  change (BookDetailPage.review_payload book u n0 comment) with body.
  rewrite Hshape. rewrite <- Hshape.
  book_page_step. rewrite !Hrun. subst rv.
  destruct r as [newReview|e]; book_page_step;
    rewrite ?fetches_app, ?notices_app, ?Hsent, ?Hquiet;
    repeat split; try exact Hsplit;
    try (intros w r Hw; apply Hhead; exact Hw);
    try (intros w b Hw; apply Htail; exact Hw).
Qed.

Lemma handleSubmitReview_witness :
  let E := env_serving (Throw TypeError)
                       (Ok (reply 201 "Created" "{'id':'r1'}")) in
  let reader := {| user_id := "u1"; email := "reader@example.test";
                   user_name := "Reader"; user_role := role_user;
                   user_createdAt := "2024-01-01T00:00:00.000Z" |} in
  let st :=
    {| cells :=
         {| BookDetailPage.selecting :=
              {| BookDetail.book := Some (a_book "b" "Emma");
                 BookDetail.isModalOpen := false;
                 BookDetail.readingLists := [];
                 BookDetail.isAddingToList := false |};
            BookDetailPage.isLoading := false;
            BookDetailPage.isLoadingLists := false;
            BookDetailPage.isReviewModalOpen := true;
            BookDetailPage.reviews := JArr [JObj [("id", JStr "r0")]];
            BookDetailPage.isLoadingReviews := false;
            BookDetailPage.reviewRating := 4;
            BookDetailPage.reviewComment :=
              utf8 [194; 160] ++ " A fine read" ++ utf8 [32; 226; 128; 168];
            BookDetailPage.isSubmittingReview := false |};
       navigated := []; alerted := [] |} in
  let run := BookDetailPage.handleSubmitReview E (Some reader) st in
  fetches (trace run)
  = [{| req_method := POST;
        req_url := "https://api.example.test/books/b/reviews";
        req_headers := [("Content-Type", "application/json")];
        req_body := Some (JObj [("bookId", JStr "b");
                                ("userId", JStr "u1");
                                ("userName", JStr "Reader");
                                ("rating", JNum 4);
                                ("comment", JStr "A fine read")]) |}]
  /\ BookDetailPage.reviews (cells (final_state run))
     = JArr [JObj [("id", JStr "r1")]; JObj [("id", JStr "r0")]]
  /\ BookDetailPage.reviewComment (cells (final_state run)) = EmptyString.
Proof.
  intros E reader st run.
  destruct (@handleSubmitReview_settles E reader st (a_book "b" "Emma")
              [JObj [("id", JStr "r0")]] eq_refl)
    as (_ & _ & Hsent & _ & _ & _ & _ & _ & Hack).
  - intros Hblank. apply blank_trimStart in Hblank. discriminate Hblank.
  - reflexivity.
  - destruct Hack as (Hreviews & _ & _ & Hcomment & _).
    split; [exact Hsent|]. split; [exact Hreviews | exact Hcomment].
Defined.

(** The reviews of the page are an array at every render: they are one
    when the page is mounted, loadReviews and handleSubmitReview keep
    them one whatever the server answers, and no other handler of the
    page touches them.  So the spread [[newReview, ...reviews]] of
    handleSubmitReview cannot throw. *)
Theorem reviews_stay_an_array :
  forall (E : env) (lists_of : json -> list ReadingList)
         (user : option User) (st : BookDetailPage.state),
    Js.isArray (BookDetailPage.reviews (cells st)) = true ->
    (forall bookId,
        Js.isArray (BookDetailPage.reviews
                      (cells (final_state
                                (BookDetailPage.loadReviews E bookId st))))
        = true)
    /\ Js.isArray (BookDetailPage.reviews
                     (cells (final_state
                               (BookDetailPage.handleSubmitReview E user st))))
       = true
    /\ (forall bookId,
          BookDetailPage.reviews
            (cells (final_state (BookDetailPage.loadBook E bookId st)))
          = BookDetailPage.reviews (cells st))
    /\ BookDetailPage.reviews
         (cells (final_state (BookDetailPage.handleAddToList E lists_of st)))
       = BookDetailPage.reviews (cells st)
    /\ BookDetailPage.reviews
         (cells (final_state (BookDetailPage.handleWriteReview user st)))
       = BookDetailPage.reviews (cells st)
    /\ (forall listId,
          BookDetailPage.reviews
            (cells (final_state
                      (BookDetailPage.on_selecting
                         (BookDetail.handleSelectList E listId) st)))
          = BookDetailPage.reviews (cells st)).
Proof.
  intros E lists_of user st Harray.
  destruct (api_calls_of_the_pages (S := BookDetailPage.state) E)
    as (Hlists & _ & Hreviews & Hcreate).
  destruct st as [[sel f1 f2 f3 rv f4 n0 c0 f5] nav al].
  cbn [cells BookDetailPage.reviews] in Harray.
  split; [|split; [|split; [|split; [|split]]]].
  - intros bookId.
    destruct (api_call_run
                {| cells :=
                     {| BookDetailPage.selecting := sel;
                        BookDetailPage.isLoading := f1;
                        BookDetailPage.isLoadingLists := f2;
                        BookDetailPage.isReviewModalOpen := f3;
                        BookDetailPage.reviews := rv;
                        BookDetailPage.isLoadingReviews := f4;
                        BookDetailPage.reviewRating := n0;
                        BookDetailPage.reviewComment := c0;
                        BookDetailPage.isSubmittingReview := f5 |};
                   navigated := nav; alerted := al |} (Hreviews bookId))
      as (t & r & Hrun & _).
    assert (Hdata : forall data, r = Ok data -> Js.isArray data = true).
    { intros data ->.
      apply (getReviews_array E bookId
               {| cells := BookDetailPage.mounted;
                  navigated := []; alerted := [] |}).
      rewrite Hrun. reflexivity. }
    unfold BookDetailPage.loadReviews. book_page_step. rewrite !Hrun.
    destruct r as [data|e]; book_page_step;
      [apply Hdata; reflexivity | exact Harray].
  - unfold BookDetailPage.handleSubmitReview. book_page_step.
    destruct (BookDetail.book sel) as [book|]; [|exact Harray].
    destruct user as [u|]; [|exact Harray].
    destruct (JsString.trim c0) as [|c rest] eqn:Htrim; [exact Harray|].
    book_page_step.
    match goal with
    | |- context [Api.createReview E ?id ?payload ?s] =>
        destruct (api_call_run s (Hcreate id payload))
          as (t & r & Hrun & _)
    end.
    rewrite !Hrun.
    destruct r as [newReview|e]; book_page_step; [|exact Harray].
    destruct rv; try discriminate Harray. book_page_step. reflexivity.
  - intros bookId. unfold BookDetailPage.loadBook, Api.getBook.
    book_page_step.
    destruct (find _ (mockBooks E)); book_page_step; reflexivity.
  - destruct (api_call_run
                {| cells := BookDetailPage.mounted;
                   navigated := []; alerted := [] |} Hlists)
      as (t & r & Hrun & _).
    unfold BookDetailPage.handleAddToList, BookDetailPage.loadReadingLists.
    book_page_step. rewrite !Hrun.
    destruct r as [lists|e]; book_page_step; reflexivity.
  - unfold BookDetailPage.handleWriteReview.
    destruct user; book_page_step; reflexivity.
  - intros listId. unfold BookDetailPage.on_selecting.
    book_page_step. reflexivity.
Qed.

Lemma reviews_stay_an_array_witness :
  let st := {| cells := BookDetailPage.mounted;
               navigated := []; alerted := [] |} in
  Js.isArray
    (BookDetailPage.reviews
       (cells (final_state (BookDetailPage.loadReviews offline "b" st))))
  = true.
Proof.
  intros st.
  destruct (@reviews_stay_an_array offline (fun _ => []) None st eq_refl)
    as (Hload & _).
  exact (Hload "b").
Defined.

(** ** Opening the list chooser *)

(** handleAddToList opens the modal before anything else and never
    rejects, so that the call of loadReadingLists it does not await
    leaves no unhandled rejection.  One request, for the lists, is
    sent; the flag of the loading ends down; the lists become those
    received, or stay when the request failed, the error being notified
    while the modal stays open. *)
Theorem handleAddToList_settles :
  forall (E : env) (lists_of : json -> list ReadingList)
         (st : BookDetailPage.state),
    let run := BookDetailPage.handleAddToList E lists_of st in
    let shown s := BookDetailPage.selecting (cells s) in
    outcome run = Ok tt
    /\ outcome (BookDetailPage.loadReadingLists E lists_of st) = Ok tt
    /\ hd_error (trace run) = Some (EvSet (SetIsModalOpen true))
    /\ BookDetail.isModalOpen (shown (final_state run)) = true
    /\ BookDetailPage.isLoadingLists (cells (final_state run)) = false
    /\ fetches (trace run) = [lists_request E]
    /\ BookDetail.book (shown (final_state run)) = BookDetail.book (shown st)
    /\ navigated (final_state run) = navigated st
    /\ match outcome (Api.getReadingLists E st) with
       | Ok lists =>
           BookDetail.readingLists (shown (final_state run)) = lists_of lists
           /\ notices (trace run) = []
       | Throw e =>
           BookDetail.readingLists (shown (final_state run))
           = BookDetail.readingLists (shown st)
           /\ notices (trace run) = [EvHandleApiError e]
       end.
Proof.
  intros E lists_of st run shown. subst run shown.
  destruct (api_calls_of_the_pages (S := BookDetailPage.state) E)
    as (Hlists & _).
  destruct (api_call_run st Hlists) as (t & r & Hrun & Hsent & Hquiet).
  rewrite Hrun. cbn [outcome snd].
  destruct st as [[[b0 m0 ls0 a0] f1 f2 f3 rv f4 n0 c0 f5] nav al].
  unfold BookDetailPage.handleAddToList, BookDetailPage.loadReadingLists.
  book_page_step. rewrite !Hrun.
  destruct r as [lists|e]; book_page_step;
    rewrite ?fetches_app, ?notices_app, ?Hsent, ?Hquiet;
    repeat split.
Qed.

(* ================================================================== *)
(** * Signing up *)

Ltac signup_step :=
  unfold Signup.validate, Signup.setErrors, Signup.setNeedsVerification,
    Signup.setIsLoading, Signup.on_form, Signup.on_auth,
    AuthContext.signup, AuthContext.confirmSignup, AuthContext.await,
    AuthContext.setIsLoading, console_error, of_result;
  page_step;
  cbn [Signup.fields Signup.auth Signup.name Signup.email Signup.password
       Signup.confirmPassword Signup.verificationCode
       Signup.needsVerification Signup.errors Signup.isLoading
       AuthContext.user AuthContext.isLoading].

Lemma no_keys_valid vR vE vP (f : Signup.form) :
  Signup.no_keys (Signup.newErrors vR vE vP f) = true ->
  vR (Signup.name f) = true
  /\ vR (Signup.email f) = true
  /\ vE (Signup.email f) = true
  /\ vR (Signup.password f) = true
  /\ vP (Signup.password f) = true
  /\ Signup.password f = Signup.confirmPassword f.
Proof.
  unfold Signup.no_keys, Signup.newErrors.
  cbn [Signup.name_error Signup.email_error Signup.password_error
       Signup.confirmPassword_error Signup.verificationCode_error].
  destruct (vR (Signup.name f)); cbn [negb]; [|discriminate].
  destruct (vR (Signup.email f)); cbn [negb]; [|discriminate].
  destruct (vE (Signup.email f)); cbn [negb]; [|discriminate].
  destruct (vR (Signup.password f)); cbn [negb]; [|discriminate].
  destruct (vP (Signup.password f)); cbn [negb]; [|discriminate].
  destruct (String.eqb (Signup.password f) (Signup.confirmPassword f))
    eqn:Hsame; cbn [negb]; [|discriminate].
  intros _. apply String.eqb_eq in Hsame. repeat split. exact Hsame.
Qed.

(** The provider's [signUp] is called only for a form that passed every
    check: the page is in its first step, the name, the e-mail address
    and the password are present, address and password are well formed,
    and the password was typed twice alike.  The account is then created
    under the e-mail address as user name, with the address and the name
    as attributes. *)
Theorem signUp_only_for_valid_forms :
  forall (P : AuthContext.provider)
         (validateRequired validateEmail validatePassword : string -> bool)
         (st : Signup.state) (u p e n : string),
    In (EvProvider (SignUp u p e n))
       (trace (Signup.handleSubmit P validateRequired validateEmail
                 validatePassword st)) ->
    let f := Signup.fields (cells st) in
    Signup.needsVerification f = false
    /\ (u, p, e, n)
       = (Signup.email f, Signup.password f, Signup.email f, Signup.name f)
    /\ validateRequired (Signup.name f) = true
    /\ validateRequired (Signup.email f) = true
    /\ validateEmail (Signup.email f) = true
    /\ validateRequired (Signup.password f) = true
    /\ validatePassword (Signup.password f) = true
    /\ Signup.password f = Signup.confirmPassword f.
Proof.
  intros P vR vE vP st u p e n Hin f. subst f. revert Hin.
  destruct st as [[f a] nav al].
  cbn [cells Signup.fields].
  unfold Signup.handleSubmit. signup_step.
  destruct (Signup.needsVerification f) eqn:Hstep; signup_step.
  - destruct (Signup.verificationCode f) as [|c code]; signup_step;
      [intros []|].
    destruct (AuthContext.confirmSignUp P _ _) as [[]|err]; signup_step;
      cbn [app In]; intros Hin; exfalso; intuition discriminate.
  - destruct (Signup.no_keys (Signup.newErrors vR vE vP f)) eqn:Hvalid;
      signup_step; [|intros []].
    destruct (no_keys_valid vR vE vP f Hvalid) as (H1 & H2 & H3 & H4 & H5 & H6).
    destruct (AuthContext.signUp P _ _ _ _) as [[]|err]; signup_step;
      cbn [app In]; intros Hin;
      (assert (Hcall : EvProvider (SignUp (Signup.email f) (Signup.password f)
                                     (Signup.email f) (Signup.name f))
                       = EvProvider (SignUp u p e n))
         by intuition discriminate);
      injection Hcall as <- <- <- <-; repeat split; assumption.
Qed.

Lemma signUp_only_for_valid_forms_witness :
  let st := signup_page "Reader" "reader@example.test" "Secret123"
                        "Secret123" "" false in
  Signup.password (Signup.fields (cells st))
  = Signup.confirmPassword (Signup.fields (cells st))
  /\ filled (Signup.name (Signup.fields (cells st))) = true.
Proof.
  intros st.
  destruct (@signUp_only_for_valid_forms
              (provider_settling (Ok tt) (Ok tt)) filled filled filled st
              "reader@example.test" "Secret123" "reader@example.test"
              "Reader")
    as (_ & _ & Hname & _ & _ & _ & _ & Hsame).
  - right. right. left. reflexivity.
  - split; [exact Hsame | exact Hname].
Defined.

(** handleSubmit never rejects, never alerts and leaves what was typed
    in place.  In the first step it stores the outcome of the checks as
    the errors; a form that fails one sends nothing, and a form that
    passes is sent to [signUp], after which the loading flag is down and
    the page is in its second step exactly when the account was created,
    a failure being logged and notified.  In the second step the page
    stays there; an empty code sends nothing and is reported as the one
    error; any other code goes to [confirmSignUp], and the page
    navigates to /login exactly when that succeeded. *)
Theorem signup_proceeds_in_two_steps :
  forall (P : AuthContext.provider)
         (validateRequired validateEmail validatePassword : string -> bool)
         (st : Signup.state),
    let f := Signup.fields (cells st) in
    let run := Signup.handleSubmit P validateRequired validateEmail
                 validatePassword st in
    let f' := Signup.fields (cells (final_state run)) in
    let checked :=
      Signup.newErrors validateRequired validateEmail validatePassword f in
    outcome run = Ok tt
    /\ alerted (final_state run) = alerted st
    /\ (Signup.name f', Signup.email f', Signup.password f',
        Signup.confirmPassword f', Signup.verificationCode f')
       = (Signup.name f, Signup.email f, Signup.password f,
          Signup.confirmPassword f, Signup.verificationCode f)
    /\ if Signup.needsVerification f then
         Signup.needsVerification f' = true
         /\ match Signup.verificationCode f with
            | EmptyString =>
                trace run = []
                /\ navigated (final_state run) = navigated st
                /\ Signup.verificationCode_error (Signup.errors f')
                   = Some "Verification code is required"
                /\ Signup.isLoading f' = Signup.isLoading f
            | String _ _ =>
                Signup.isLoading f' = false
                /\ Signup.errors f' = Signup.errors f
                /\ match AuthContext.confirmSignUp P (Signup.email f)
                           (Signup.verificationCode f) with
                   | Ok _ =>
                       navigated (final_state run)
                       = "/login" :: navigated st
                       /\ notices (trace run) = []
                   | Throw e =>
                       navigated (final_state run) = navigated st
                       /\ notices (trace run) = [EvHandleApiError e]
                       /\ In (EvConsoleError "Confirm signup error:")
                             (trace run)
                   end
            end
       else
         navigated (final_state run) = navigated st
         /\ Signup.errors f' = checked
         /\ if Signup.no_keys checked then
              Signup.isLoading f' = false
              /\ match AuthContext.signUp P (Signup.email f)
                         (Signup.password f) (Signup.email f)
                         (Signup.name f) with
                 | Ok _ =>
                     Signup.needsVerification f' = true
                     /\ notices (trace run) = []
                 | Throw e =>
                     Signup.needsVerification f' = false
                     /\ notices (trace run) = [EvHandleApiError e]
                     /\ In (EvConsoleError "Signup error:") (trace run)
                 end
            else
              trace run = []
              /\ Signup.needsVerification f' = false
              /\ Signup.isLoading f' = Signup.isLoading f.
Proof.
  intros P vR vE vP st f run f' checked. subst f run f' checked.
  destruct st as [[f a] nav al].
  cbn [cells Signup.fields].
  unfold Signup.handleSubmit. signup_step.
  destruct (Signup.needsVerification f) eqn:Hstep; signup_step.
  - destruct (Signup.verificationCode f) as [|c code] eqn:Hcode; signup_step;
      [rewrite ?Hstep, ?Hcode; repeat split|].
    destruct (AuthContext.confirmSignUp P _ _) as [[]|err]; signup_step;
      rewrite ?Hstep, ?Hcode; repeat split.
    cbn. do 3 right. left. reflexivity.
  - destruct (Signup.no_keys (Signup.newErrors vR vE vP f)) eqn:Hvalid;
      signup_step; [|rewrite ?Hstep; repeat split].
    destruct (AuthContext.signUp P _ _ _ _) as [[]|err]; signup_step;
      rewrite ?Hstep; repeat split.
    cbn. do 3 right. left. reflexivity.
Qed.
